(** * Anatomy of a Horror Hit: the scene router, the scroll-sync engine and
      the aggregation layer of [app.js], as Rocq definitions.

    Conventions of the embedding.
    - A JavaScript string is a [string] holding its UTF-8 bytes.
    - A d3 transition is recorded by the value it animates to: the
      property takes its target value when the transition is started, and
      a later write to the same property wins.
    - Work that the browser runs later (the end of a crossfade, the
      completion of a CSV download, a [setTimeout]) is a [Task] in the
      [pending] list of the state, run by [fire], in whatever order the
      browser comes to it.  The end of a crossfade is dropped when a newer
      root transition is created before it: d3 interrupts the older
      transition and never dispatches its [end].
    - A function that throws leaves the state it has reached and ends
      the handler that called it: [Outcome] tells a return from a throw.
    - Counts are natural numbers.  Views, ratings and pixel coordinates
      are the rationals that finite doubles denote, [None] standing for
      [NaN] or [undefined]; every addition, subtraction and division of
      the code is followed by the rounding [fl] to the nearest double.
      Sums are taken to stay in the range of the doubles.  The radius
      scale is given twice: in the arithmetic of the code, to evaluate it,
      and in real arithmetic, for its bounds and its order.
    - Every function that the router [go] or the scroll engine calls
      appends its name to the [calls] log of the state when it is
      entered; [go], [setActiveByCenter] and the observer callback are the
      entry points and log nothing themselves.
    - Pixel positions, texts of axis elements, hover handlers and the
      contents of the tooltip are not recorded; a mark or an axis records
      which scales drew it. *)

From Stdlib Require Import List String Ascii Bool Arith Lia.
From Stdlib Require Import NArith QArith Qabs.
From Stdlib Require Import Floats.SpecFloat.
From Stdlib Require Import Reals Lra.
From Stdlib Require Import Sorted Permutation.
Import ListNotations.

Local Open Scope string_scope.
Local Open Scope nat_scope.
Local Open Scope list_scope.

(* ================================================================== *)
(** ** JavaScript and d3 helpers *)
(* ================================================================== *)

Definition code (c : ascii) : nat := nat_of_ascii c.

(** White space of ECMAScript ([WhiteSpace] and [LineTerminator]), by the
    UTF-8 encoding of each code point. *)
Definition ws1 (c : ascii) : bool :=
  let n := code c in ((9 <=? n) && (n <=? 13)) || (n =? 32).

Definition ws2 (c1 c2 : ascii) : bool :=
  (code c1 =? 194) && (code c2 =? 160).                       (* U+00A0 *)

Definition ws3 (c1 c2 c3 : ascii) : bool :=
  let a := code c1 in
  let b := code c2 in
  let c := code c3 in
     ((a =? 225) && (b =? 154) && (c =? 128))                  (* U+1680 *)
  || ((a =? 226) && (b =? 128) && ((128 <=? c) && (c <=? 138))) (* U+2000-200A *)
  || ((a =? 226) && (b =? 128) &&
        ((c =? 168) || (c =? 169) || (c =? 175)))              (* U+2028/9, U+202F *)
  || ((a =? 226) && (b =? 129) && (c =? 159))                  (* U+205F *)
  || ((a =? 227) && (b =? 128) && (c =? 128))                  (* U+3000 *)
  || ((a =? 239) && (b =? 187) && (c =? 191)).                 (* U+FEFF *)

(** Drop white space at the head of a byte list.  With [back = true] the
    list is a reversed string, so the bytes of a code point come last
    byte first. *)
Fixpoint strip (back : bool) (l : list ascii) : list ascii :=
  match l with
  | [] => []
  | c1 :: r =>
      if ws1 c1 then strip back r
      else match r with
           | [] => l
           | c2 :: r2 =>
               if (if back then ws2 c2 c1 else ws2 c1 c2) then strip back r2
               else match r2 with
                    | [] => l
                    | c3 :: r3 =>
                        if (if back then ws3 c3 c2 c1 else ws3 c1 c2 c3)
                        then strip back r3
                        else l
                    end
           end
  end.

(** [String.prototype.trim]. *)
Definition trim (s : string) : string :=
  string_of_list_ascii
    (rev (strip true (rev (strip false (list_ascii_of_string s))))).

(** [a || ""] on a value that is a string or [undefined]. *)
Definition or_empty (a : option string) : string :=
  match a with Some s => s | None => "" end.

(** [!a] on a value that is a string or [undefined]: the empty string and
    [undefined] are falsy. *)
Definition falsy (a : option string) : bool :=
  match a with Some s => String.eqb s "" | None => true end.

(** [d3.group]: an insertion-ordered map from key to the array of the
    values with that key.  A new key is appended, a known key keeps its
    place. *)
Fixpoint group_add {A : Type} (k : string) (x : A)
    (groups : list (string * list A)) : list (string * list A) :=
  match groups with
  | [] => [(k, [x])]
  | (k', v) :: rest =>
      if String.eqb k' k then (k', v ++ [x]) :: rest
      else (k', v) :: group_add k x rest
  end.

Definition d3_groups {A : Type} (values : list A) (key : A -> string)
    : list (string * list A) :=
  fold_left (fun g x => group_add (key x) x g) values [].

(** [d3.rollups(values, reduce, key)], and the entries of
    [d3.rollup(values, reduce, key)] in iteration order. *)
Definition d3_rollups {A B : Type} (values : list A)
    (reduce : list A -> B) (key : A -> string) : list (string * B) :=
  map (fun kv => (fst kv, reduce (snd kv))) (d3_groups values key).

(** [Array.prototype.sort(cmp)], which is stable.  [gt a b] stands for
    [cmp(a, b) > 0]: [a] has to come after [b]. *)
Fixpoint js_insert {A : Type} (gt : A -> A -> bool) (x : A) (l : list A)
    : list A :=
  match l with
  | [] => [x]
  | y :: rest => if gt x y then y :: js_insert gt x rest else x :: l
  end.

Definition js_sort {A : Type} (gt : A -> A -> bool) (l : list A) : list A :=
  fold_right (js_insert gt) [] l.

(** [array.slice(0, n)]. *)
Definition slice0 {A : Type} (n : nat) (l : list A) : list A := firstn n l.

(* ================================================================== *)
(** ** Fear vocabulary *)
(* ================================================================== *)

Definition FEAR_CATEGORY_NAMES : list string :=
  [ "Invasion, Impostors & Paranoia";
    "Persecution & Social Breakdown";
    "Institutional & Structural Control";
    "Possession & Loss of Agency";
    "Captivity & Voyeuristic Sadism";
    "Contagion & Mutation";
    "Body Horror / Envelope Violation";
    "Ecological / Natural Menace";
    "Isolation & Psychological Unraveling";
    "Grief & Familial Trauma";
    "Transgression & Moral Punishment" ].

(** [FEAR_SET.has(s)]. *)
Definition FEAR_SET_has (s : string) : bool :=
  existsb (String.eqb s) FEAR_CATEGORY_NAMES.

Definition FEAR_GROUP_MAP : list (string * string) :=
  [ ("Invasion, Impostors & Paranoia", "Societal & Structural Horrors");
    ("Persecution & Social Breakdown", "Societal & Structural Horrors");
    ("Institutional & Structural Control", "Societal & Structural Horrors");
    ("Captivity & Voyeuristic Sadism", "The Body as Battleground");
    ("Contagion & Mutation", "The Body as Battleground");
    ("Body Horror / Envelope Violation", "The Body as Battleground");
    ("Possession & Loss of Agency", "Psychological & Domestic Horrors");
    ("Isolation & Psychological Unraveling", "Psychological & Domestic Horrors");
    ("Grief & Familial Trauma", "Psychological & Domestic Horrors");
    ("Ecological / Natural Menace", "Cosmic & Moral Reckonings");
    ("Transgression & Moral Punishment", "Cosmic & Moral Reckonings") ].

(** [FEAR_GROUP_MAP.get(k)]; [None] is [undefined]. *)
Fixpoint map_get (m : list (string * string)) (k : string) : option string :=
  match m with
  | [] => None
  | (k', v) :: rest => if String.eqb k' k then Some v else map_get rest k
  end.

Definition FEAR_GROUP_MAP_get (k : string) : option string :=
  map_get FEAR_GROUP_MAP k.

(* ================================================================== *)
(** ** Fear-label rows and the two bar datasets *)
(* ================================================================== *)

(** A row of a fear-label CSV file; only the [Fear_Category] column is
    read.  [None] is a row without that column. *)
Record FearRow := { Fear_Category : option string }.

Record FearCount := { fear : string; count : nat }.
Record GroupCount := { group : string; group_count : nat }.

(** A row whose [Fear_Category] is [s]. *)
Definition fear_row (s : string) : FearRow := {| Fear_Category := Some s |}.

Definition fearKey (d : FearRow) : string := trim (or_empty (Fear_Category d)).

(** [fearRows.filter(d => FEAR_SET.has((d.Fear_Category || "").trim()))] *)
Definition filtered (fearRows : list FearRow) : list FearRow :=
  filter (fun d => FEAR_SET_has (fearKey d)) fearRows.

(** [d3.descending(a, b) > 0], that is [b > a]. *)
Definition descending_gt (a b : nat) : bool := a <? b.

(** The [counts] of [drawFearBars]. *)
Definition fearCounts (fearRows : list FearRow) : list FearCount :=
  js_sort (fun a b => descending_gt (count a) (count b))
    (map (fun kv => {| fear := fst kv; count := snd kv |})
       (d3_rollups (filtered fearRows) (@List.length FearRow) fearKey)).

(** [FEAR_GROUP_MAP.get(...) || "Unmapped"] *)
Definition groupKey (d : FearRow) : string :=
  match FEAR_GROUP_MAP_get (fearKey d) with
  | Some g => if String.eqb g "" then "Unmapped" else g
  | None => "Unmapped"
  end.

(** The [groupedCounts] of [drawFearBarsGrouped]. *)
Definition groupedCounts (fearRows : list FearRow) : list GroupCount :=
  js_sort (fun a b => descending_gt (group_count a) (group_count b))
    (map (fun kv => {| group := fst kv; group_count := snd kv |})
       (filter (fun kv => negb (String.eqb (fst kv) "Unmapped"))
          (d3_rollups (filtered fearRows) (@List.length FearRow) groupKey))).

(* ================================================================== *)
(** ** Movie rows and the genre aggregates *)
(* ================================================================== *)

(** A row of [netflix_omdb_master.csv]; [None] is a missing column. *)
Record MovieRow := {
  OMDb_Genre : option string;
  Views : option string;
  OMDb_imdbRating : option string
}.

(** An element of [exploded].  A number that JavaScript parses to [NaN]
    is [None]. *)
Record GenreRow := {
  row_genre : string;
  views : option Q;
  rating : option Q
}.

(** An element of [genreData].  [avg_imdb] is [None] where [d3.mean]
    returns [undefined]. *)
Record GenreDatum := {
  genre : string;
  genre_count : nat;
  avg_imdb : option Q;
  total_views : Q
}.

(** [s.split(", ")] *)
Fixpoint split_comma_space (cur : list ascii) (s : string) : list string :=
  match s with
  | EmptyString => [string_of_list_ascii (rev cur)]
  | String c rest =>
      match rest with
      | String c2 rest2 =>
          if (Ascii.eqb c "," && Ascii.eqb c2 " ")%bool
          then string_of_list_ascii (rev cur) :: split_comma_space [] rest2
          else split_comma_space (c :: cur) rest
      | EmptyString => split_comma_space (c :: cur) rest
      end
  end.

(** [s.replace(/,/g, "")] *)
Fixpoint remove_commas (s : string) : string :=
  match s with
  | EmptyString => EmptyString
  | String c rest =>
      if Ascii.eqb c "," then remove_commas rest
      else String c (remove_commas rest)
  end.

(** [s.toLowerCase()] on the letters A-Z.  The strings it is compared
    with ("horror", "comedy", "action", "drama") are reached from no
    other code point. *)
Definition lower_ascii (c : ascii) : ascii :=
  let n := code c in
  if ((65 <=? n) && (n <=? 90))%bool then ascii_of_nat (n + 32) else c.

Fixpoint toLowerCase (s : string) : string :=
  match s with
  | EmptyString => EmptyString
  | String c rest => String (lower_ascii c) (toLowerCase rest)
  end.

Definition Qlt_bool (a b : Q) : bool := negb (Qle_bool b a).

(** *** Double arithmetic *)

(** An integer as a binary float with exponent 0. *)
Definition Z2SF (z : Z) : spec_float :=
  match z with
  | Z0 => S754_zero false
  | Zpos p => S754_finite false p 0
  | Zneg p => S754_finite true p 0
  end.

(** The rational that a finite binary float denotes, in lowest terms;
    [otherwise] for an infinity or [NaN]. *)
Definition SF2Q (f : spec_float) (otherwise : Q) : Q :=
  match f with
  | S754_zero _ => 0%Q
  | S754_finite s m e =>
      Qred ((if s then -1 else 1) * inject_Z (Zpos m) * Qpower 2 e)%Q
  | _ => otherwise
  end.

(** The double nearest to a rational, ties to even: the quotient of its
    numerator by its denominator as binary64 division rounds it.  A
    rational beyond the range of the doubles is left as it is. *)
Definition fl (q : Q) : Q :=
  SF2Q (SFdiv 53 1024 (Z2SF (Qnum q)) (Z2SF (Zpos (Qden q)))) q.

(** A rational whose denominator is a power of two, as a binary float. *)
Definition Q2SF (q : Q) : spec_float :=
  match Qnum q with
  | Z0 => S754_zero false
  | Zpos p => S754_finite false p (- Z.log2 (Zpos (Qden q)))
  | Zneg p => S754_finite true p (- Z.log2 (Zpos (Qden q)))
  end.

(** [Math.sqrt] of a double. *)
Definition sqrt_fl (q : Q) : Q := SF2Q (SFsqrt 53 1024 (Q2SF (Qred q))) q.

(** [d3.sum]: [sum += value] for every value that is not [NaN], each
    addition rounded. *)
Definition d3_sum (l : list (option Q)) : Q :=
  fold_left (fun s v => match v with Some q => fl (s + q) | None => s end)
            l 0%Q.

Definition d3_valid (l : list (option Q)) : nat :=
  List.length (filter (fun v => match v with Some _ => true | None => false end) l).

(** [d3.mean]: values that are [NaN] or [undefined] are skipped;
    [undefined] when no value is left. *)
Definition d3_mean (l : list (option Q)) : option Q :=
  match d3_valid l with
  | O => None
  | S n => Some (fl (d3_sum l / inject_Z (Z.of_nat (S n))))
  end.

(** [d3.max] of an array of counts; [undefined] on the empty array. *)
Definition d3_max (l : list nat) : option nat :=
  match l with
  | [] => None
  | x :: rest => Some (fold_left Nat.max rest x)
  end.

(** [a <= b] and [a >= b] where either side may be [undefined] or [NaN]:
    such a comparison is false. *)
Definition js_le (a b : option Q) : bool :=
  match a, b with Some x, Some y => Qle_bool x y | _, _ => false end.

Definition js_ge (a b : option Q) : bool := js_le b a.

(* ================================================================== *)
(** ** The chart state *)
(* ================================================================== *)

Inductive Mode := mode_none | mode_scatter | mode_bars.

Inductive Display := display_block | display_none.
Inductive Pointer := pointer_all | pointer_none.

(** Which scales produced the geometry of a mark or an axis: the frozen
    scales [x], [y], [r]; the temporary [xZoom], [yZoom] with the fixed
    radius 200 and the black fill; or the band and linear scales of a bar
    chart. *)
Inductive Scales := base_scales | zoom_scales | bar_scales.

Inductive Layer := gChart | gAxis | gLegend.

Record Bubble := {
  b_datum : GenreDatum;
  b_dimmed : bool;
  b_pointer : option Pointer;
  b_display : option Display;
  b_opacity : option Q;
  b_scales : Scales
}.

Record Label := {
  l_datum : GenreDatum;
  l_dimmed : bool;
  l_pointer : option Pointer;
  l_display : option Display;
  l_opacity : option Q
}.

(** The datum of a bar: [{fear, count}] or [{group, count}]. *)
Inductive BarDatum := fear_bar (d : FearCount) | group_bar (d : GroupCount).

Record Bar := {
  bar_datum : BarDatum;
  bar_dimmed : bool;
  bar_pointer : option Pointer
}.

Inductive AxisClass :=
  | x_axis | y_axis | x_label | y_label
  | quadrant_line | quadrant_label | quadrant_axis_label.

Record AxisEl := {
  a_class : AxisClass;
  a_scales : Scales;
  a_opacity : option Q
}.

(** Work the browser runs later. *)
Inductive Task :=
  | task_crossfade_end (focus : option string)
  | task_csv_loaded (url : string) (grouped : bool)
  | task_timeout (supergroup : string).

Inductive Call :=
  | call_showFineNote | call_hideFineNote
  | call_crossfadeOut | call_crossfadeIn
  | call_drawScatter | call_addQuadrantsIfNeeded
  | call_focusHorror (on : bool)
  | call_focusQuadrant (quadrant : string)
  | call_zoomToHorror | call_restoreFromHorrorZoom
  | call_drawFearBars | call_drawFearBarsGrouped
  | call_focusBars | call_focusBarsBySupergroup (name : option string)
  | call_showMethodologyBtn | call_hideMethodologyBtn
  | call_applyStepTitle | call_applyStepSubtitle | call_applyStepFX.

(** The variables of [main]: [mode], [fearRows], [quadrantsAdded],
    [isHorrorFocused], and [armed], [active] (the index of the card in
    document order) and [baselineRendered] of the scroll engine. *)
Record Vars := {
  mode : Mode;
  fearRows : option (list FearRow);
  quadrantsAdded : bool;
  isHorrorFocused : bool;
  armed : bool;
  active : option nat;
  baselineRendered : bool
}.

(** The page outside the SVG.  [methodologyBtn] is [None] when the
    element is missing, else its [style.display]. *)
Record Page := {
  title : string;
  subtitle : string;
  note_hidden : bool;
  methodologyBtn : option (option Display);
  tooltip_opacity : option Q
}.

(** The SVG: the marks of the chart layer, the children of the axes and
    legend layers, the opacity of the three layers, and whether the
    [.horror-center-label] text exists. *)
Record Svg := {
  bubbles : list Bubble;
  labels : list Label;
  bars : list Bar;
  axes : list AxisEl;
  legend : list string;
  gChart_opacity : option Q;
  gAxis_opacity : option Q;
  gLegend_opacity : option Q;
  horrorCenterLabel : bool
}.

(** Tasks the browser still has to run, the URLs given to [d3.csv] for
    the fear-label data (oldest first) and the log of calls (newest
    first). *)
Record Sched := {
  pending : list Task;
  fetched : list string;
  calls : list Call
}.

Record State := {
  vars : Vars;
  page : Page;
  svg : Svg;
  sched : Sched
}.

(** Field updates. *)
Definition upd_vars (f : Vars -> Vars) (st : State) : State :=
  {| vars := f (vars st); page := page st; svg := svg st; sched := sched st |}.

Definition set_mode (x : Mode) : State -> State :=
  upd_vars (fun r =>
    {| mode := x; fearRows := fearRows r;
       quadrantsAdded := quadrantsAdded r;
       isHorrorFocused := isHorrorFocused r; armed := armed r;
       active := active r; baselineRendered := baselineRendered r |}).

Definition set_fearRows (x : option (list FearRow)) : State -> State :=
  upd_vars (fun r =>
    {| mode := mode r; fearRows := x; quadrantsAdded := quadrantsAdded r;
       isHorrorFocused := isHorrorFocused r; armed := armed r;
       active := active r; baselineRendered := baselineRendered r |}).

Definition set_quadrantsAdded (x : bool) : State -> State :=
  upd_vars (fun r =>
    {| mode := mode r; fearRows := fearRows r; quadrantsAdded := x;
       isHorrorFocused := isHorrorFocused r; armed := armed r;
       active := active r; baselineRendered := baselineRendered r |}).

Definition set_isHorrorFocused (x : bool) : State -> State :=
  upd_vars (fun r =>
    {| mode := mode r; fearRows := fearRows r;
       quadrantsAdded := quadrantsAdded r; isHorrorFocused := x;
       armed := armed r; active := active r;
       baselineRendered := baselineRendered r |}).

Definition set_armed (x : bool) : State -> State :=
  upd_vars (fun r =>
    {| mode := mode r; fearRows := fearRows r;
       quadrantsAdded := quadrantsAdded r;
       isHorrorFocused := isHorrorFocused r; armed := x;
       active := active r; baselineRendered := baselineRendered r |}).

Definition set_active (x : option nat) : State -> State :=
  upd_vars (fun r =>
    {| mode := mode r; fearRows := fearRows r;
       quadrantsAdded := quadrantsAdded r;
       isHorrorFocused := isHorrorFocused r; armed := armed r; active := x;
       baselineRendered := baselineRendered r |}).

Definition set_baselineRendered (x : bool) : State -> State :=
  upd_vars (fun r =>
    {| mode := mode r; fearRows := fearRows r;
       quadrantsAdded := quadrantsAdded r;
       isHorrorFocused := isHorrorFocused r; armed := armed r;
       active := active r; baselineRendered := x |}).

Definition upd_page (f : Page -> Page) (st : State) : State :=
  {| vars := vars st; page := f (page st); svg := svg st; sched := sched st |}.

Definition set_title (x : string) : State -> State :=
  upd_page (fun r =>
    {| title := x; subtitle := subtitle r; note_hidden := note_hidden r;
       methodologyBtn := methodologyBtn r;
       tooltip_opacity := tooltip_opacity r |}).

Definition set_subtitle (x : string) : State -> State :=
  upd_page (fun r =>
    {| title := title r; subtitle := x; note_hidden := note_hidden r;
       methodologyBtn := methodologyBtn r;
       tooltip_opacity := tooltip_opacity r |}).

Definition set_note_hidden (x : bool) : State -> State :=
  upd_page (fun r =>
    {| title := title r; subtitle := subtitle r; note_hidden := x;
       methodologyBtn := methodologyBtn r;
       tooltip_opacity := tooltip_opacity r |}).

Definition set_methodologyBtn (x : option (option Display)) : State -> State :=
  upd_page (fun r =>
    {| title := title r; subtitle := subtitle r;
       note_hidden := note_hidden r; methodologyBtn := x;
       tooltip_opacity := tooltip_opacity r |}).

Definition set_tooltip_opacity (x : option Q) : State -> State :=
  upd_page (fun r =>
    {| title := title r; subtitle := subtitle r;
       note_hidden := note_hidden r; methodologyBtn := methodologyBtn r;
       tooltip_opacity := x |}).

Definition upd_svg (f : Svg -> Svg) (st : State) : State :=
  {| vars := vars st; page := page st; svg := f (svg st); sched := sched st |}.

Definition set_bubbles (x : list Bubble) : State -> State :=
  upd_svg (fun r =>
    {| bubbles := x; labels := labels r; bars := bars r; axes := axes r;
       legend := legend r; gChart_opacity := gChart_opacity r;
       gAxis_opacity := gAxis_opacity r;
       gLegend_opacity := gLegend_opacity r;
       horrorCenterLabel := horrorCenterLabel r |}).

Definition set_labels (x : list Label) : State -> State :=
  upd_svg (fun r =>
    {| bubbles := bubbles r; labels := x; bars := bars r; axes := axes r;
       legend := legend r; gChart_opacity := gChart_opacity r;
       gAxis_opacity := gAxis_opacity r;
       gLegend_opacity := gLegend_opacity r;
       horrorCenterLabel := horrorCenterLabel r |}).

Definition set_bars (x : list Bar) : State -> State :=
  upd_svg (fun r =>
    {| bubbles := bubbles r; labels := labels r; bars := x; axes := axes r;
       legend := legend r; gChart_opacity := gChart_opacity r;
       gAxis_opacity := gAxis_opacity r;
       gLegend_opacity := gLegend_opacity r;
       horrorCenterLabel := horrorCenterLabel r |}).

Definition set_axes (x : list AxisEl) : State -> State :=
  upd_svg (fun r =>
    {| bubbles := bubbles r; labels := labels r; bars := bars r; axes := x;
       legend := legend r; gChart_opacity := gChart_opacity r;
       gAxis_opacity := gAxis_opacity r;
       gLegend_opacity := gLegend_opacity r;
       horrorCenterLabel := horrorCenterLabel r |}).

Definition set_legend (x : list string) : State -> State :=
  upd_svg (fun r =>
    {| bubbles := bubbles r; labels := labels r; bars := bars r;
       axes := axes r; legend := x; gChart_opacity := gChart_opacity r;
       gAxis_opacity := gAxis_opacity r;
       gLegend_opacity := gLegend_opacity r;
       horrorCenterLabel := horrorCenterLabel r |}).

Definition set_gChart_opacity (x : option Q) : State -> State :=
  upd_svg (fun r =>
    {| bubbles := bubbles r; labels := labels r; bars := bars r;
       axes := axes r; legend := legend r; gChart_opacity := x;
       gAxis_opacity := gAxis_opacity r;
       gLegend_opacity := gLegend_opacity r;
       horrorCenterLabel := horrorCenterLabel r |}).

Definition set_gAxis_opacity (x : option Q) : State -> State :=
  upd_svg (fun r =>
    {| bubbles := bubbles r; labels := labels r; bars := bars r;
       axes := axes r; legend := legend r;
       gChart_opacity := gChart_opacity r; gAxis_opacity := x;
       gLegend_opacity := gLegend_opacity r;
       horrorCenterLabel := horrorCenterLabel r |}).

Definition set_gLegend_opacity (x : option Q) : State -> State :=
  upd_svg (fun r =>
    {| bubbles := bubbles r; labels := labels r; bars := bars r;
       axes := axes r; legend := legend r;
       gChart_opacity := gChart_opacity r;
       gAxis_opacity := gAxis_opacity r; gLegend_opacity := x;
       horrorCenterLabel := horrorCenterLabel r |}).

Definition set_horrorCenterLabel (x : bool) : State -> State :=
  upd_svg (fun r =>
    {| bubbles := bubbles r; labels := labels r; bars := bars r;
       axes := axes r; legend := legend r;
       gChart_opacity := gChart_opacity r;
       gAxis_opacity := gAxis_opacity r;
       gLegend_opacity := gLegend_opacity r; horrorCenterLabel := x |}).

Definition upd_sched (f : Sched -> Sched) (st : State) : State :=
  {| vars := vars st; page := page st; svg := svg st; sched := f (sched st) |}.

Definition set_pending (x : list Task) : State -> State :=
  upd_sched (fun r =>
    {| pending := x; fetched := fetched r; calls := calls r |}).

Definition set_fetched (x : list string) : State -> State :=
  upd_sched (fun r =>
    {| pending := pending r; fetched := x; calls := calls r |}).

Definition set_calls (x : list Call) : State -> State :=
  upd_sched (fun r =>
    {| pending := pending r; fetched := fetched r; calls := x |}).


Notation "st |> f" := (f st) (at level 45, left associativity, only parsing).

Definition log (c : Call) (st : State) : State :=
  set_calls (c :: calls (sched st)) st.

Definition enqueue (t : Task) (st : State) : State :=
  set_pending (pending (sched st) ++ [t]) st.

(** How a call ends: it returns, or it throws; either way with the state
    it has reached. *)
Inductive Outcome := returned (st : State) | threw (st : State).

Definition state_of (o : Outcome) : State :=
  match o with returned st => st | threw st => st end.

Coercion state_of : Outcome >-> State.

Definition has_thrown (o : Outcome) : bool :=
  match o with returned _ => false | threw _ => true end.

(** The statements after a call that may have thrown. *)
Definition and_then (o : Outcome) (f : State -> Outcome) : Outcome :=
  match o with returned st => f st | threw st => threw st end.

Notation "o |>> f" := (and_then o (fun st => returned (f st)))
  (at level 45, left associativity, only parsing).

Definition is_crossfade_end (t : Task) : bool :=
  match t with task_crossfade_end _ => true | _ => false end.

(** [d3.transition()]: a new transition on the root element.  When it
    starts it interrupts the root transition of an earlier crossfade that
    has not ended, whose [end] listener is then never called. *)
Fixpoint interrupt (l : list Task) : list Task :=
  match l with
  | [] => []
  | t :: rest =>
      if is_crossfade_end t then interrupt rest else t :: interrupt rest
  end.

Definition root_transition (st : State) : State :=
  set_pending (interrupt (pending (sched st))) st.

Definition set_layer_opacity (v : option Q) (g : Layer) : State -> State :=
  match g with
  | gChart => set_gChart_opacity v
  | gAxis => set_gAxis_opacity v
  | gLegend => set_gLegend_opacity v
  end.

Definition set_layers_opacity (v : option Q) (groups : list Layer)
    (st : State) : State :=
  fold_left (fun s g => set_layer_opacity v g s) groups st.

(** [selection.select(...)]: the first match only. *)
Fixpoint update_first {A : Type} (p : A -> bool) (f : A -> A) (l : list A)
    : list A :=
  match l with
  | [] => []
  | x :: rest => if p x then f x :: rest else x :: update_first p f rest
  end.

(** [selection.selectAll(...)]: every match. *)
Definition update_all {A : Type} (p : A -> bool) (f : A -> A) (l : list A)
    : list A :=
  map (fun x => if p x then f x else x) l.

Definition axis_class_eqb (a b : AxisClass) : bool :=
  match a, b with
  | x_axis, x_axis | y_axis, y_axis | x_label, x_label | y_label, y_label
  | quadrant_line, quadrant_line | quadrant_label, quadrant_label
  | quadrant_axis_label, quadrant_axis_label => true
  | _, _ => false
  end.

Definition is_class (c : AxisClass) (e : AxisEl) : bool :=
  axis_class_eqb (a_class e) c.

(** [".x-label, .y-label"] *)
Definition is_axis_label (e : AxisEl) : bool :=
  is_class x_label e || is_class y_label e.

(** [".quadrant-line, .quadrant-label, .quadrant-axis-label"] *)
Definition is_quadrant (e : AxisEl) : bool :=
  is_class quadrant_line e || is_class quadrant_label e
  || is_class quadrant_axis_label e.

Definition axis_el (c : AxisClass) (s : Scales) : AxisEl :=
  {| a_class := c; a_scales := s; a_opacity := None |}.

Definition with_a_opacity (v : option Q) (e : AxisEl) : AxisEl :=
  {| a_class := a_class e; a_scales := a_scales e; a_opacity := v |}.

Definition with_a_scales (s : Scales) (e : AxisEl) : AxisEl :=
  {| a_class := a_class e; a_scales := s; a_opacity := a_opacity e |}.

Definition append_axes (els : list AxisEl) (st : State) : State :=
  set_axes (axes (svg st) ++ els) st.

Definition new_bubble (d : GenreDatum) : Bubble :=
  {| b_datum := d; b_dimmed := false; b_pointer := None; b_display := None;
     b_opacity := None; b_scales := base_scales |}.

Definition new_label (d : GenreDatum) : Label :=
  {| l_datum := d; l_dimmed := false; l_pointer := None; l_display := None;
     l_opacity := None |}.

Definition new_bar (d : BarDatum) : Bar :=
  {| bar_datum := d; bar_dimmed := false; bar_pointer := None |}.

Definition pointer_of (dim : bool) : option Pointer :=
  Some (if dim then pointer_none else pointer_all).

(** [.classed("dimmed", f).style("pointer-events", d => f(d) ? "none" : "all")] *)
Definition dim_bubble (f : GenreDatum -> bool) (b : Bubble) : Bubble :=
  {| b_datum := b_datum b; b_dimmed := f (b_datum b);
     b_pointer := pointer_of (f (b_datum b)); b_display := b_display b;
     b_opacity := b_opacity b; b_scales := b_scales b |}.

Definition dim_label (f : GenreDatum -> bool) (l : Label) : Label :=
  {| l_datum := l_datum l; l_dimmed := f (l_datum l);
     l_pointer := pointer_of (f (l_datum l)); l_display := l_display l;
     l_opacity := l_opacity l |}.

Definition dim_bar (f : nat -> BarDatum -> bool) (i : nat) (b : Bar) : Bar :=
  {| bar_datum := bar_datum b; bar_dimmed := f i (bar_datum b);
     bar_pointer := pointer_of (f i (bar_datum b)) |}.

(** [selection.each] with the index of the element. *)
Fixpoint mapi_from {A B : Type} (i : nat) (f : nat -> A -> B) (l : list A)
    : list B :=
  match l with
  | [] => []
  | x :: rest => f i x :: mapi_from (S i) f rest
  end.

(** [d.genre?.toLowerCase() !== "horror"] *)
Definition notHorror (d : GenreDatum) : bool :=
  negb (String.eqb (toLowerCase (genre d)) "horror").

(** [d.fear] of the datum of a bar; [None] is [undefined]. *)
Definition bar_fear (d : BarDatum) : option string :=
  match d with fear_bar c => Some (fear c) | group_bar _ => None end.

Definition option_string_eqb (a b : option string) : bool :=
  match a, b with
  | Some x, Some y => String.eqb x y
  | None, None => true
  | _, _ => false
  end.

Definition manualfix_csv : string := "./horror_categorized_clean_manualfix.csv".
Definition clean_csv : string := "./horror_categorized_clean.csv".

Definition legendCategories : list string :=
  [ "2001+"; "1001 - 2000"; "501 - 1000"; "201 - 500"; "51 - 200"; "5 - 50" ].

Definition scatter_scenes : list string :=
  [ "baseline"; "quadrants"; "high-views"; "critical-darlings"; "horror" ].

Definition bars_scenes : list string :=
  [ "bars"; "bars_psychological"; "bars_body"; "bars_societal";
    "bars_cosmic" ].

(** The scene identifiers [go] has a branch for. *)
Definition recognized_scenes : list string :=
  scatter_scenes ++ ["horror-zoom"] ++ bars_scenes.

(* ================================================================== *)
(** ** The keyword panels ([text.js]) *)
(* ================================================================== *)

Module Text.

(** A row of the fear-label file as the keyword analysis reads it. *)
Record Row := {
  Fear_Category : option string;
  TMDb_Keywords : option string
}.

(** A [{category, keyword}] pair. *)
Record Pair := { category : string; keyword : string }.

Definition excludeKeywords : list string :=
  [ "sequel"; "based on novel or book"; "based on true story"; "remake";
    "duringcreditsstinger"; "california"; "new york city"; "south korea";
    "japan"; "halloween" ].

Definition excludeKeywords_has (k : string) : bool :=
  existsb (String.eqb k) excludeKeywords.

Definition keywordMapping : list (string * list string) :=
  [ ("survival", ["survival"; "survival horror"]);
    ("haunted", ["haunted"; "haunted house"; "haunting"]);
    ("supernatural", ["supernatural"; "supernatural horror"]);
    ("possession", ["possession"; "demonic possession"]) ].

(** [Map.prototype.set]: a known key keeps its place and gets the new
    value, a new key is appended. *)
Fixpoint map_set (m : list (string * string)) (k v : string)
    : list (string * string) :=
  match m with
  | [] => [(k, v)]
  | (k', v') :: rest =>
      if String.eqb k' k then (k', v) :: rest else (k', v') :: map_set rest k v
  end.

(** The reverse lookup, built by the two nested loops. *)
Definition keywordLookup : list (string * string) :=
  fold_left
    (fun m cv =>
       fold_left (fun m' variant => map_set m' variant (fst cv)) (snd cv) m)
    keywordMapping [].

(** [keywordLookup.get(k) || k] *)
Definition mapKeyword (k : string) : string :=
  if falsy (map_get keywordLookup k) then k
  else or_empty (map_get keywordLookup k).

(** [s.split(",")] *)
Fixpoint split_comma (cur : list ascii) (s : string) : list string :=
  match s with
  | EmptyString => [string_of_list_ascii (rev cur)]
  | String c rest =>
      if Ascii.eqb c ","
      then string_of_list_ascii (rev cur) :: split_comma [] rest
      else split_comma (c :: cur) rest
  end.

(** [k && k !== "n/a" && k !== "na"] *)
Definition kept (k : string) : bool :=
  negb (String.eqb k "") && negb (String.eqb k "n/a")
  && negb (String.eqb k "na").

(** [Array.from(counts).sort((a, b) => d3.descending(a[1], b[1])).slice(0, 10)] *)
Definition top (counts : list (string * nat)) : list (string * nat) :=
  slice0 10 (js_sort (fun a b => descending_gt (snd a) (snd b)) counts).

Definition supergroups : list (string * list string) :=
  [ ("Societal & Structural Horrors",
     [ "Invasion, Impostors & Paranoia"; "Persecution & Social Breakdown";
       "Institutional & Structural Control" ]);
    ("Psychological & Domestic Horrors",
     [ "Possession & Loss of Agency"; "Isolation & Psychological Unraveling";
       "Grief & Familial Trauma" ]);
    ("The Body as Battleground",
     [ "Captivity & Voyeuristic Sadism"; "Contagion & Mutation";
       "Body Horror / Envelope Violation" ]) ].

Section Keywords.

(** [normalize]: lower case, trimmed, runs of white space collapsed,
    quotes and spaces stripped from both ends. *)
Variable normalize : string -> string.

(** The rows that [d3.csv] resolves to. *)
Variable data : list Row.

(** The body of [data.flatMap]. *)
Definition pairs_of (d : Row) : list Pair :=
  let cat := option_map trim (Fear_Category d) in
  let raw := TMDb_Keywords d in
  if falsy cat || falsy raw then []
  else
    let kws := filter kept (map normalize (split_comma [] (or_empty raw))) in
    let filtered := filter (fun k => negb (excludeKeywords_has k)) kws in
    map (fun k => {| category := or_empty cat; keyword := mapKeyword k |})
        filtered.

Definition catKwPairs : list Pair := flat_map pairs_of data.

Definition allKeywordCounts : list (string * nat) :=
  d3_rollups catKwPairs (@List.length Pair) keyword.

Definition top10Overall : list (string * nat) := top allKeywordCounts.

(** The entry of [supergroupKeywords] for a supergroup with the
    categories [categories]. *)
Definition supergroupTop (categories : list string) : list (string * nat) :=
  top (d3_rollups
         (filter (fun d => existsb (String.eqb (category d)) categories)
            catKwPairs)
         (@List.length Pair) keyword).

(** What [populateKeywords] puts into the container of the overall
    keywords: [window.top10Keywords.filter(([keyword, count]) => count >= 3)]. *)
Definition shown_overall : list (string * nat) :=
  filter (fun kc => 3 <=? snd kc) top10Overall.

End Keywords.

End Text.

(* ================================================================== *)
(** ** The program *)
(* ================================================================== *)

Section Program.

Set Default Proof Using "Type".

(** [+s] on a string: the double it denotes, as a rational; [None] for
    [NaN]. *)
Variable toNumber : string -> option Q.

(** The rows that [d3.csv("./netflix_omdb_master.csv")] resolves to. *)
Variable movies : list MovieRow.

(** The rows that [d3.csv(url)] resolves to, for a fear-label file. *)
Variable csv : string -> list FearRow.

(** *** Aggregation *)

(** The body of [movies.forEach]. *)
Definition explode (m : MovieRow) : list GenreRow :=
  if falsy (OMDb_Genre m) || falsy (Views m) || falsy (OMDb_imdbRating m)
  then []
  else
    map (fun g =>
           {| row_genre := trim g;
              views := toNumber (remove_commas (or_empty (Views m)));
              rating := toNumber (or_empty (OMDb_imdbRating m)) |})
        (split_comma_space [] (or_empty (OMDb_Genre m))).

Definition exploded : list GenreRow := flat_map explode movies.

Definition summarize (v : list GenreRow) : nat * option Q * Q :=
  (List.length v, d3_mean (map rating v), d3_sum (map views v)).

Definition rolled : list (string * (nat * option Q * Q)) :=
  d3_rollups exploded summarize row_genre.

Definition genreData : list GenreDatum :=
  filter (fun d => 5 <=? genre_count d)
    (map (fun kv =>
            {| genre := fst kv;
               genre_count := fst (fst (snd kv));
               avg_imdb := snd (fst (snd kv));
               total_views := snd (snd kv) |})
         rolled).

(** [[...genreData].sort((a,b) => b.total_views - a.total_views).slice(0, 10)] *)
Definition top10 : list GenreDatum :=
  slice0 10
    (js_sort (fun a b => Qlt_bool (total_views a) (total_views b)) genreData).

(** *** Fine note and methodology button *)

Definition showFineNote (st : State) : State :=
  st |> log call_showFineNote |> set_note_hidden false.

Definition hideFineNote (st : State) : State :=
  st |> log call_hideFineNote |> set_note_hidden true.

Definition set_btn_display (d : Display) (st : State) : State :=
  match methodologyBtn (page st) with
  | Some _ => set_methodologyBtn (Some (Some d)) st
  | None => st
  end.

Definition showMethodologyBtn (st : State) : State :=
  st |> log call_showMethodologyBtn |> set_btn_display display_block.

Definition hideMethodologyBtn (st : State) : State :=
  st |> log call_hideMethodologyBtn |> set_btn_display display_none.

(** *** Crossfades *)

Definition crossfadeOut (groups : list Layer) (afterOnce : option Task)
    (st : State) : State :=
  let st := st |> log call_crossfadeOut
               |> root_transition
               |> set_layers_opacity (Some 0%Q) groups in
  match afterOnce with
  | Some t => enqueue t st
  | None => st
  end.

Definition crossfadeIn (groups : list Layer) (st : State) : State :=
  st |> log call_crossfadeIn
     |> set_layers_opacity (Some 0%Q) groups
     |> root_transition
     |> set_layers_opacity (Some 1%Q) groups.

(** *** Scatter *)

Definition clear_layers (st : State) : State :=
  st |> set_bubbles [] |> set_labels [] |> set_bars []
     |> set_axes [] |> set_legend [].

Definition drawScatter (st : State) : State :=
  st |> log call_drawScatter
     |> showFineNote
     |> set_mode mode_scatter
     |> set_tooltip_opacity (Some 0%Q)
     |> clear_layers
     |> set_bubbles (map new_bubble genreData)
     |> append_axes [axis_el x_axis base_scales; axis_el y_axis base_scales]
     |> append_axes [axis_el x_label base_scales; axis_el y_label base_scales]
     |> set_quadrantsAdded false
     |> set_labels (map new_label top10)
     |> set_legend legendCategories.

Definition meanRating : option Q := d3_mean (map avg_imdb genreData).

Definition meanViews : option Q :=
  d3_mean (map (fun d => Some (total_views d)) genreData).

(** The text of the first annotation is [meanRating.toFixed(2)]: when no
    aggregate has a rating, [meanRating] is [undefined] and the call
    throws a [TypeError], after the element was appended and before the
    second annotation is. *)
Definition addQuadrantsIfNeeded (st : State) : Outcome :=
  let st := log call_addQuadrantsIfNeeded st in
  if quadrantsAdded (vars st) then returned st
  else
    let st :=
      st |> set_quadrantsAdded true
         |> append_axes [axis_el quadrant_line base_scales;
                         axis_el quadrant_line base_scales]
         |> append_axes [axis_el quadrant_label base_scales;
                         axis_el quadrant_label base_scales;
                         axis_el quadrant_label base_scales;
                         axis_el quadrant_label base_scales]
         |> append_axes [axis_el quadrant_axis_label base_scales] in
    match meanRating with
    | None => threw st
    | Some _ =>
        returned (append_axes [axis_el quadrant_axis_label base_scales] st)
    end.

Definition dim_scatter (shouldDim : GenreDatum -> bool) (st : State) : State :=
  st |> set_bubbles (map (dim_bubble shouldDim) (bubbles (svg st)))
     |> set_labels (map (dim_label shouldDim) (labels (svg st))).

Definition focusHorror (on : bool) (st : State) : State :=
  st |> log (call_focusHorror on)
     |> set_isHorrorFocused on
     |> set_title (if on then "Horror in the Hit Matrix" else "The Hit Matrix")
     |> dim_scatter (fun d => on && notHorror d).

Definition shouldDim (quadrant : string) (d : GenreDatum) : bool :=
  if String.eqb quadrant "high-views" then
    let g := toLowerCase (genre d) in
    negb (String.eqb g "comedy" || String.eqb g "action"
          || String.eqb g "drama")
  else if String.eqb quadrant "critical-darlings" then
    js_le (avg_imdb d) meanRating || js_ge (Some (total_views d)) meanViews
  else if String.eqb quadrant "cult-corner" then
    negb (String.eqb (toLowerCase (genre d)) "horror")
  else false.

Definition focusQuadrant (quadrant : string) (st : State) : State :=
  st |> log (call_focusQuadrant quadrant)
     |> dim_scatter (shouldDim quadrant).

(** *** Zoom *)

Definition hide_bubble (b : Bubble) : Bubble :=
  {| b_datum := b_datum b; b_dimmed := b_dimmed b; b_pointer := b_pointer b;
     b_display := Some display_none; b_opacity := Some 0%Q;
     b_scales := b_scales b |}.

Definition hide_label (l : Label) : Label :=
  {| l_datum := l_datum l; l_dimmed := l_dimmed l; l_pointer := l_pointer l;
     l_display := Some display_none; l_opacity := Some 0%Q |}.

Definition zoom_bubble (b : Bubble) : Bubble :=
  {| b_datum := b_datum b; b_dimmed := b_dimmed b; b_pointer := b_pointer b;
     b_display := Some display_block; b_opacity := Some 1%Q;
     b_scales := zoom_scales |}.

Definition restore_bubble (b : Bubble) : Bubble :=
  {| b_datum := b_datum b; b_dimmed := b_dimmed b; b_pointer := b_pointer b;
     b_display := Some display_block; b_opacity := Some (8 # 10)%Q;
     b_scales := base_scales |}.

Definition restore_label (l : Label) : Label :=
  {| l_datum := l_datum l; l_dimmed := l_dimmed l; l_pointer := l_pointer l;
     l_display := Some display_block; l_opacity := Some 1%Q |}.

Definition zoomToHorror (st : State) : State :=
  let st := log call_zoomToHorror st in
  match find (fun d => negb (notHorror d)) genreData with
  | None => st
  | Some _ =>
      st |> (fun s => set_bubbles
               (update_all (fun b => notHorror (b_datum b)) hide_bubble
                  (bubbles (svg s))) s)
         |> (fun s => set_labels (map hide_label (labels (svg s))) s)
         |> (fun s => set_axes
               (update_first (is_class x_axis) (with_a_scales zoom_scales)
                  (axes (svg s))) s)
         |> (fun s => set_axes
               (update_first (is_class y_axis) (with_a_scales zoom_scales)
                  (axes (svg s))) s)
         |> (fun s => set_axes
               (update_all is_axis_label (with_a_opacity (Some 0%Q))
                  (axes (svg s))) s)
         |> (fun s => set_bubbles
               (update_all (fun b => negb (notHorror (b_datum b))) zoom_bubble
                  (bubbles (svg s))) s)
         |> set_horrorCenterLabel true
         |> set_gLegend_opacity (Some 0%Q)
         |> (fun s => set_axes
               (update_all is_quadrant (with_a_opacity (Some 0%Q))
                  (axes (svg s))) s)
  end.

Definition restoreFromHorrorZoom (st : State) : State :=
  let st :=
    st |> log call_restoreFromHorrorZoom
       |> (fun s => set_bubbles (map restore_bubble (bubbles (svg s))) s)
       |> (fun s => set_labels (map restore_label (labels (svg s))) s)
       |> set_horrorCenterLabel false
       |> (fun s => set_axes
             (update_first (is_class x_axis) (with_a_scales base_scales)
                (axes (svg s))) s)
       |> (fun s => set_axes
             (update_first (is_class y_axis) (with_a_scales base_scales)
                (axes (svg s))) s)
       |> (fun s => set_axes
             (update_all is_axis_label (with_a_opacity (Some 1%Q))
                (axes (svg s))) s)
       |> set_gLegend_opacity (Some 1%Q) in
  if quadrantsAdded (vars st) then
    set_axes (update_all is_quadrant (with_a_opacity (Some 1%Q))
                (axes (svg st))) st
  else st.

(** *** Bars *)

Definition bars_title : string := "What Are We Afraid of?".

Definition bars_subtitle : string :=
  "Horror titles from Netflix’s Most-Watched Movies (Jan–Jun 2025), divided into the main core fears represented in each film.".

Definition grouped_subtitle : string :=
  "Horror titles from Netflix’s Most-Watched Movies (Jan–Jun 2025), grouped by core fear types represented in each film.".

Definition is_bars (m : Mode) : bool :=
  match m with mode_bars => true | _ => false end.

Definition is_scatter (m : Mode) : bool :=
  match m with mode_scatter => true | _ => false end.

(** What [drawFearBars] does once [fearRows] holds [rows]. *)
Definition drawFearBars_body (rows : list FearRow) (st : State) : State :=
  st |> set_mode mode_bars
     |> set_tooltip_opacity (Some 0%Q)
     |> clear_layers
     |> set_horrorCenterLabel false
     |> set_title bars_title
     |> set_subtitle bars_subtitle
     |> append_axes [axis_el y_axis bar_scales]
     |> append_axes [axis_el x_axis bar_scales]
     |> append_axes [axis_el x_label bar_scales]
     |> set_bars (map (fun c => new_bar (fear_bar c)) (fearCounts rows)).

(** What [drawFearBarsGrouped] does once [fearRows] holds [rows]. *)
Definition drawFearBarsGrouped_body (rows : list FearRow) (st : State)
    : State :=
  st |> set_mode mode_bars
     |> set_tooltip_opacity (Some 0%Q)
     |> clear_layers
     |> set_horrorCenterLabel false
     |> set_title bars_title
     |> set_subtitle grouped_subtitle
     |> append_axes [axis_el y_axis bar_scales]
     |> append_axes [axis_el x_axis bar_scales]
     |> append_axes [axis_el x_label bar_scales]
     |> set_bars (map (fun c => new_bar (group_bar c)) (groupedCounts rows)).

(** [if (!fearRows) fearRows = await d3.csv(url)]: with the rows cached
    the function runs on; without them it asks for [url] and the rest of
    it is a task of its own. *)
Definition with_fearRows (url : string) (grouped : bool)
    (body : list FearRow -> State -> State) (st : State) : State :=
  match fearRows (vars st) with
  | Some rows => body rows st
  | None =>
      st |> set_fetched (fetched (sched st) ++ [url])
         |> enqueue (task_csv_loaded url grouped)
  end.

Definition drawFearBars (st : State) : State :=
  st |> log call_drawFearBars
     |> hideFineNote
     |> with_fearRows manualfix_csv false drawFearBars_body.

Definition drawFearBarsGrouped (st : State) : State :=
  st |> log call_drawFearBarsGrouped
     |> hideFineNote
     |> with_fearRows clean_csv true drawFearBarsGrouped_body.

Definition dim_bars (f : nat -> BarDatum -> bool) (st : State) : State :=
  set_bars (mapi_from 0 (dim_bar f) (bars (svg st))) st.

Definition focusBars (focusCount : option nat) (st : State) : State :=
  let st := log call_focusBars st in
  if negb (is_bars (mode (vars st))) then st
  else match focusCount with
       | None => dim_bars (fun _ _ => false) st
       | Some n => dim_bars (fun i _ => n <=? i) st
       end.

Definition is_none_name (name : option string) : bool :=
  match name with None => true | Some s => String.eqb s "none" end.

Definition bar_group (d : BarDatum) : option string :=
  match bar_fear d with
  | Some f => FEAR_GROUP_MAP_get f
  | None => None
  end.

Definition focusBarsBySupergroup (supergroupName : option string)
    (st : State) : State :=
  let st := log (call_focusBarsBySupergroup supergroupName) st in
  if negb (is_bars (mode (vars st))) then st
  else if is_none_name supergroupName then dim_bars (fun _ _ => false) st
  else dim_bars
         (fun _ d => negb (option_string_eqb (bar_group d) supergroupName)) st.

(** *** Router *)

Definition all_layers : list Layer := [gChart; gAxis; gLegend].

(** The branch shared, word for word, by the four [bars_*] scenes. *)
Definition go_bars_supergroup (name : string) (st : State) : State :=
  let st := showMethodologyBtn st in
  if is_bars (mode (vars st)) then focusBarsBySupergroup (Some name) st
  else crossfadeOut all_layers (Some (task_crossfade_end (Some name))) st.

Definition unfocus_horror (st : State) : State :=
  if isHorrorFocused (vars st) then focusHorror false st else st.

Definition ensure_scatter (st : State) : State :=
  if is_scatter (mode (vars st)) then st else drawScatter st.

Definition go (scene : string) (st : State) : Outcome :=
  if String.eqb scene "baseline" then
    let st := st |> hideMethodologyBtn |> restoreFromHorrorZoom in
    let st :=
      if is_scatter (mode (vars st)) then showFineNote st
      else st |> set_title "The Hit Matrix" |> drawScatter in
    st |> addQuadrantsIfNeeded |>> unfocus_horror |>> focusQuadrant "none"
  else if String.eqb scene "quadrants" then
    st |> hideMethodologyBtn |> restoreFromHorrorZoom
       |> ensure_scatter |> showFineNote |> addQuadrantsIfNeeded
       |>> unfocus_horror |>> focusQuadrant "none"
  else if String.eqb scene "high-views" then
    st |> hideMethodologyBtn |> restoreFromHorrorZoom
       |> ensure_scatter |> showFineNote |> addQuadrantsIfNeeded
       |>> unfocus_horror |>> focusQuadrant "high-views"
  else if String.eqb scene "critical-darlings" then
    st |> hideMethodologyBtn |> restoreFromHorrorZoom
       |> ensure_scatter |> showFineNote |> addQuadrantsIfNeeded
       |>> focusQuadrant "critical-darlings"
  else if String.eqb scene "horror" then
    st |> hideMethodologyBtn |> restoreFromHorrorZoom
       |> ensure_scatter |> showFineNote |> addQuadrantsIfNeeded
       |>> focusQuadrant "none" |>> focusHorror true
  else if String.eqb scene "horror-zoom" then
    let st := hideMethodologyBtn st in
    (if is_scatter (mode (vars st)) then returned st
     else st |> drawScatter |> addQuadrantsIfNeeded)
    |>> hideFineNote |>> zoomToHorror
  else if String.eqb scene "bars" then
    let st := showMethodologyBtn st in
    returned
      (if is_bars (mode (vars st)) then focusBars None st
       else crossfadeOut all_layers (Some (task_crossfade_end None)) st)
  else if String.eqb scene "bars_psychological" then
    returned (go_bars_supergroup "Psychological & Domestic Horrors" st)
  else if String.eqb scene "bars_body" then
    returned (go_bars_supergroup "The Body as Battleground" st)
  else if String.eqb scene "bars_societal" then
    returned (go_bars_supergroup "Societal & Structural Horrors" st)
  else if String.eqb scene "bars_cosmic" then
    returned (go_bars_supergroup "Cosmic & Moral Reckonings" st)
  else returned st.

(** *** Scroll engine *)

(** The [DOMRect] of a card, as read by [setActiveByCenter]. *)
Record Rect := { top : Q; bottom : Q; height : Q }.

(** A [.step] card at the time of an event: its attributes and where it
    is in the viewport. *)
Record Card := {
  data_scene : option string;
  data_title : option string;
  data_subtitle : option string;
  rect : Rect
}.

(** Not [r.bottom <= 0 || r.top >= window.innerHeight]. *)
Definition in_viewport (innerHeight : Q) (r : Rect) : bool :=
  negb (Qle_bool (bottom r) 0 || Qle_bool innerHeight (top r)).

(** [Math.abs(r.top + r.height / 2 - window.innerHeight / 2)], each
    operation rounded. *)
Definition dist (innerHeight : Q) (r : Rect) : Q :=
  Qabs (fl (fl (top r + fl (height r / 2)) - fl (innerHeight / 2))).

(** The body of [steps.forEach]; [None] is [best = null] with
    [bestDist = Infinity]. *)
Definition visit (innerHeight : Q) (acc : option (nat * Card * Q))
    (i : nat) (el : Card) : option (nat * Card * Q) :=
  if in_viewport innerHeight (rect el) then
    let d := dist innerHeight (rect el) in
    match acc with
    | None => Some (i, el, d)
    | Some (_, _, bestDist) =>
        if Qlt_bool d bestDist then Some (i, el, d) else acc
    end
  else acc.

Fixpoint scan (innerHeight : Q) (i : nat) (steps : list Card)
    (acc : option (nat * Card * Q)) : option (nat * Card * Q) :=
  match steps with
  | [] => acc
  | el :: rest => scan innerHeight (S i) rest (visit innerHeight acc i el)
  end.

(** [best] after the loop, with its index in document order. *)
Definition best (innerHeight : Q) (steps : list Card)
    : option (nat * Card * Q) :=
  scan innerHeight 0 steps None.

Definition applyStepTitle (stepEl : Card) (st : State) : State :=
  let st := log call_applyStepTitle st in
  if falsy (data_title stepEl) then st
  else if is_bars (mode (vars st)) then st
  else set_title (or_empty (data_title stepEl)) st.

Definition applyStepSubtitle (stepEl : Card) (st : State) : State :=
  let st := log call_applyStepSubtitle st in
  if is_bars (mode (vars st)) then st
  else if falsy (data_subtitle stepEl) then st
  else set_subtitle (or_empty (data_subtitle stepEl)) st.

Definition applyStepFX (st : State) : State := log call_applyStepFX st.

Definition same_card (a : option nat) (i : nat) : bool :=
  match a with Some j => j =? i | None => false end.

(** [active.getAttribute("data-scene") || "noop"] *)
Definition scene_of (el : Card) : string :=
  if falsy (data_scene el) then "noop" else or_empty (data_scene el).

Definition setActiveByCenter (innerHeight : Q) (steps : list Card)
    (st : State) : Outcome :=
  if negb (armed (vars st)) then returned st
  else match best innerHeight steps with
       | None => returned st
       | Some (i, el, _) =>
           if same_card (active (vars st)) i then returned st
           else st |> set_active (Some i)
                   |> applyStepTitle el
                   |> applyStepSubtitle el
                   |> applyStepFX
                   |> go (scene_of el)
       end.

(** The callback of the [IntersectionObserver] on the chart container. *)
Definition onIntersection (isIntersecting : bool) (intersectionRatio : Q)
    (innerHeight : Q) (steps : list Card) (st : State) : Outcome :=
  and_then
    (if negb (baselineRendered (vars st)) && isIntersecting then
       st |> set_baselineRendered true
          |> set_title "The Hit Matrix"
          |> drawScatter
          |> addQuadrantsIfNeeded
     else returned st)
    (fun st =>
       let st :=
         set_armed (isIntersecting && Qle_bool (3 # 10) intersectionRatio) st in
       if armed (vars st) then setActiveByCenter innerHeight steps st
       else returned st).

(** *** Deferred work *)

Definition run_task (t : Task) (st : State) : State :=
  match t with
  | task_crossfade_end focus =>
      let st := st |> drawFearBars |> crossfadeIn [gChart; gAxis] in
      match focus with
      | Some name => enqueue (task_timeout name) st
      | None => st
      end
  | task_csv_loaded url grouped =>
      let rows := csv url in
      let st := set_fearRows (Some rows) st in
      if grouped then drawFearBarsGrouped_body rows st
      else drawFearBars_body rows st
  | task_timeout name => focusBarsBySupergroup (Some name) st
  end.

Fixpoint remove_nth {A : Type} (i : nat) (l : list A) : list A :=
  match l, i with
  | [], _ => []
  | _ :: rest, O => rest
  | x :: rest, S j => x :: remove_nth j rest
  end.

(** The browser runs the [i]-th pending task. *)
Definition fire (i : nat) (st : State) : State :=
  match nth_error (pending (sched st)) i with
  | Some t => run_task t (set_pending (remove_nth i (pending (sched st))) st)
  | None => st
  end.

(** The browser runs pending tasks one after the other, [order] giving
    the position of each in the pending list at its turn. *)
Definition fires (order : list nat) (st : State) : State :=
  fold_left (fun s i => fire i s) order st.

(** A crossfade end leaves at most two tasks behind, which leave none. *)
Definition task_weight (t : Task) : nat :=
  match t with task_crossfade_end _ => 3 | _ => 1 end.

Fixpoint tasks_weight (l : list Task) : nat :=
  match l with
  | [] => 0
  | t :: rest => task_weight t + tasks_weight rest
  end.

(** What happens on the page: the browser reports a scroll or a resize,
    or a change of how much of the chart is in view, or runs a pending
    task. *)
Inductive Event :=
  | ev_scroll (innerHeight : Q) (steps : list Card)
  | ev_intersection (isIntersecting : bool) (intersectionRatio : Q)
      (innerHeight : Q) (steps : list Card)
  | ev_fire (i : nat).

(** A handler that throws is ended there; the page goes on with the
    state it left. *)
Definition step (st : State) (e : Event) : State :=
  match e with
  | ev_scroll h steps => state_of (setActiveByCenter h steps st)
  | ev_intersection i ratio h steps =>
      state_of (onIntersection i ratio h steps st)
  | ev_fire i => fire i st
  end.

(** A page session. *)
Definition run (st : State) (events : list Event) : State :=
  fold_left step events st.

(** Scenes requested one after the other, each followed by the pending
    tasks that the browser runs before the next request, in their
    order. *)
Definition run_settled (st : State) (phases : list (string * list nat))
    : State :=
  fold_left (fun s phase => fires (snd phase) (go (fst phase) s)) phases st.

(** Each scene was requested once the work of the one before was done. *)
Fixpoint all_settled (st : State) (phases : list (string * list nat))
    : Prop :=
  match phases with
  | [] => True
  | phase :: rest =>
      pending (sched (fires (snd phase) (go (fst phase) st))) = []
      /\ all_settled (fires (snd phase) (go (fst phase) st)) rest
  end.

(** The state [main] starts from.  The page outside the chart comes from
    [index.html]. *)
Definition cold (html : Page) : State :=
  {| vars := {| mode := mode_none; fearRows := None;
                quadrantsAdded := false; isHorrorFocused := false;
                armed := false; active := None;
                baselineRendered := false |};
     page := html;
     svg := {| bubbles := []; labels := []; bars := []; axes := [];
               legend := []; gChart_opacity := None; gAxis_opacity := None;
               gLegend_opacity := None; horrorCenterLabel := false |};
     sched := {| pending := []; fetched := []; calls := [] |} |}.

(** *** What a reader sees *)

Definition shown (opacity : option Q) : bool :=
  match opacity with Some q => negb (Qeq_bool q 0) | None => true end.

Definition bar_label (d : BarDatum) : string :=
  match d with fear_bar c => fear c | group_bar c => group c end.

(** The labels of the marks that carry the class [dimmed]. *)
Definition dimmed_marks (st : State) : list string :=
  map (fun b => genre (b_datum b)) (filter b_dimmed (bubbles (svg st)))
  ++ map (fun l => genre (l_datum l)) (filter l_dimmed (labels (svg st)))
  ++ map (fun b => bar_label (bar_datum b)) (filter bar_dimmed (bars (svg st))).

(** The quadrant guides are in the axes layer and neither they nor the
    layer are faded out. *)
Definition guides_visible (st : State) : bool :=
  existsb is_quadrant (axes (svg st))
  && forallb (fun e => shown (a_opacity e)) (filter is_quadrant (axes (svg st)))
  && shown (gAxis_opacity (svg st)).

Record Observation := {
  seen_mode : Mode;
  seen_dimmed : list string;
  seen_guides : bool;
  seen_title : string
}.

Definition observe (st : State) : Observation :=
  {| seen_mode := mode (vars st);
     seen_dimmed := dimmed_marks st;
     seen_guides := guides_visible st;
     seen_title := title (page st) |}.

(** The calls made from [st] to [st'], oldest first. *)
Definition new_calls (st st' : State) : list Call :=
  rev (firstn (List.length (calls (sched st')) - List.length (calls (sched st)))
         (calls (sched st'))).

(** *** Radius scale *)

Local Open Scope R_scope.

(** [d3.scaleSqrt().domain([d0, d1]).range([r0, r1])] at [v], in real
    arithmetic: both ends of the domain and [v] go through the square
    root, the result is normalized ([0.5] when the domain is a point) and
    interpolated as [r0 * (1 - t) + r1 * t]. *)
Definition scaleSqrt (d0 d1 r0 r1 v : R) : R :=
  let a := sqrt d0 in
  let b := sqrt d1 - a in
  let t := if Req_dec_T b 0 then / 2 else (sqrt v - a) / b in
  r0 * (1 - t) + r1 * t.

(** The scale [r]; [None] when [d3.max] is [undefined] and the scale
    returns [NaN]. *)
Definition r (n : nat) : option R :=
  match d3_max (map genre_count genreData) with
  | Some m => Some (scaleSqrt 0 (INR m) 5 50 (INR n))
  | None => None
  end.

(** The radius a bubble is drawn with: [.attr("r", d => r(d.count))]. *)
Definition radius (b : Bubble) : option R :=
  match b_scales b with
  | base_scales => r (genre_count (b_datum b))
  | zoom_scales => Some 200
  | bar_scales => None
  end.

Local Close Scope R_scope.

(** The same scale in the arithmetic of the code: [Math.sqrt] and every
    subtraction, division, multiplication and addition rounded to the
    nearest double. *)
Definition scaleSqrt_double (d0 d1 r0 r1 v : Q) : Q :=
  let a := sqrt_fl d0 in
  let b := fl (sqrt_fl d1 - a) in
  let t := if Qeq_bool b 0 then (1 # 2)%Q
           else fl (fl (sqrt_fl v - a) / b) in
  fl (fl (r0 * fl (1 - t)) + fl (r1 * t)).

Definition count_as_number (n : nat) : Q := inject_Z (Z.of_nat n).

Definition r_double (n : nat) : option Q :=
  match d3_max (map genre_count genreData) with
  | Some m =>
      Some (scaleSqrt_double 0 (count_as_number m) 5 50 (count_as_number n))
  | None => None
  end.

Definition radius_double (b : Bubble) : option Q :=
  match b_scales b with
  | base_scales => r_double (genre_count (b_datum b))
  | zoom_scales => Some 200%Q
  | bar_scales => None
  end.

(** *** Vocabulary of the statements *)

(** The position of the first [k] in [l]; the length of [l] when there is
    none. *)
Fixpoint first_index (k : string) (l : list string) : nat :=
  match l with
  | [] => O
  | x :: rest => if String.eqb x k then O else S (first_index k rest)
  end.

(** How many elements of [l] are [k]. *)
Definition occurrences (k : string) (l : list string) : nat :=
  List.length (filter (fun x => String.eqb x k) l).

(** Larger [size] first; among equal sizes, [before] decides. *)
Definition desc_then {A : Type} (size : A -> nat) (before : A -> A -> Prop)
    (a b : A) : Prop :=
  size b < size a \/ (size a = size b /\ before a b).

(** The order of the bars: the larger count first, and among equal
    counts the label that is met first in [keys]. *)
Definition bar_order (keys : list string) (a b : FearCount) : Prop :=
  count b < count a
  \/ (count a = count b
      /\ first_index (fear a) keys < first_index (fear b) keys).

(** The first entry of an insertion-ordered map with key [k]. *)
Fixpoint lookup {A : Type} (k : string) (g : list (string * A)) : option A :=
  match g with
  | [] => None
  | (k', v) :: rest => if String.eqb k' k then Some v else lookup k rest
  end.

(** What [d3.group] builds: distinct keys, in the order in which they are
    first met, each with as many values as carry the key. *)
Record grouped_ok {A : Type} (values : list A) (key : A -> string)
    (g : list (string * list A)) : Prop := {
  ok_nodup : NoDup (map fst g);
  ok_keys : forall k, In k (map fst g) <-> In k (map key values);
  ok_size : forall k v, In (k, v) g ->
                        List.length v = occurrences k (map key values);
  ok_order : StronglySorted
               (fun a b => first_index a (map key values)
                           < first_index b (map key values)) (map fst g);
  ok_total : list_sum (map (fun kv => List.length (snd kv)) g)
             = List.length values
}.

(** An entry of [d3.rollups(filtered, v => v.length, ...)] as a
    [{fear, count}] object, and as a [{group, count}] object. *)
Definition fear_entry (kv : string * list FearRow) : FearCount :=
  {| fear := fst kv; count := List.length (snd kv) |}.

Definition group_entry (kv : string * list FearRow) : GroupCount :=
  {| group := fst kv; group_count := List.length (snd kv) |}.

Definition supergroups : list string :=
  [ "Societal & Structural Horrors"; "The Body as Battleground";
    "Psychological & Domestic Horrors"; "Cosmic & Moral Reckonings" ].

(** [+s] on the plain decimal numerals, for the examples: digits with at
    most one point; anything else is [NaN]. *)
Fixpoint decimal_from (s : string) (num : Z) (den : option positive)
    : option Q :=
  match s with
  | EmptyString =>
      Some (num # match den with Some d => d | None => 1 end)%Q
  | String c rest =>
      if Ascii.eqb c "." then
        match den with
        | None => decimal_from rest num (Some 1%positive)
        | Some _ => None
        end
      else if ((48 <=? code c) && (code c <=? 57))%bool then
        decimal_from rest (num * 10 + Z.of_nat (code c - 48))%Z
          (option_map (Pos.mul 10) den)
      else None
  end.

Definition decimal (s : string) : option Q := decimal_from s 0%Z None.

(** The double that [+s] gives for such a numeral. *)
Definition number (s : string) : option Q := option_map fl (decimal s).

Definition movie (g v r : string) : MovieRow :=
  {| OMDb_Genre := Some g; Views := Some v; OMDb_imdbRating := Some r |}.

(** The scenario of the spec: one "Horror, Thriller" title and five
    "Horror" titles. *)
Definition scenario_movies : list MovieRow :=
  movie "Horror, Thriller" "1,000" "7.5" :: repeat (movie "Horror" "2,000" "8.0") 5.

(** Twenty titles of one genre and five of another. *)
Definition twenty_and_five : list MovieRow :=
  repeat (movie "Drama" "1,000" "7.0") 20
  ++ repeat (movie "Horror" "2,000" "6.0") 5.

(** Three genres of five titles, all rated 6.1, "Horror" the least
    viewed. *)
Definition three_at_6_1 : list MovieRow :=
  repeat (movie "Horror" "1,000" "6.1") 5
  ++ repeat (movie "Drama" "2,000" "6.1") 5
  ++ repeat (movie "Comedy" "3,000" "6.1") 5.

(** Five titles of one genre, none of them rated: "N/A" is no number. *)
Definition five_unrated : list MovieRow :=
  repeat (movie "Horror" "1,000" "N/A") 5.

(** [f] logs calls on top of the log it finds, and none of them is a call
    of [restoreFromHorrorZoom]. *)
Definition quiet (f : State -> State) : Prop :=
  forall st, exists l,
    calls (sched (f st)) = l ++ calls (sched st)
    /\ ~ In call_restoreFromHorrorZoom l.

(** The two overlay flags. *)
Definition overlay_flags (st : State) : bool * bool :=
  (quadrantsAdded (vars st), isHorrorFocused (vars st)).

(** How much work is still pending. *)
Definition weight (st : State) : nat := tasks_weight (pending (sched st)).

(** A task that ends with the bars drawn. *)
Definition bars_bound (t : Task) : bool :=
  match t with task_timeout _ => false | _ => true end.

(** The bars are drawn, or a pending task will draw them. *)
Definition heading_to_bars (st : State) : bool :=
  is_bars (mode (vars st)) || existsb bars_bound (pending (sched st)).

(** The scenes baseline, horror and bars, each with the work it leaves
    run to its end. *)
Definition baseline_horror_bars : list (string * list nat) :=
  [("baseline", []); ("horror", []); ("bars", [0; 0])].

(** The scene sequence of the convergence property. *)
Definition four_scenes : list string :=
  ["baseline"; "horror"; "bars"; "baseline"].

(** What a reader sees of the baseline scene. *)
Definition baseline_view : Observation :=
  {| seen_mode := mode_scatter; seen_dimmed := []; seen_guides := true;
     seen_title := "The Hit Matrix" |}.

(** The file each bar renderer asks for, [grouped] telling
    [drawFearBarsGrouped] from [drawFearBars]. *)
Definition renderer_url (grouped : bool) : string :=
  if grouped then clean_csv else manualfix_csv.

(** A call of a bar renderer, awaited: when it has to ask for the rows,
    the download it started, the newest pending task, ends before
    anything else happens. *)
Definition render (grouped : bool) (st : State) : State :=
  let st' := if grouped then drawFearBarsGrouped st else drawFearBars st in
  match fearRows (vars st) with
  | Some _ => st'
  | None => fire (List.length (pending (sched st))) st'
  end.

Definition render_all (st : State) (renderers : list bool) : State :=
  fold_left (fun s g => render g s) renderers st.

(** The bars a renderer draws from [rows]. *)
Definition bars_of (grouped : bool) (rows : list FearRow) : list Bar :=
  if grouped then map (fun c => new_bar (group_bar c)) (groupedCounts rows)
  else map (fun c => new_bar (fear_bar c)) (fearCounts rows).

(** The rows are cached and no work is pending. *)
Definition cached (rows : list FearRow) (urls : list string) (st : State)
    : Prop :=
  fearRows (vars st) = Some rows /\ pending (sched st) = []
  /\ fetched (sched st) = urls.

(** Every bubble stands for an aggregate of [genreData] and every label
    for one of [top10]. *)
Definition marks_ok (st : State) : Prop :=
  incl (map b_datum (bubbles (svg st))) genreData
  /\ incl (map l_datum (labels (svg st))) top10.

(** Whatever was asked of [d3.csv] for the fear labels was the manually
    corrected file. *)
Definition only_manualfix (st : State) : Prop :=
  Forall (fun url => url = manualfix_csv) (fetched (sched st)).

(** The genres of the bubbles and of the labels on the chart. *)
Definition bubble_genres (st : State) : list string :=
  map (fun b => genre (b_datum b)) (bubbles (svg st)).

Definition label_genres (st : State) : list string :=
  map (fun l => genre (l_datum l)) (labels (svg st)).

(** The card [el], the [i]-th in document order, is in the viewport and
    no card in the viewport is nearer to the middle of it, nor as near and
    earlier in the document. *)
Definition nearest_card (innerHeight : Q) (steps : list Card) (i : nat)
    (el : Card) : Prop :=
  nth_error steps i = Some el
  /\ in_viewport innerHeight (rect el) = true
  /\ forall j el',
       nth_error steps j = Some el' ->
       in_viewport innerHeight (rect el') = true ->
       (dist innerHeight (rect el) <= dist innerHeight (rect el'))%Q
       /\ (j < i ->
           (dist innerHeight (rect el) < dist innerHeight (rect el'))%Q).

(** The distance of the centre of a card from the middle of the
    viewport, as a real number. *)
Definition exact_dist (innerHeight : Q) (r : Rect) : Q :=
  Qabs (top r + height r / 2 - innerHeight / 2).

(** Two cards of the height 1 + 3/2^43 in a viewport of the height 800,
    the first at its top and the second at its bottom: their centres are
    equally far from the middle of the viewport. *)
Definition card_between (top bottom : Q) : Card :=
  {| data_scene := None; data_title := None; data_subtitle := None;
     rect := {| top := top; bottom := bottom; height := bottom - top |} |}.

Definition tied_first : Card :=
  card_between 0 (8796093022211 # 8796093022208).

Definition tied_second : Card :=
  card_between (7028078324744189 # 8796093022208) 800.

Definition tied_cards : list Card := [tied_first; tied_second].

(** What the loop of [setActiveByCenter] knows after the cards [seen]. *)
Definition scanned (innerHeight : Q) (seen : list Card)
    (acc : option (nat * Card * Q)) : Prop :=
  match acc with
  | None => forall el, In el seen -> in_viewport innerHeight (rect el) = false
  | Some (i, el, d) =>
      d = dist innerHeight (rect el) /\ nearest_card innerHeight seen i el
  end.

(** The [i]-th aggregate of a list, for the examples. *)
Definition no_datum : GenreDatum :=
  {| genre := ""; genre_count := 0; avg_imdb := None; total_views := 0 |}.

Definition datum_at (data : list GenreDatum) (i : nat) : GenreDatum :=
  nth i data no_datum.

(** A page with the methodology button in it, for the examples. *)
Definition sample_page : Page :=
  {| title := ""; subtitle := ""; note_hidden := false;
     methodologyBtn := Some None; tooltip_opacity := None |}.

(** Fear-label files for the examples: two rows in the corrected file,
    one in the other. *)
Definition sample_csv (url : string) : list FearRow :=
  if String.eqb url manualfix_csv
  then [fear_row "Contagion & Mutation"; fear_row "Grief & Familial Trauma"]
  else [fear_row "Contagion & Mutation"].

(** Three cards of height 300 with their centres at 100, 400 and 900. *)
Definition card_at (centre : Q) : Card :=
  {| data_scene := None; data_title := None; data_subtitle := None;
     rect := {| top := centre - 150; bottom := centre + 150;
                height := 300 |} |}.

Definition three_cards : list Card := [card_at 100; card_at 400; card_at 900].

(** Whether the separator ", " occurs in a list of characters. *)
Fixpoint has_separator (l : list ascii) : bool :=
  match l with
  | [] => false
  | c :: rest =>
      match rest with
      | [] => false
      | c2 :: _ =>
          (Ascii.eqb c "," && Ascii.eqb c2 " ") || has_separator rest
      end
  end.

Definition no_separator (s : string) : Prop :=
  has_separator (list_ascii_of_string s) = false.

(** Whether a list of characters ends with a comma. *)
Fixpoint last_comma (l : list ascii) : bool :=
  match l with
  | [] => false
  | c :: rest =>
      match rest with
      | [] => Ascii.eqb c ","
      | _ :: _ => last_comma rest
      end
  end.

(** How many rows of [exploded] belong to the genre [g]. *)
Definition membership (g : string) : nat :=
  occurrences g (map row_genre exploded).

(** *** Colours, legend and tooltips *)

(** [bisectRight(thresholds, x)] on an ascending array: how many
    thresholds are at most [x]. *)
Definition bisect_right (thresholds : list N) (x : N) : nat :=
  List.length (filter (fun t => N.leb t x) thresholds).

Definition color_thresholds : list N := [50; 200; 500; 1000; 2000]%N.

Definition color_classes : list string :=
  [ "color-cat-6"; "color-cat-5"; "color-cat-4";
    "color-cat-3"; "color-cat-2"; "color-cat-1" ].

(** [colorScale], a [d3.scaleThreshold], at a count. *)
Definition colorScale (n : nat) : string :=
  nth (bisect_right color_thresholds (N.of_nat n)) color_classes "".

(** The [legendCategories] of [drawScatter] with their classes. *)
Definition legend_entries : list (string * string) :=
  [ ("2001+", "color-cat-1"); ("1001 - 2000", "color-cat-2");
    ("501 - 1000", "color-cat-3"); ("201 - 500", "color-cat-4");
    ("51 - 200", "color-cat-5"); ("5 - 50", "color-cat-6") ].

(** The digits a string starts with, as a number, and what follows them. *)
Fixpoint leading_number (s : string) (acc : N) : N * string :=
  match s with
  | EmptyString => (acc, EmptyString)
  | String c rest =>
      if ((48 <=? code c) && (code c <=? 57))%bool
      then leading_number rest (acc * 10 + N.of_nat (code c - 48))%N
      else (acc, s)
  end.

(** The counts a legend label stands for: ["lo - hi"] or ["lo+"]. *)
Definition label_range (label : string) : option (N * option N) :=
  let (lo, rest) := leading_number label 0%N in
  if String.eqb rest "+" then Some (lo, None)
  else match rest with
       | String " " (String "-" (String " " hi)) =>
           let (h, rest') := leading_number hi 0%N in
           if String.eqb rest' "" then Some (lo, Some h) else None
       | _ => None
       end.

Definition in_range (n : N) (range : option (N * option N)) : bool :=
  match range with
  | Some (lo, Some hi) => N.leb lo n && N.leb n hi
  | Some (lo, None) => N.leb lo n
  | None => false
  end.

(** The class of the legend entry whose label covers the count [n]. *)
Definition legend_class (n : nat) : option string :=
  option_map snd
    (find (fun e => in_range (N.of_nat n) (label_range (fst e)))
       legend_entries).

Definition getDisplayName (categoryName : string) : string :=
  if String.eqb categoryName "Body Horror / Envelope Violation"
  then "Body Horror"
  else categoryName.

Definition FEAR_CATEGORY_DESCRIPTIONS : list (string * string) :=
  [
    ("Invasion, Impostors & Paranoia",
     "Fear of being replaced, infiltrated, or observed by hidden others — aliens, doubles, or unseen conspirators disrupting normal life.");
    ("Persecution & Social Breakdown",
     "Fear of mob violence, cult domination, or the collapse of moral order — when collective madness replaces reason and safety.");
    ("Institutional & Structural Control",
     "Fear of domination by organized systems — governments, corporations, cults, or algorithms that erase autonomy and identity.");
    ("Possession & Loss of Agency",
     "Fear of losing control of one's mind or body to supernatural or psychological forces — demonic, psychic, or manipulative influence.");
    ("Captivity & Voyeuristic Sadism",
     "Fear of imprisonment, coercion, and deliberate human cruelty — torture, rape-revenge, or sadistic games that turn pain into spectacle.");
    ("Contagion & Mutation",
     "Fear of infection or involuntary biological transformation — viruses, parasites, or spreading contamination altering the body.");
    ("Body Horror",
     "Fear of bodily invasion, forced metamorphosis, or dismemberment — the body violated or remade beyond recognition.");
    ("Ecological / Natural Menace",
     "Fear of nature turning hostile — animals, weather, or landscapes striking back against human control and exploitation.");
    ("Isolation & Psychological Unraveling",
     "Fear that solitude itself becomes the menace — prolonged isolation leading to paranoia, madness, and collapse of meaning.");
    ("Grief & Familial Trauma",
     "Fear rooted in loss, inheritance, or haunted domestic bonds — when family, grief, or lineage becomes the source of horror.");
    ("Transgression & Moral Punishment",
     "Fear of violating sacred or moral boundaries and suffering retribution — curses, pacts, or divine punishment for human sin.")
  ].

(** [FEAR_CATEGORY_DESCRIPTIONS[key] || ""], for keys that are not
    properties of [Object.prototype]. *)
Definition description (key : string) : string :=
  or_empty (map_get FEAR_CATEGORY_DESCRIPTIONS key).

(** The [description] in the tooltip of a bar of [drawFearBars]. *)
Definition bar_description (d : FearCount) : string := description (fear d).

(** The exploded rows of one genre. *)
Definition rows_of (g : string) : list GenreRow :=
  filter (fun x => String.eqb (row_genre x) g) exploded.

(** What [btn.style.display = d] leaves of the methodology button, which
    may be missing from the page. *)
Definition btn_after (d : Display) (st : State) : option (option Display) :=
  match methodologyBtn (page st) with
  | Some _ => Some (Some d)
  | None => None
  end.

(** Scroll or resize events, each with the viewport height and the cards
    as they are then. *)
Definition scrolls (views : list (Q * list Card)) : list Event :=
  map (fun v => ev_scroll (fst v) (snd v)) views.

(** The five bars scenes with the supergroup that [go] asks to focus;
    the scene "bars" asks for none. *)
Definition bars_requests : list (string * option string) :=
  [ ("bars", None);
    ("bars_psychological", Some "Psychological & Domestic Horrors");
    ("bars_body", Some "The Body as Battleground");
    ("bars_societal", Some "Societal & Structural Horrors");
    ("bars_cosmic", Some "Cosmic & Moral Reckonings") ].

(** Whether a bar is dimmed when the supergroup [name] is in focus. *)
Definition bar_dims (name : option string) (d : BarDatum) : bool :=
  match name with
  | None => false
  | Some n => negb (option_string_eqb (bar_group d) (Some n))
  end.

(** The rows the bars are drawn from: the cached ones, or else those of
    the corrected file. *)
Definition rows_after (st : State) : list FearRow :=
  match fearRows (vars st) with
  | Some rows => rows
  | None => csv manualfix_csv
  end.

(** The state after the scene "bars" from a cold start, with its work
    done. *)
Definition bars_drawn (html : Page) : State :=
  fires [0; 0] (go "bars" (cold html)).

(** A bar for one title of the category "Contagion & Mutation". *)
Definition contagion_count : FearCount :=
  {| fear := "Contagion & Mutation"; count := 1 |}.

(** The five scatter scenes with the marks their focus calls dim: none,
    by quadrant, or all but horror. *)
Definition scatter_requests : list (string * (GenreDatum -> bool)) :=
  [ ("baseline", fun _ => false);
    ("quadrants", fun _ => false);
    ("high-views", shouldDim "high-views");
    ("critical-darlings", shouldDim "critical-darlings");
    ("horror", notHorror) ].

(** A bubble is on display, at its place and size of the frozen scales. *)
Definition bubble_shown (b : Bubble) : Prop :=
  b_display b <> Some display_none /\ b_opacity b <> Some 0%Q
  /\ b_scales b = base_scales.

Definition label_shown (l : Label) : Prop :=
  l_display l <> Some display_none /\ l_opacity l <> Some 0%Q.

(** A mark carries the class [dimmed] exactly when [dims] holds of its
    datum, and ignores the pointer exactly when it is dimmed. *)
Definition bubble_dimmed_by (dims : GenreDatum -> bool) (b : Bubble) : Prop :=
  b_dimmed b = dims (b_datum b)
  /\ (b_dimmed b = true <-> b_pointer b = Some pointer_none).

Definition label_dimmed_by (dims : GenreDatum -> bool) (l : Label) : Prop :=
  l_dimmed l = dims (l_datum l)
  /\ (l_dimmed l = true <-> l_pointer l = Some pointer_none).

(** The chart under a scatter scene: the one that is there, or a new
    one. *)
Definition scatter_data (st : State) : list GenreDatum :=
  if is_scatter (mode (vars st)) then map b_datum (bubbles (svg st))
  else genreData.

(** Under the zoom a bubble of another genre is gone, and a horror bubble
    is on display with the geometry of the zoom. *)
Definition zoomed_or_hidden (b : Bubble) : Prop :=
  if notHorror (b_datum b)
  then b_display b = Some display_none /\ b_opacity b = Some 0%Q
  else b_display b = Some display_block /\ b_opacity b = Some 1%Q
       /\ b_scales b = zoom_scales.

Definition label_hidden (l : Label) : Prop :=
  l_display l = Some display_none /\ l_opacity l = Some 0%Q.

(** An update that may already have been made. *)
Definition when {A : Type} (b : bool) (f : A -> A) (x : A) : A :=
  if b then f x else x.

(** What [zoomToHorror] and [restoreFromHorrorZoom] do to the axes
    layer: the first x axis and the first y axis get the scales [s], and
    the axis labels and the quadrant guides the opacity [o]. *)
Definition rescale_axes (s : Scales) (o : Q) (fx fy : bool)
    (l : list AxisEl) : list AxisEl :=
  update_all is_quadrant (with_a_opacity (Some o))
    (update_all is_axis_label (with_a_opacity (Some o))
       (when fy (update_first (is_class y_axis) (with_a_scales s))
          (when fx (update_first (is_class x_axis) (with_a_scales s)) l))).

(** The state after the scene "baseline" from a cold start. *)
Definition baseline_drawn (html : Page) : State := go "baseline" (cold html).

(** The classes of the children of the axes layer, in document order,
    under the scatter with its quadrant guides and under the bars.  The
    second annotation of the guides is there when [addQuadrantsIfNeeded]
    got to it: when there is a mean rating. *)
Definition scatter_axes : list AxisClass :=
  [ x_axis; y_axis; x_label; y_label; quadrant_line; quadrant_line;
    quadrant_label; quadrant_label; quadrant_label; quadrant_label;
    quadrant_axis_label ]
  ++ match meanRating with
     | Some _ => [quadrant_axis_label]
     | None => []
     end.

Definition bars_axes : list AxisClass := [y_axis; x_axis; x_label].

(** The chart agrees with [mode]: nothing is drawn before the first
    chart; the scatter has a bubble for each aggregate of [genreData], a
    label for each of [top10], the axes with the quadrant guides, the
    legend and no bar; the bars are the counts of the rows of the
    corrected file, which are cached, under the title and subtitle of the
    bars, with no bubble, label, legend or centre label. *)
Definition chart_ok (st : State) : Prop :=
  match mode (vars st) with
  | mode_none =>
      bubbles (svg st) = [] /\ labels (svg st) = [] /\ bars (svg st) = []
      /\ axes (svg st) = [] /\ legend (svg st) = []
  | mode_scatter =>
      map b_datum (bubbles (svg st)) = genreData
      /\ map l_datum (labels (svg st)) = top10
      /\ bars (svg st) = []
      /\ map a_class (axes (svg st)) = scatter_axes
      /\ legend (svg st) = legendCategories
      /\ quadrantsAdded (vars st) = true
  | mode_bars =>
      bubbles (svg st) = [] /\ labels (svg st) = []
      /\ map bar_datum (bars (svg st))
         = map fear_bar (fearCounts (csv manualfix_csv))
      /\ map a_class (axes (svg st)) = bars_axes
      /\ legend (svg st) = []
      /\ horrorCenterLabel (svg st) = false
      /\ title (page st) = bars_title
      /\ subtitle (page st) = bars_subtitle
      /\ fearRows (vars st) = Some (csv manualfix_csv)
  end.

(** A pending download is one of the corrected file for [drawFearBars]. *)
Definition task_ok (t : Task) : Prop :=
  match t with
  | task_csv_loaded url grouped => url = manualfix_csv /\ grouped = false
  | _ => True
  end.

(** The rows, when cached, are those of the corrected file, no other
    file was asked for, no other download is pending, and
    [drawFearBarsGrouped] was not called. *)
Definition work_ok (st : State) : Prop :=
  (fearRows (vars st) = None \/ fearRows (vars st) = Some (csv manualfix_csv))
  /\ Forall (fun url => url = manualfix_csv) (fetched (sched st))
  /\ Forall task_ok (pending (sched st))
  /\ Forall (fun c => c <> call_drawFearBarsGrouped) (calls (sched st)).

(** Before the chart container was first in view nothing has happened;
    from then on there is a chart. *)
Definition engine_ok (st : State) : Prop :=
  if baselineRendered (vars st) then mode (vars st) <> mode_none
  else mode (vars st) = mode_none /\ armed (vars st) = false
       /\ active (vars st) = None /\ pending (sched st) = [].

Definition session_ok (st : State) : Prop :=
  chart_ok st /\ work_ok st /\ engine_ok st.

(** Scenes requested one after the other, without waiting for the work
    they leave. *)
Definition go_all (st : State) (scenes : list string) : State :=
  fold_left (fun s scene => go scene s) scenes st.

(* ================================================================== *)
(** ** Insertion-ordered grouping *)
(* ================================================================== *)

(** The lemmas on lists do not speak of the program: its parameters are
    cleared from their proofs where [tauto] would pick them up. *)

Lemma lookup_group_add {A : Type} (k k' : string) (x : A) g :
  lookup k' (group_add k x g) =
  if String.eqb k k' then
    Some (match lookup k g with Some v => v ++ [x] | None => [x] end)
  else lookup k' g.
Proof.
  induction g as [|[k0 v0] g IH]; simpl.
  - destruct (String.eqb k k'); reflexivity.
  - destruct (String.eqb k0 k) eqn:E0.
    + apply String.eqb_eq in E0; subst k0. simpl.
      destruct (String.eqb k k'); reflexivity.
    + simpl. destruct (String.eqb k0 k') eqn:E1.
      * apply String.eqb_eq in E1; subst k0.
        rewrite String.eqb_sym, E0. reflexivity.
      * exact IH.
Qed.

Lemma group_add_known {A : Type} (k : string) (x : A) g :
  In k (map fst g) -> map fst (group_add k x g) = map fst g.
Proof.
  clear toNumber csv.
  induction g as [|[k0 v0] g IH]; simpl; [tauto|].
  intros H. destruct (String.eqb k0 k) eqn:E; simpl; [reflexivity|].
  f_equal. apply IH. destruct H as [H|H]; [|exact H].
  subst k0. rewrite String.eqb_refl in E. discriminate.
Qed.

Lemma group_add_new {A : Type} (k : string) (x : A) g :
  ~ In k (map fst g) -> group_add k x g = g ++ [(k, [x])].
Proof.
  clear toNumber csv.
  induction g as [|[k0 v0] g IH]; simpl; [reflexivity|].
  intros H. destruct (String.eqb k0 k) eqn:E.
  - apply String.eqb_eq in E. tauto.
  - f_equal. apply IH. tauto.
Qed.

Lemma d3_groups_snoc {A : Type} (values : list A) (x : A) key :
  d3_groups (values ++ [x]) key = group_add (key x) x (d3_groups values key).
Proof. unfold d3_groups. rewrite fold_left_app. reflexivity. Qed.

Lemma lookup_In {A : Type} (k : string) (v : A) g :
  lookup k g = Some v -> In (k, v) g.
Proof.
  induction g as [|[k0 v0] g IH]; simpl; [discriminate|].
  destruct (String.eqb k0 k) eqn:E.
  - apply String.eqb_eq in E. intros [= ->]. subst. now left.
  - intros H. right. now apply IH.
Qed.

Lemma In_lookup {A : Type} (k : string) (v : A) g :
  NoDup (map fst g) -> In (k, v) g -> lookup k g = Some v.
Proof.
  clear toNumber csv.
  induction g as [|[k0 v0] g IH]; simpl; [tauto|].
  intros ND [H|H].
  - injection H as -> ->. now rewrite String.eqb_refl.
  - inversion ND as [|? ? Hn ND']; subst.
    destruct (String.eqb k0 k) eqn:E.
    + apply String.eqb_eq in E; subst k0.
      exfalso. apply Hn. change k with (fst (k, v)). now apply in_map.
    + now apply IH.
Qed.

Lemma lookup_None {A : Type} (k : string) (g : list (string * A)) :
  lookup k g = None <-> ~ In k (map fst g).
Proof.
  clear toNumber csv.
  induction g as [|[k0 v0] g IH]; simpl; [tauto|].
  destruct (String.eqb k0 k) eqn:E.
  - apply String.eqb_eq in E. split; [discriminate|tauto].
  - apply String.eqb_neq in E. tauto.
Qed.

Lemma first_index_In k l : In k l <-> first_index k l < List.length l.
Proof.
  clear toNumber csv.
  induction l as [|x l IH]; simpl; [split; [tauto|lia]|].
  destruct (String.eqb x k) eqn:E.
  - apply String.eqb_eq in E. split; [lia|now left].
  - apply String.eqb_neq in E. rewrite <- Nat.succ_lt_mono, <- IH. tauto.
Qed.

Lemma first_index_app_known k l l' :
  In k l -> first_index k (l ++ l') = first_index k l.
Proof.
  clear toNumber csv.
  induction l as [|x l IH]; simpl; [tauto|].
  intros H. destruct (String.eqb x k) eqn:E; [reflexivity|].
  apply String.eqb_neq in E. f_equal. apply IH. tauto.
Qed.

Lemma first_index_app_new k l l' :
  ~ In k l -> first_index k (l ++ l') = List.length l + first_index k l'.
Proof.
  clear toNumber csv.
  induction l as [|x l IH]; simpl; [reflexivity|].
  intros H. destruct (String.eqb x k) eqn:E.
  - apply String.eqb_eq in E. tauto.
  - f_equal. apply IH. tauto.
Qed.

Lemma occurrences_app k l l' :
  occurrences k (l ++ l') = occurrences k l + occurrences k l'.
Proof. unfold occurrences. now rewrite filter_app, length_app. Qed.

Lemma occurrences_0 k l : occurrences k l = 0 <-> ~ In k l.
Proof.
  clear toNumber csv.
  unfold occurrences. induction l as [|x l IH]; simpl; [tauto|].
  destruct (String.eqb x k) eqn:E; simpl.
  - apply String.eqb_eq in E. split; [lia|tauto].
  - apply String.eqb_neq in E. tauto.
Qed.

Lemma StronglySorted_snoc {A : Type} (R : A -> A -> Prop) l x :
  StronglySorted R l -> Forall (fun y => R y x) l ->
  StronglySorted R (l ++ [x]).
Proof.
  induction 1 as [|y l Hs IH Hy]; simpl; intros Hx.
  - repeat constructor.
  - inversion Hx; subst. constructor; [now apply IH|].
    apply Forall_app. split; [exact Hy|]. now repeat constructor.
Qed.

Lemma StronglySorted_impl_In {A : Type} (R R' : A -> A -> Prop) l :
  (forall a b, In a l -> In b l -> R a b -> R' a b) ->
  StronglySorted R l -> StronglySorted R' l.
Proof.
  intros H Hs. induction Hs as [|y l Hs IH Hy]; constructor.
  - apply IH. intros a b Ha Hb. apply H; now right.
  - rewrite Forall_forall in *. intros b Hb.
    apply H; [now left|now right|now apply Hy].
Qed.

Lemma d3_groups_ok {A : Type} (values : list A) (key : A -> string) :
  grouped_ok values key (d3_groups values key).
Proof.
  clear toNumber csv.
  induction values as [|x values IH] using rev_ind.
  - split; simpl; try tauto; constructor.
  - rewrite d3_groups_snoc. set (g := d3_groups values key) in *.
    destruct IH as [ND KS SZ OR TT].
    assert (Hkeys : map key (values ++ [x]) = map key values ++ [key x])
      by now rewrite map_app.
    set (keys := map key values) in *.
    destruct (in_dec string_dec (key x) (map fst g)) as [Hin|Hnew].
    + (* a key met before *)
      assert (Hk : map fst (group_add (key x) x g) = map fst g)
        by now apply group_add_known.
      assert (ND' : NoDup (map fst (group_add (key x) x g)))
        by now rewrite Hk.
      split; rewrite ?Hkeys.
      * exact ND'.
      * intros k. rewrite Hk, in_app_iff, KS. simpl.
        split; [tauto|]. intros [H|[<-|[]]]; [exact H|]. now apply KS.
      * intros k v Hv. apply In_lookup in Hv; [|exact ND'].
        rewrite lookup_group_add in Hv. rewrite occurrences_app.
        unfold occurrences at 2. simpl.
        destruct (String.eqb (key x) k) eqn:E.
        -- apply String.eqb_eq in E; subst k.
           destruct (lookup (key x) g) as [v0|] eqn:L.
           ++ injection Hv as <-. rewrite length_app. simpl.
              f_equal. apply SZ. now apply lookup_In.
           ++ apply lookup_None in L. tauto.
        -- simpl. rewrite Nat.add_0_r. apply SZ. now apply lookup_In.
      * rewrite Hk. eapply StronglySorted_impl_In; [|exact OR].
        intros a b Ha Hb. simpl.
        rewrite !first_index_app_known; auto; now apply KS.
      * rewrite length_app. simpl. rewrite <- TT.
        clear - Hin. induction g as [|[k0 v0] g IHg]; simpl in *; [tauto|].
        destruct (String.eqb k0 (key x)) eqn:E; simpl.
        -- rewrite length_app. simpl. lia.
        -- rewrite IHg; [lia|]. destruct Hin as [H|H]; [|exact H].
           subst k0. rewrite String.eqb_refl in E. discriminate.
    + (* a new key *)
      rewrite group_add_new by exact Hnew.
      assert (Hout : ~ In (key x) keys) by now rewrite <- KS.
      split; rewrite ?Hkeys, ?map_app; simpl.
      * apply NoDup_app; [exact ND|repeat constructor; tauto|].
        intros a Ha [<-|[]]. tauto.
      * intros k. rewrite !in_app_iff, KS. reflexivity.
      * intros k v Hv. rewrite occurrences_app. unfold occurrences at 2.
        simpl. apply in_app_iff in Hv. destruct Hv as [Hv|[Hv|[]]].
        -- assert (Hk : In k keys)
             by (apply KS; change k with (fst (k, v)); now apply in_map).
           destruct (String.eqb (key x) k) eqn:E.
           ++ apply String.eqb_eq in E. subst k. tauto.
           ++ simpl. rewrite Nat.add_0_r. now apply SZ.
        -- injection Hv as <- <-. rewrite String.eqb_refl. simpl.
           apply occurrences_0 in Hout. now rewrite Hout.
      * apply StronglySorted_snoc.
        -- eapply StronglySorted_impl_In; [|exact OR].
           intros a b Ha Hb. simpl.
           rewrite !first_index_app_known; auto; now apply KS.
        -- rewrite Forall_forall. intros k Hk. apply KS in Hk.
           rewrite first_index_app_known by exact Hk.
           rewrite first_index_app_new by exact Hout.
           apply first_index_In in Hk. lia.
      * rewrite length_app, list_sum_app. simpl. lia.
Qed.

(* ================================================================== *)
(** ** The stable sort *)
(* ================================================================== *)

Lemma js_insert_perm {A : Type} (gt : A -> A -> bool) x l :
  Permutation (js_insert gt x l) (x :: l).
Proof.
  induction l as [|y l IH]; simpl; [reflexivity|].
  destruct (gt x y); [|reflexivity].
  rewrite IH. apply perm_swap.
Qed.

Lemma js_sort_perm {A : Type} (gt : A -> A -> bool) l :
  Permutation (js_sort gt l) l.
Proof.
  induction l as [|x l IH]; simpl; [reflexivity|].
  rewrite js_insert_perm. now constructor.
Qed.

Lemma js_sort_In {A : Type} (gt : A -> A -> bool) l x :
  In x (js_sort gt l) <-> In x l.
Proof.
  split; apply Permutation_in;
    [apply js_sort_perm | symmetry; apply js_sort_perm].
Qed.

Section Descending.

Context {A : Type} (size : A -> nat) (before : A -> A -> Prop).

Lemma js_insert_desc x l :
  StronglySorted (desc_then size before) l -> Forall (before x) l ->
  StronglySorted (desc_then size before)
    (js_insert (fun a b => descending_gt (size a) (size b)) x l).
Proof.
  induction 1 as [|y l Hs IH Hy]; simpl; intros Hx.
  - repeat constructor.
  - inversion Hx as [|? ? Hxy Hxl]; subst.
    unfold descending_gt at 1. destruct (Nat.ltb_spec (size x) (size y)).
    + constructor; [now apply IH|].
      eapply Permutation_Forall; [symmetry; apply js_insert_perm|].
      constructor; [left; exact H|exact Hy].
    + constructor; [now constructor|].
      constructor.
      * unfold desc_then. destruct (Nat.eq_dec (size x) (size y)); [|lia].
        now right.
      * rewrite Forall_forall in *. intros z Hz.
        specialize (Hy z Hz). specialize (Hxl z Hz).
        unfold desc_then in *.
        destruct (Nat.eq_dec (size x) (size z)); [now right|left; lia].
Qed.

(** A list that is in [before] order comes out of the sort by
    descending [size] with ties still in [before] order. *)
Lemma js_sort_desc l :
  StronglySorted before l ->
  StronglySorted (desc_then size before)
    (js_sort (fun a b => descending_gt (size a) (size b)) l).
Proof.
  induction 1 as [|x l Hs IH Hx]; simpl; [constructor|].
  apply js_insert_desc; [exact IH|].
  eapply Permutation_Forall; [symmetry; apply js_sort_perm|exact Hx].
Qed.

End Descending.

Lemma StronglySorted_map {A B : Type} (f : A -> B) (R : B -> B -> Prop) l :
  StronglySorted R (map f l) <->
  StronglySorted (fun a b => R (f a) (f b)) l.
Proof.
  induction l as [|x l IH]; simpl.
  - split; constructor.
  - split; intros H; inversion H; subst; constructor;
      try (now apply IH); rewrite Forall_forall in *.
    + intros b Hb. match goal with H : _ |- _ => apply H end. now apply in_map.
    + intros b Hb. apply in_map_iff in Hb. destruct Hb as (a & <- & Ha). auto.
Qed.

Lemma list_sum_perm l l' : Permutation l l' -> list_sum l = list_sum l'.
Proof. induction 1; simpl; lia. Qed.

(* ================================================================== *)
(** ** The bar datasets *)
(* ================================================================== *)

Lemma FEAR_SET_has_In s : FEAR_SET_has s = true <-> In s FEAR_CATEGORY_NAMES.
Proof.
  unfold FEAR_SET_has. rewrite existsb_exists. split.
  - intros (x & Hx & E). apply String.eqb_eq in E. now subst.
  - intros H. exists s. split; [exact H|apply String.eqb_refl].
Qed.

Lemma filtered_keys fearRows k :
  In k (map fearKey (filtered fearRows)) <->
  In k FEAR_CATEGORY_NAMES /\ In k (map fearKey fearRows).
Proof.
  unfold filtered. rewrite !in_map_iff. split.
  - intros (d & <- & Hd). apply filter_In in Hd. destruct Hd as [Hd Hp].
    split; [now apply FEAR_SET_has_In|]. now exists d.
  - intros (Hk & d & <- & Hd). exists d. split; [reflexivity|].
    apply filter_In. split; [exact Hd|]. now apply FEAR_SET_has_In.
Qed.

Lemma filtered_occurrences fearRows k :
  In k FEAR_CATEGORY_NAMES ->
  occurrences k (map fearKey (filtered fearRows))
  = occurrences k (map fearKey fearRows).
Proof.
  intros Hk. unfold occurrences, filtered.
  induction fearRows as [|d rows IH]; simpl; [reflexivity|].
  destruct (FEAR_SET_has (fearKey d)) eqn:P; simpl.
  - destruct (String.eqb (fearKey d) k); simpl; now rewrite IH.
  - destruct (String.eqb (fearKey d) k) eqn:E; [|exact IH].
    apply String.eqb_eq in E. apply FEAR_SET_has_In in Hk.
    rewrite E in P. congruence.
Qed.

(** Dropping rows does not change which of two kept labels is met first. *)
Lemma filtered_first_index fearRows k1 k2 :
  In k1 FEAR_CATEGORY_NAMES -> In k2 FEAR_CATEGORY_NAMES ->
  first_index k1 (map fearKey (filtered fearRows))
    < first_index k2 (map fearKey (filtered fearRows)) <->
  first_index k1 (map fearKey fearRows)
    < first_index k2 (map fearKey fearRows).
Proof.
  intros H1 H2. apply FEAR_SET_has_In in H1, H2. unfold filtered.
  induction fearRows as [|d rows IH]; simpl; [reflexivity|].
  destruct (FEAR_SET_has (fearKey d)) eqn:P; simpl.
  - destruct (String.eqb (fearKey d) k1), (String.eqb (fearKey d) k2);
      try reflexivity; split; lia.
  - destruct (String.eqb (fearKey d) k1) eqn:E1.
    { apply String.eqb_eq in E1. rewrite E1 in P. congruence. }
    destruct (String.eqb (fearKey d) k2) eqn:E2.
    { apply String.eqb_eq in E2. rewrite E2 in P. congruence. }
    rewrite <- !Nat.succ_lt_mono. exact IH.
Qed.

Lemma fearCounts_unfold fearRows :
  fearCounts fearRows =
  js_sort (fun a b => descending_gt (count a) (count b))
    (map fear_entry (d3_groups (filtered fearRows) fearKey)).
Proof.
  unfold fearCounts, d3_rollups. now rewrite map_map.
Qed.

Lemma fearCounts_perm fearRows :
  Permutation (fearCounts fearRows)
    (map fear_entry (d3_groups (filtered fearRows) fearKey)).
Proof. rewrite fearCounts_unfold. apply js_sort_perm. Qed.

Lemma fearCounts_labels fearRows :
  Permutation (map fear (fearCounts fearRows))
    (map fst (d3_groups (filtered fearRows) fearKey)).
Proof.
  rewrite (Permutation_map fear (fearCounts_perm fearRows)).
  rewrite map_map. reflexivity.
Qed.

(** C6.  For every list of fear-labelled rows, the [counts] of
    [drawFearBars] hold exactly the canonical labels that occur among the
    trimmed labels of the rows (blank and foreign labels are dropped), each
    once, each with the number of rows that carry it, and are in
    descending order of count, equal counts in the order in which their
    labels are first met in the rows. *)
Theorem fearCounts_sorted_stable (fearRows : list FearRow) :
  (forall l, In l (map fear (fearCounts fearRows)) <->
             In l FEAR_CATEGORY_NAMES /\ In l (map fearKey fearRows))
  /\ NoDup (map fear (fearCounts fearRows))
  /\ (forall e, In e (fearCounts fearRows) ->
                count e = occurrences (fear e) (map fearKey fearRows))
  /\ StronglySorted (bar_order (map fearKey fearRows)) (fearCounts fearRows).
Proof.
  pose proof (d3_groups_ok (filtered fearRows) fearKey) as [ND KS SZ OR _].
  set (g := d3_groups (filtered fearRows) fearKey) in *.
  assert (Hcanon : forall e, In e (fearCounts fearRows) ->
                             In (fear e) FEAR_CATEGORY_NAMES).
  { intros e He. apply (in_map fear) in He.
    apply (Permutation_in _ (fearCounts_labels fearRows)) in He.
    apply KS, filtered_keys in He. tauto. }
  split; [|split; [|split]].
  - intros l. split.
    + intros Hl. apply (Permutation_in _ (fearCounts_labels fearRows)) in Hl.
      apply KS, filtered_keys in Hl. exact Hl.
    + intros Hl.
      apply (Permutation_in _ (Permutation_sym (fearCounts_labels fearRows))).
      apply KS, filtered_keys. exact Hl.
  - eapply Permutation_NoDup;
      [apply Permutation_sym, fearCounts_labels|exact ND].
  - intros e He. pose proof (Hcanon e He) as Hc.
    apply (Permutation_in _ (fearCounts_perm fearRows)) in He.
    apply in_map_iff in He. destruct He as ([k v] & <- & Hkv). simpl in *.
    rewrite (SZ k v Hkv). now apply filtered_occurrences.
  - eapply StronglySorted_impl_In with
      (R := desc_then count
              (fun a b => first_index (fear a) (map fearKey (filtered fearRows))
                          < first_index (fear b) (map fearKey (filtered fearRows)))).
    + intros a b Ha Hb [H|[H1 H2]]; [now left|right].
      split; [exact H1|].
      apply filtered_first_index; auto.
    + rewrite fearCounts_unfold. apply js_sort_desc.
      apply StronglySorted_map. simpl.
      apply (StronglySorted_map fst
               (fun a b => first_index a (map fearKey (filtered fearRows))
                           < first_index b (map fearKey (filtered fearRows)))).
      exact OR.
Qed.

Lemma FEAR_GROUP_MAP_total l :
  In l FEAR_CATEGORY_NAMES ->
  exists g, FEAR_GROUP_MAP_get l = Some g /\ In g supergroups.
Proof.
  intros H. simpl in H.
  repeat (destruct H as [<-|H];
          [eexists; split; [vm_compute; reflexivity|simpl; tauto]|]).
  destruct H.
Qed.

Lemma groupKey_mapped d :
  FEAR_SET_has (fearKey d) = true -> In (groupKey d) supergroups.
Proof.
  intros H. apply FEAR_SET_has_In, FEAR_GROUP_MAP_total in H.
  destruct H as (g & Hg & Hin). unfold groupKey. rewrite Hg.
  simpl in Hin.
  repeat (destruct Hin as [<-|Hin]; [simpl; tauto|]). destruct Hin.
Qed.

Lemma filter_all {A : Type} (p : A -> bool) l :
  (forall x, In x l -> p x = true) -> filter p l = l.
Proof.
  induction l as [|x l IH]; simpl; intros H; [reflexivity|].
  rewrite (H x) by now left. f_equal. apply IH. intros y Hy. apply H. now right.
Qed.

Lemma groupedCounts_unfold fearRows :
  groupedCounts fearRows =
  js_sort (fun a b => descending_gt (group_count a) (group_count b))
    (map group_entry (d3_groups (filtered fearRows) groupKey)).
Proof.
  unfold groupedCounts, d3_rollups. rewrite filter_all.
  - now rewrite map_map.
  - intros [k n] Hk. simpl. apply in_map_iff in Hk.
    destruct Hk as ([k' v] & [= <- <-] & Hkv). simpl.
    pose proof (d3_groups_ok (filtered fearRows) groupKey) as [_ KS _ _ _].
    assert (Hin : In k' (map groupKey (filtered fearRows))).
    { apply KS. change k' with (fst (k', v)). now apply in_map. }
    apply in_map_iff in Hin. destruct Hin as (d & <- & Hd).
    apply filter_In in Hd. destruct Hd as [_ Hd].
    apply groupKey_mapped in Hd. simpl in Hd.
    repeat (destruct Hd as [<-|Hd]; [reflexivity|]). destruct Hd.
Qed.

(** C8.  For every list of fear-labelled rows, the counts of the grouped
    bars add up to the counts of the ungrouped bars, both being the number
    of rows with a canonical label; every canonical label has one
    supergroup in [FEAR_GROUP_MAP], so the grouping drops none of them. *)
Theorem grouped_total_conserved (fearRows : list FearRow) :
  list_sum (map group_count (groupedCounts fearRows))
    = list_sum (map count (fearCounts fearRows))
  /\ list_sum (map count (fearCounts fearRows))
    = List.length (filtered fearRows)
  /\ (forall l, In l FEAR_CATEGORY_NAMES ->
                exists g, FEAR_GROUP_MAP_get l = Some g /\ In g supergroups)
  /\ (forall e, In e (groupedCounts fearRows) -> In (group e) supergroups).
Proof.
  assert (Hf : list_sum (map count (fearCounts fearRows))
               = List.length (filtered fearRows)).
  { rewrite (list_sum_perm _ _
               (Permutation_map count (fearCounts_perm fearRows))).
    rewrite map_map.
    now destruct (d3_groups_ok (filtered fearRows) fearKey). }
  assert (Hg : list_sum (map group_count (groupedCounts fearRows))
               = List.length (filtered fearRows)).
  { rewrite groupedCounts_unfold.
    rewrite (list_sum_perm _ _ (Permutation_map group_count (js_sort_perm _ _))).
    rewrite map_map.
    now destruct (d3_groups_ok (filtered fearRows) groupKey). }
  split; [congruence|]. split; [exact Hf|]. split.
  - exact FEAR_GROUP_MAP_total.
  - intros e He. rewrite groupedCounts_unfold in He.
    apply js_sort_In, in_map_iff in He. destruct He as ([k v] & <- & Hkv).
    simpl.
    pose proof (d3_groups_ok (filtered fearRows) groupKey) as [_ KS _ _ _].
    assert (Hin : In k (map groupKey (filtered fearRows))).
    { apply KS. change k with (fst (k, v)). now apply in_map. }
    apply in_map_iff in Hin. destruct Hin as (d & <- & Hd).
    apply filter_In in Hd. now apply groupKey_mapped.
Qed.

(** The scenario of the spec: counts A:12, B:12, C:9 with A met before B
    come out as A, B, C. *)
Example fearCounts_tie_order :
  let A := fear_row "Contagion & Mutation" in
  let B := fear_row " Grief & Familial Trauma " in
  let C := fear_row "Possession & Loss of Agency" in
  map (fun e => (fear e, count e))
    (fearCounts (C :: A :: B :: repeat B 11 ++ repeat C 8 ++ repeat A 11))
  = [ ("Contagion & Mutation", 12); ("Grief & Familial Trauma", 12);
      ("Possession & Loss of Agency", 9) ].
Proof. vm_compute. reflexivity. Qed.

(* ================================================================== *)
(** ** The genre aggregates *)
(* ================================================================== *)

Lemma genreData_In d :
  In d genreData ->
  5 <= genre_count d /\ genre_count d = membership (genre d).
Proof.
  unfold genreData. rewrite filter_In, in_map_iff.
  intros [([k [[n a] v]] & <- & Hk) Hc]. simpl in *.
  split; [now apply Nat.leb_le|].
  unfold rolled, d3_rollups in Hk. apply in_map_iff in Hk.
  destruct Hk as ([k' rows] & [= <- <- <- <-] & Hin). simpl.
  now destruct (d3_groups_ok exploded row_genre) as [_ _ SZ _ _]; apply SZ.
Qed.

Lemma slice0_In {A : Type} n (l : list A) x : In x (slice0 n l) -> In x l.
Proof.
  unfold slice0. intros H. rewrite <- (firstn_skipn n l).
  apply in_or_app. now left.
Qed.

Lemma top10_In d : In d top10 -> In d genreData.
Proof. unfold top10. intros H. apply slice0_In in H. now apply js_sort_In in H. Qed.

Lemma drawScatter_bubbles st :
  bubbles (svg (drawScatter st)) = map new_bubble genreData.
Proof. reflexivity. Qed.

Lemma drawScatter_labels st :
  labels (svg (drawScatter st)) = map new_label top10.
Proof. reflexivity. Qed.

(* ================================================================== *)
(** ** The radius scale *)
(* ================================================================== *)

Lemma scaleSqrt_radius (m v : R) :
  (0 < m)%R ->
  scaleSqrt 0 m 5 50 v = (5 + 45 * (sqrt v / sqrt m))%R.
Proof.
  intros Hm. unfold scaleSqrt. rewrite sqrt_0, !Rminus_0_r.
  pose proof (sqrt_lt_R0 m Hm) as Hs.
  destruct (Req_dec_T (sqrt m) 0) as [E|_]; [lra|]. lra.
Qed.

Lemma fold_max_ge (l : list nat) (a x : nat) :
  x <= a \/ In x l -> x <= fold_left Nat.max l a.
Proof.
  revert a. induction l as [|y l IH]; simpl; intros a H.
  - destruct H as [H|[]]. exact H.
  - apply IH. destruct H as [H|[<-|H]]; [left|left|right]; try lia. exact H.
Qed.

Lemma d3_max_ge (l : list nat) (x : nat) :
  In x l -> exists m, d3_max l = Some m /\ x <= m.
Proof.
  destruct l as [|y l]; simpl; [tauto|]. intros H.
  eexists. split; [reflexivity|]. apply fold_max_ge.
  destruct H as [<-|H]; [left; lia|now right].
Qed.

(* ================================================================== *)
(** ** The router *)
(* ================================================================== *)

(** Name the fields of a state. *)
Ltac break_state st :=
  let m := fresh "m" in let fr := fresh "fr" in let qa := fresh "qa" in
  let hf := fresh "hf" in let ar := fresh "ar" in let ac := fresh "ac" in
  let br := fresh "br" in let ti := fresh "ti" in let su := fresh "su" in
  let nh := fresh "nh" in let mb := fresh "mb" in let tt := fresh "tt" in
  let bu := fresh "bu" in let la := fresh "la" in let ba := fresh "ba" in
  let ax := fresh "ax" in let le := fresh "le" in let co := fresh "co" in
  let ao := fresh "ao" in let lo := fresh "lo" in let hc := fresh "hc" in
  let pe := fresh "pe" in let fe := fresh "fe" in let ca := fresh "ca" in
  destruct st as [[m fr qa hf ar ac br] [ti su nh mb tt]
                  [bu la ba ax le co ao lo hc] [pe fe ca]].

Lemma mean_cases (P : option Q -> Prop) :
  (forall q, P (Some q)) -> P None -> forall o, P o.
Proof. intros H1 H2 [q|]; auto. Qed.

(** Decide whether there is a mean rating, where the program asks for
    it; the calls are left as they stand, none is copied. *)
Ltac split_mean :=
  cbv delta [go addQuadrantsIfNeeded onIntersection setActiveByCenter step
             run run_settled all_settled go_all baseline_drawn bars_drawn];
  try (lazymatch goal with |- context [meanRating] => idtac end;
       pattern meanRating;
       lazymatch goal with
       | |- ?P meanRating =>
           refine (mean_cases P _ _ meanRating); [intros ?|]
       end).

(** Run the program on a state whose fields are named, leaving the data
    and the list functions folded. *)
Ltac evaluate :=
  split_mean;
  lazy -[genreData top10 fearCounts groupedCounts meanRating meanViews
         shouldDim notHorror toLowerCase
         map filter find existsb forallb update_all update_first mapi_from
         List.app rev firstn List.length Nat.sub new_calls
         is_quadrant is_axis_label is_class bar_group option_string_eqb
         Nat.leb incl dim_bubble dim_label restore_bubble restore_label
         hide_bubble hide_label zoom_bubble new_bubble new_label
         b_datum l_datum interrupt].

Lemma go_unrecognized (scene : string) (st : State) :
  ~ In scene recognized_scenes -> go scene st = returned st.
Proof.
  intros H. unfold go.
  repeat match goal with
         | |- context [String.eqb scene ?s] =>
             destruct (String.eqb_spec scene s) as [->|_];
             [exfalso; apply H; simpl; tauto|]
         end.
  reflexivity.
Qed.

(** C9.  A scene identifier that [go] has no branch for changes nothing:
    the state after the call is the state before it, variables, page,
    chart, pending work and the log of calls alike, just as for "noop". *)
Theorem unrecognized_scene_is_noop (scene : string) (st : State) :
  ~ In scene recognized_scenes ->
  go scene st = returned st /\ go scene st = go "noop" st.
Proof.
  intros H. rewrite (go_unrecognized scene st H). split; reflexivity.
Qed.

Lemma new_calls_app (st st' : State) (l : list Call) :
  calls (sched st') = l ++ calls (sched st) -> new_calls st st' = rev l.
Proof.
  intros E. unfold new_calls. rewrite E, length_app, Nat.add_sub.
  now rewrite firstn_app, Nat.sub_diag, firstn_all, app_nil_r.
Qed.

(** The part of the list [t] before its tail [cs]. *)
Ltac prefix_of t cs :=
  lazymatch t with
  | cs => constr:(@nil Call)
  | ?c :: ?t' => let p := prefix_of t' cs in constr:(c :: p)
  end.

(** Rewrite [new_calls st st'] to the calls that [st'] logged on top of
    the log of [st]. *)
Ltac read_new_calls :=
  match goal with
  | |- context [new_calls ?st ?st'] =>
      let t := eval cbn in (calls (sched st')) in
      let cs := eval cbn in (calls (sched st)) in
      let p := prefix_of t cs in
      rewrite (new_calls_app st st' p) by reflexivity
  end.

Lemma scatter_scene_starts (scene : string) (st : State) :
  In scene scatter_scenes ->
  exists rest,
    new_calls st (go scene st)
    = call_hideMethodologyBtn :: call_restoreFromHorrorZoom :: rest.
Proof.
  intros H. simpl in H. break_state st.
  repeat (destruct H as [<-|H];
          [destruct m, qa, hf, mb; evaluate; read_new_calls;
           eexists; reflexivity|]).
  destruct H.
Qed.

Ltac show_quiet :=
  match goal with
  | |- exists l, ?t = l ++ ?cs /\ _ =>
      let p := prefix_of t cs in
      exists p; split; [reflexivity|simpl; intuition discriminate]
  end.

Lemma quiet_compose f g : quiet f -> quiet g -> quiet (fun st => g (f st)).
Proof.
  intros Hf Hg st. destruct (Hf st) as (l & E & H).
  destruct (Hg (f st)) as (l' & E' & H').
  exists (l' ++ l). rewrite E', E, app_assoc. split; [reflexivity|].
  rewrite in_app_iff. tauto.
Qed.

Lemma quiet_run_task t : quiet (run_task t).
Proof.
  clear toNumber.
  intros st. break_state st.
  destruct t as [[name|]|url [|]|name]; simpl run_task;
    unfold focusBarsBySupergroup;
    try destruct (is_none_name (Some name));
    destruct fr, m; evaluate; show_quiet.
Qed.

Lemma quiet_fire i : quiet (fire i).
Proof.
  intros st. unfold fire. destruct (nth_error (pending (sched st)) i) as [t|].
  - apply (quiet_run_task t (set_pending _ st)).
  - exists []. simpl. tauto.
Qed.

Lemma quiet_fires order : quiet (fires order).
Proof.
  induction order as [|i order IH]; intros st.
  - exists []. simpl. tauto.
  - apply (quiet_compose (fire i) (fires order) (quiet_fire i) IH).
Qed.

Lemma quiet_go scene :
  In scene ("horror-zoom" :: bars_scenes) ->
  quiet (fun st => state_of (go scene st)).
Proof.
  clear csv.
  intros H st. simpl in H. break_state st.
  destruct H as [<-|H].
  { destruct m, qa, mb; evaluate;
      try (match goal with
           | |- context [find ?f genreData] => destruct (find f genreData)
           end);
      show_quiet. }
  repeat (destruct H as [<-|H];
          [destruct m, mb; evaluate; show_quiet|]).
  destruct H.
Qed.

(** C1, as the code has it.  Each of the five scatter scenes (baseline,
    quadrants, high-views, critical-darlings, horror) hides the
    methodology button and then calls [restoreFromHorrorZoom] before
    anything else; the zoom scene and the five bars scenes never call it,
    neither at once nor in the work they leave for later, in whatever
    order and however far that work is run. *)
Theorem restore_called_by_scatter_scenes_only :
  Forall (fun scene => forall st, exists rest,
            new_calls st (go scene st)
            = call_hideMethodologyBtn :: call_restoreFromHorrorZoom :: rest)
         scatter_scenes
  /\ Forall (fun scene => forall st order,
               ~ In call_restoreFromHorrorZoom
                    (new_calls st (fires order (go scene st))))
            ("horror-zoom" :: bars_scenes).
Proof.
  split; apply Forall_forall; intros scene Hs st.
  - now apply scatter_scene_starts.
  - intros order.
    destruct (quiet_compose (fun st => state_of (go scene st)) (fires order)
                (quiet_go scene Hs) (quiet_fires order) st)
      as (l & E & H).
    rewrite (new_calls_app _ _ l E), <- in_rev. exact H.
Qed.

(* ================================================================== *)
(** ** Deferred work runs to its end *)
(* ================================================================== *)

(** A task leaves behind less work than it was. *)
Lemma tasks_weight_app l l' :
  tasks_weight (l ++ l') = tasks_weight l + tasks_weight l'.
Proof. induction l as [|t l IH]; simpl; [reflexivity|]. rewrite IH. lia. Qed.

Lemma interrupt_weight l : tasks_weight (interrupt l) <= tasks_weight l.
Proof.
  induction l as [|t l IH]; simpl; [lia|].
  destruct t; simpl; lia.
Qed.

Lemma interrupt_app l l' : interrupt (l ++ l') = interrupt l ++ interrupt l'.
Proof.
  induction l as [|t l IH]; simpl; [reflexivity|].
  destruct t; simpl; now rewrite IH.
Qed.

Lemma run_task_pending t st :
  exists kept added,
    pending (sched (run_task t st)) = kept ++ added
    /\ tasks_weight kept <= tasks_weight (pending (sched st))
    /\ tasks_weight added < task_weight t
    /\ (bars_bound t = true ->
        is_bars (mode (vars (run_task t st))) = true
        \/ existsb bars_bound added = true)
    /\ (bars_bound t = false -> kept = pending (sched st))
    /\ (is_bars (mode (vars st)) = true ->
        is_bars (mode (vars (run_task t st))) = true)
    /\ overlay_flags (run_task t st) = overlay_flags st.
Proof.
  exists (match t with
          | task_crossfade_end _ =>
              interrupt (pending (sched st))
          | _ => pending (sched st)
          end).
  exists (match t with
          | task_crossfade_end focus =>
              match fearRows (vars st) with
              | None => [task_csv_loaded manualfix_csv false]
              | Some _ => []
              end ++ match focus with
                     | Some name => [task_timeout name]
                     | None => []
                     end
          | _ => []
          end).
  pose proof (interrupt_weight (pending (sched st))) as W.
  break_state st.
  destruct t as [[name|]|url [|]|name]; simpl run_task;
    unfold focusBarsBySupergroup;
    try destruct (is_none_name (Some name));
    destruct fr, m; cbn in *; rewrite ?interrupt_app; cbn;
    rewrite <- ?app_assoc, ?app_nil_r;
    repeat split; auto; try lia; try discriminate.
Qed.

Lemma remove_nth_weight (l : list Task) i t :
  nth_error l i = Some t ->
  tasks_weight l = task_weight t + tasks_weight (remove_nth i l).
Proof.
  revert i. induction l as [|x l IH]; intros [|i] H; simpl in *;
    try discriminate.
  - now injection H as ->.
  - rewrite (IH i H). lia.
Qed.

Lemma remove_nth_bars_bound (l : list Task) i t :
  nth_error l i = Some t ->
  existsb bars_bound l = bars_bound t || existsb bars_bound (remove_nth i l).
Proof.
  revert i. induction l as [|x l IH]; intros [|i] H; simpl in *;
    try discriminate.
  - now injection H as ->.
  - rewrite (IH i H). destruct (bars_bound x), (bars_bound t); reflexivity.
Qed.

Lemma fire_progress i t st :
  nth_error (pending (sched st)) i = Some t ->
  weight (fire i st) < weight st
  /\ (heading_to_bars st = true -> heading_to_bars (fire i st) = true)
  /\ overlay_flags (fire i st) = overlay_flags st.
Proof.
  intros E. unfold fire. rewrite E.
  set (rest := remove_nth i (pending (sched st))).
  destruct (run_task_pending t (set_pending rest st))
    as (kept & added & Hp & Hk & Hw & Hb & Hn & Hm & Hf).
  unfold weight, heading_to_bars. rewrite Hp.
  rewrite (remove_nth_weight _ _ _ E), (remove_nth_bars_bound _ _ _ E).
  fold rest.
  change (pending (sched (set_pending rest st))) with rest in *.
  change (mode (vars (set_pending rest st))) with (mode (vars st)) in *.
  change (overlay_flags (set_pending rest st)) with (overlay_flags st) in Hf.
  rewrite tasks_weight_app, existsb_app.
  split; [lia|]. split; [|exact Hf].
  destruct (is_bars (mode (vars st))); simpl.
  - intros _. now rewrite Hm.
  - destruct (bars_bound t); simpl.
    + intros _. destruct (Hb eq_refl) as [-> | ->]; [reflexivity|].
      now rewrite !orb_true_r.
    + intros H. rewrite (Hn eq_refl), H. now rewrite orb_true_r.
Qed.

Lemma fire_nothing i st :
  nth_error (pending (sched st)) i = None -> fire i st = st.
Proof. unfold fire. now intros ->. Qed.

(** In whatever order the pending work runs, and however far, the bars
    stay on their way and the overlay flags stay as they were. *)
Lemma fires_keeps order st :
  (heading_to_bars st = true -> heading_to_bars (fires order st) = true)
  /\ overlay_flags (fires order st) = overlay_flags st.
Proof.
  revert st. induction order as [|i order IH]; intros st; simpl.
  - split; [auto|reflexivity].
  - destruct (IH (fire i st)) as [H1 H2].
    destruct (nth_error (pending (sched st)) i) as [t|] eqn:E.
    + destruct (fire_progress i t st E) as (_ & Hh & Hf).
      split; [auto|congruence].
    + rewrite (fire_nothing i st E) in *. split; assumption.
Qed.

Lemma idle_is_bars st :
  heading_to_bars st = true -> pending (sched st) = [] ->
  mode (vars st) = mode_bars.
Proof.
  unfold heading_to_bars. intros H E. rewrite E in H. simpl in H.
  rewrite orb_false_r in H.
  destruct (mode (vars st)); simpl in H;
    [discriminate|discriminate|reflexivity].
Qed.

Lemma fires_idle order st :
  pending (sched st) = [] -> fires order st = st.
Proof.
  intros E. induction order as [|i order IH]; simpl; [reflexivity|].
  rewrite fire_nothing; [exact IH|]. rewrite E. now destruct i.
Qed.

(** The pending work can always be run to its end. *)
Lemma fires_completes st :
  exists order, pending (sched (fires order st)) = [].
Proof.
  remember (weight st) as n eqn:W.
  assert (Hw : weight st <= n) by lia. clear W.
  revert st Hw. induction n as [|n IH]; intros st Hw.
  - exists []. simpl. unfold weight in Hw.
    destruct (pending (sched st)) as [|t rest]; [reflexivity|].
    simpl in Hw. destruct t; simpl in Hw; lia.
  - destruct (pending (sched st)) as [|t rest] eqn:E.
    + exists []. exact E.
    + destruct (fire_progress 0 t st) as (Hlt & _); [now rewrite E|].
      destruct (IH (fire 0 st)) as (order & H); [lia|].
      exists (0 :: order). exact H.
Qed.

Lemma go_bars_scene scene st :
  In scene bars_scenes ->
  heading_to_bars (go scene st) = true
  /\ overlay_flags (go scene st) = overlay_flags st.
Proof.
  intros H. simpl in H. break_state st.
  repeat (destruct H as [<-|H];
          [destruct m, mb; evaluate; rewrite ?existsb_app; simpl;
           rewrite ?orb_true_r; split; reflexivity|]).
  destruct H.
Qed.

(** C3, as the code has it.  Entering a bars scene leaves
    [quadrantsAdded] and [isHorrorFocused] as they were before, whatever
    of the work the scene leaves behind has run and in whatever order:
    neither bar renderer, nor the router on its way to them, writes either
    flag.  That work can be run to its end, and [mode] is "bars" whenever
    it has been. *)
Theorem bars_scene_keeps_overlay_flags :
  Forall (fun scene => forall st,
            (forall order,
               let st' := fires order (go scene st) in
               quadrantsAdded (vars st') = quadrantsAdded (vars st)
               /\ isHorrorFocused (vars st') = isHorrorFocused (vars st)
               /\ (pending (sched st') = [] -> mode (vars st') = mode_bars))
            /\ exists order, pending (sched (fires order (go scene st))) = [])
         bars_scenes
  /\ (forall rows st,
        mode (vars (drawFearBars_body rows st)) = mode_bars
        /\ overlay_flags (drawFearBars_body rows st) = overlay_flags st)
  /\ (forall rows st,
        mode (vars (drawFearBarsGrouped_body rows st)) = mode_bars
        /\ overlay_flags (drawFearBarsGrouped_body rows st)
           = overlay_flags st).
Proof.
  split; [|split; intros rows st; repeat split; reflexivity].
  apply Forall_forall. intros scene Hs st.
  destruct (go_bars_scene scene st Hs) as [Hh Hf].
  split; [|apply fires_completes].
  intros order st'.
  destruct (fires_keeps order (go scene st)) as (Hm & Hf').
  specialize (Hm Hh). rewrite Hf in Hf'. fold st' in Hm, Hf'.
  unfold overlay_flags in Hf'. injection Hf' as Hq Hi.
  split; [assumption|]. split; [assumption|].
  now apply idle_is_bars.
Qed.

(* ================================================================== *)
(** ** Convergence of the router *)
(* ================================================================== *)

Lemma no_bubble_dimmed (f : GenreDatum -> bool) (l : list Bubble) :
  (forall d, f d = false) -> filter b_dimmed (map (dim_bubble f) l) = [].
Proof.
  intros H. induction l as [|b l IH]; simpl; [reflexivity|].
  now rewrite H.
Qed.

Lemma no_label_dimmed (f : GenreDatum -> bool) (l : list Label) :
  (forall d, f d = false) -> filter l_dimmed (map (dim_label f) l) = [].
Proof.
  intros H. induction l as [|b l IH]; simpl; [reflexivity|].
  now rewrite H.
Qed.

Lemma undimmed_view st f B L :
  (forall d, f d = false) ->
  bubbles (svg st) = map (dim_bubble f) B ->
  labels (svg st) = map (dim_label f) L ->
  bars (svg st) = [] ->
  dimmed_marks st = [].
Proof.
  intros Hf Hb Hl Hr. unfold dimmed_marks.
  rewrite Hb, Hl, Hr, no_bubble_dimmed, no_label_dimmed by exact Hf.
  reflexivity.
Qed.

Lemma fresh_view st B L :
  bubbles (svg st) = map new_bubble B ->
  labels (svg st) = map new_label L ->
  bars (svg st) = [] ->
  dimmed_marks st = [].
Proof.
  clear toNumber movies csv.
  intros Hb Hl Hr. unfold dimmed_marks. rewrite Hb, Hl, Hr.
  assert (E1 : filter b_dimmed (map new_bubble B) = []).
  { clear Hb. induction B; simpl; auto. }
  assert (E2 : filter l_dimmed (map new_label L) = []).
  { clear Hl. induction L; simpl; auto. }
  now rewrite E1, E2.
Qed.

Lemma shouldDim_none d : shouldDim "none" d = false.
Proof. reflexivity. Qed.

(** Run the program from a state that is given in full, leaving the
    data folded. *)
Ltac compute_run :=
  split_mean;
  lazy -[genreData top10 fearCounts groupedCounts meanRating meanViews
         shouldDim notHorror toLowerCase map filter].

(** A single pending task whose run leaves a single task, whose run
    leaves none: the work is done only when both have run. *)
Lemma fires_only_task order st t :
  pending (sched st) = [t] ->
  pending (sched (fires order st)) = [] ->
  exists order', fires order st = fires order' (fire 0 st)
                 /\ pending (sched (fires order' (fire 0 st))) = [].
Proof.
  intros E. induction order as [|i order IH]; intros H.
  - simpl in H. rewrite E in H. discriminate.
  - change (fires (i :: order) st) with (fires order (fire i st)) in *.
    destruct i as [|i].
    + exists order. split; [reflexivity|exact H].
    + assert (F : fire (S i) st = st).
      { apply fire_nothing. rewrite E. now destruct i. }
      rewrite F in *. now apply IH.
Qed.

Lemma fires_two_tasks order st t t' :
  pending (sched st) = [t] ->
  pending (sched (fire 0 st)) = [t'] ->
  pending (sched (fire 0 (fire 0 st))) = [] ->
  pending (sched (fires order st)) = [] ->
  fires order st = fire 0 (fire 0 st).
Proof.
  intros E E' E'' H.
  destruct (fires_only_task order st t E H) as (o1 & -> & H1).
  destruct (fires_only_task o1 (fire 0 st) t' E' H1) as (o2 & -> & H2).
  now apply fires_idle.
Qed.

(** From a chart that is not the scatter, the scene "baseline" draws
    the baseline view and leaves no work. *)
Lemma baseline_redraws st :
  is_scatter (mode (vars st)) = false ->
  shown (gAxis_opacity (svg st)) = true ->
  observe (go "baseline" st) = baseline_view
  /\ pending (sched (go "baseline" st)) = pending (sched st).
Proof.
  clear csv.
  intros Hm Ho.
  assert (Hd : dimmed_marks (go "baseline" st) = []).
  { break_state st. simpl in Hm, Ho.
    destruct m, qa, hf, mb; try discriminate; split_mean;
      solve [ eapply (undimmed_view _ (shouldDim "none"));
              [exact shouldDim_none|evaluate; reflexivity..]
            | eapply fresh_view; evaluate; reflexivity ]. }
  unfold observe. rewrite Hd.
  break_state st. simpl in Hm, Ho.
  destruct m, qa, hf, mb; try discriminate; split_mean;
    lazy -[genreData top10 meanRating meanViews shouldDim notHorror shown];
    rewrite ?Ho; split; reflexivity.
Qed.

Lemma baseline_alone (html : Page) order :
  fires order (go "baseline" (cold html)) = go "baseline" (cold html).
Proof.
  apply fires_idle.
  now rewrite (proj2 (baseline_redraws (cold html) eq_refl eq_refl)).
Qed.

Lemma horror_after_baseline (html : Page) order :
  fires order (go "horror" (go "baseline" (cold html)))
  = go "horror" (go "baseline" (cold html)).
Proof.
  apply fires_idle.
  destruct html as [ti su nh [mb|] tt]; split_mean; compute_run; reflexivity.
Qed.

Lemma bars_after_horror (html : Page) order :
  let st := go "bars" (go "horror" (go "baseline" (cold html))) in
  pending (sched (fires order st)) = [] ->
  fires order st = fire 0 (fire 0 st).
Proof.
  intros st.
  apply (fires_two_tasks order st (task_crossfade_end None)
           (task_csv_loaded manualfix_csv false));
    subst st; destruct html as [ti su nh [mb|] tt]; split_mean;
    compute_run; reflexivity.
Qed.

Lemma baseline_view_again (html : Page) order :
  observe
    (fires order
       (go "baseline"
          (fire 0 (fire 0 (go "bars" (go "horror"
                                        (go "baseline" (cold html))))))))
  = baseline_view.
Proof.
  set (st := fire 0 _).
  assert (H : is_scatter (mode (vars st)) = false
              /\ shown (gAxis_opacity (svg st)) = true
              /\ pending (sched st) = []).
  { subst st. destruct html as [ti su nh [mb|] tt]; split_mean;
      compute_run; repeat split; reflexivity. }
  destruct H as (Hm & Ho & Hp).
  destruct (baseline_redraws st Hm Ho) as [Hv Hq].
  rewrite fires_idle; [exact Hv|]. now rewrite Hq.
Qed.

(** C2.  From a cold start, whatever the page around the chart, the
    scenes baseline, horror, bars, baseline, each requested when the work
    of the one before is done, in whatever order that work has run, end in
    what a reader sees after baseline alone: the scatter, no mark dimmed,
    the quadrant guides visible and the title "The Hit Matrix". *)
Theorem router_convergence (html : Page)
    (four one : list (string * list nat)) :
  map fst four = ["baseline"; "horror"; "bars"; "baseline"] ->
  map fst one = ["baseline"] ->
  all_settled (cold html) four ->
  observe (run_settled (cold html) four)
  = observe (run_settled (cold html) one)
  /\ observe (run_settled (cold html) one)
     = {| seen_mode := mode_scatter; seen_dimmed := []; seen_guides := true;
          seen_title := "The Hit Matrix" |}.
Proof.
  intros H4 H1 Hs.
  destruct four as [|[s1 o1] [|[s2 o2] [|[s3 o3] [|[s4 o4] [|]]]]];
    try discriminate.
  destruct one as [|[s5 o5] [|]]; try discriminate.
  simpl in H4, H1.
  injection H4 as -> -> -> ->. injection H1 as ->.
  change (run_settled (cold html) [("baseline", o5)])
    with (fires o5 (go "baseline" (cold html))).
  change (run_settled (cold html)
            [("baseline", o1); ("horror", o2); ("bars", o3); ("baseline", o4)])
    with (fires o4 (go "baseline"
            (fires o3 (go "bars"
               (fires o2 (go "horror"
                  (fires o1 (go "baseline" (cold html))))))))).
  assert (Hb : pending (sched (fires o3 (go "bars"
                 (fires o2 (go "horror"
                    (fires o1 (go "baseline" (cold html)))))))) = [])
    by exact (proj1 (proj2 (proj2 Hs))).
  clear Hs. revert Hb.
  rewrite (baseline_alone html o5), (baseline_alone html o1),
    (horror_after_baseline html o2).
  intros Hb.
  rewrite (bars_after_horror html o3 Hb).
  rewrite (baseline_view_again html o4).
  rewrite (proj1 (baseline_redraws (cold html) eq_refl eq_refl)).
  split; reflexivity.
Qed.

(** A baseline scene that is requested after a bars scene, before the
    crossfade to the bars has ended, finds the chart that was there, and
    the bars are drawn over it when the crossfade and the download
    end. *)
Remark baseline_before_crossfade_end (st : State) :
  is_bars (mode (vars st)) = false ->
  fearRows (vars st) = None ->
  pending (sched st) = [] ->
  mode (vars (go "baseline" (go "bars" st))) = mode_scatter
  /\ mode (vars (fire 0 (fire 0 (go "baseline" (go "bars" st)))))
     = mode_bars.
Proof.
  intros Hm Hf Hp. break_state st. simpl in Hm, Hf, Hp. subst fr pe.
  destruct m, qa, hf, mb; try discriminate Hm; compute_run;
    split; reflexivity.
Qed.

(* ================================================================== *)
(** ** The cache of fear-label rows *)
(* ================================================================== *)

Lemma render_first (grouped : bool) (html : Page) :
  cached (csv (renderer_url grouped)) [renderer_url grouped]
    (render grouped (cold html))
  /\ bars (svg (render grouped (cold html)))
     = bars_of grouped (csv (renderer_url grouped)).
Proof.
  destruct html as [ti su nh mb tt], grouped;
    repeat split; compute_run; reflexivity.
Qed.

Lemma render_cached (grouped : bool) rows urls st :
  cached rows urls st ->
  cached rows urls (render grouped st)
  /\ bars (svg (render grouped st)) = bars_of grouped rows.
Proof.
  break_state st. intros (H1 & H2 & H3). simpl in H1, H2, H3. subst.
  destruct grouped; repeat split; compute_run; reflexivity.
Qed.

Lemma last_cons {A : Type} (l : list A) : forall x d,
  last (x :: l) d = last l x.
Proof.
  induction l as [|y l IH]; intros x d; [reflexivity|].
  change (last (x :: y :: l) d) with (last (y :: l) d).
  now rewrite !IH.
Qed.

Lemma render_all_cached rows urls later : forall first st,
  cached rows urls (render first st) ->
  bars (svg (render first st)) = bars_of first rows ->
  cached rows urls (render_all st (first :: later))
  /\ bars (svg (render_all st (first :: later)))
     = bars_of (last later first) rows.
Proof.
  induction later as [|g later IH]; intros first st Hc Hb.
  - simpl. split; assumption.
  - change (render_all st (first :: g :: later))
      with (render_all (render first st) (g :: later)).
    destruct (render_cached g rows urls _ Hc) as [Hc' Hb'].
    destruct (IH g (render first st) Hc' Hb') as [H1 H2].
    split; [exact H1|]. now rewrite H2, last_cons.
Qed.

(* ================================================================== *)
(** ** What holds throughout a page session *)
(* ================================================================== *)

Lemma map_same {A B : Type} (g : A -> B) (f : A -> A) (l : list A) :
  (forall x, g (f x) = g x) -> map g (map f l) = map g l.
Proof. intros H. rewrite map_map. apply map_ext. exact H. Qed.

Lemma map_update_all {A B : Type} (g : A -> B) (p : A -> bool) (f : A -> A)
    (l : list A) :
  (forall x, g (f x) = g x) -> map g (update_all p f l) = map g l.
Proof.
  intros H. unfold update_all. rewrite map_map. apply map_ext.
  intros x. destruct (p x); [apply H|reflexivity].
Qed.

Lemma datum_dim_bubble f l : map b_datum (map (dim_bubble f) l) = map b_datum l.
Proof. now apply map_same. Qed.

Lemma datum_restore_bubble l : map b_datum (map restore_bubble l) = map b_datum l.
Proof. now apply map_same. Qed.

Lemma datum_hide_bubble p l :
  map b_datum (update_all p hide_bubble l) = map b_datum l.
Proof. now apply map_update_all. Qed.

Lemma datum_zoom_bubble p l :
  map b_datum (update_all p zoom_bubble l) = map b_datum l.
Proof. now apply map_update_all. Qed.

Lemma datum_new_bubble l : map b_datum (map new_bubble l) = l.
Proof. rewrite map_map. simpl. apply map_id. Qed.

Lemma datum_dim_label f l : map l_datum (map (dim_label f) l) = map l_datum l.
Proof. now apply map_same. Qed.

Lemma datum_restore_label l : map l_datum (map restore_label l) = map l_datum l.
Proof. now apply map_same. Qed.

Lemma datum_hide_label l : map l_datum (map hide_label l) = map l_datum l.
Proof. now apply map_same. Qed.

Lemma datum_new_label l : map l_datum (map new_label l) = l.
Proof. rewrite map_map. simpl. apply map_id. Qed.

Create Rewrite HintDb marks.

#[local] Hint Rewrite datum_dim_bubble datum_restore_bubble datum_hide_bubble
  datum_zoom_bubble datum_new_bubble datum_dim_label datum_restore_label
  datum_hide_label datum_new_label : marks.

(** Decide whether [genreData] has a horror aggregate, where the program
    waits for it. *)
Ltac find_horror :=
  try (match goal with
       | |- context [find ?f genreData] => destruct (find f genreData)
       end; evaluate).

Ltac show_marks :=
  unfold marks_ok; evaluate; find_horror; autorewrite with marks;
  let Hb := fresh "Hb" in
  let Hl := fresh "Hl" in
  intros [Hb Hl];
  split; first [assumption | apply incl_refl | apply incl_nil_l].

Ltac each_scene H tac :=
  simpl in H; repeat (destruct H as [<-|H]; [tac|]); destruct H.

(** The router downloads nothing itself and keeps the marks sound. *)
Lemma go_effect scene st :
  fetched (sched (go scene st)) = fetched (sched st)
  /\ (marks_ok st -> marks_ok (go scene st)).
Proof.
  clear csv.
  destruct (in_dec string_dec scene recognized_scenes) as [H|H].
  - break_state st.
    each_scene H
      ltac:(destruct m, qa, hf, mb;
            (split; [evaluate; find_horror; reflexivity|show_marks])).
  - rewrite (go_unrecognized scene st H). tauto.
Qed.

(** The router leaves the variables of the scroll engine alone. *)
Lemma go_active scene st : active (vars (go scene st)) = active (vars st).
Proof.
  destruct (in_dec string_dec scene recognized_scenes) as [H|H].
  - break_state st.
    each_scene H
      ltac:(destruct m, qa, hf, mb; evaluate; find_horror; reflexivity).
  - now rewrite (go_unrecognized scene st H).
Qed.

Lemma run_task_effect t st :
  (fetched (sched (run_task t st)) = fetched (sched st)
   \/ fetched (sched (run_task t st)) = fetched (sched st) ++ [manualfix_csv])
  /\ (marks_ok st -> marks_ok (run_task t st)).
Proof.
  break_state st.
  destruct t as [[name|]|url [|]|name]; simpl run_task;
    unfold focusBarsBySupergroup;
    try destruct (is_none_name (Some name));
    destruct fr, m;
    (split; [evaluate; auto|show_marks]).
Qed.

Lemma fire_effect i st :
  (fetched (sched (fire i st)) = fetched (sched st)
   \/ fetched (sched (fire i st)) = fetched (sched st) ++ [manualfix_csv])
  /\ (marks_ok st -> marks_ok (fire i st)).
Proof.
  unfold fire. destruct (nth_error (pending (sched st)) i) as [t|].
  - apply (run_task_effect t (set_pending _ st)).
  - tauto.
Qed.

Lemma card_effect el i st :
  let st' := applyStepFX (applyStepSubtitle el (applyStepTitle el
               (set_active (Some i) st))) in
  fetched (sched st') = fetched (sched st) /\ svg st' = svg st.
Proof.
  break_state st. unfold applyStepFX, applyStepSubtitle, applyStepTitle.
  destruct (falsy (data_title el)), (falsy (data_subtitle el)), m;
    split; reflexivity.
Qed.

Lemma scroll_effect h steps st :
  fetched (sched (setActiveByCenter h steps st)) = fetched (sched st)
  /\ (marks_ok st -> marks_ok (setActiveByCenter h steps st)).
Proof.
  unfold setActiveByCenter.
  destruct (negb (armed (vars st))); [cbn [state_of]; tauto|].
  destruct (best h steps) as [[[i el] d]|]; [|cbn [state_of]; tauto].
  destruct (same_card (active (vars st)) i); [cbn [state_of]; tauto|].
  destruct (card_effect el i st) as [Hf Hs].
  destruct (go_effect (scene_of el)
              (applyStepFX (applyStepSubtitle el (applyStepTitle el
                 (set_active (Some i) st))))) as [Gf Gm].
  split; [congruence|].
  intros Hm. apply Gm. unfold marks_ok in *. now rewrite Hs.
Qed.

Lemma first_view_effect st :
  let st' := addQuadrantsIfNeeded (drawScatter
               (set_title "The Hit Matrix" (set_baselineRendered true st))) in
  fetched (sched st') = fetched (sched st) /\ marks_ok st'.
Proof.
  clear csv.
  break_state st. split; [evaluate; reflexivity|].
  unfold marks_ok. evaluate; autorewrite with marks;
    split; apply incl_refl.
Qed.

Lemma intersection_effect i ratio h steps st :
  fetched (sched (onIntersection i ratio h steps st)) = fetched (sched st)
  /\ (marks_ok st -> marks_ok (onIntersection i ratio h steps st)).
Proof.
  unfold onIntersection.
  set (o := if negb (baselineRendered (vars st)) && i then _
            else returned st).
  assert (H1 : fetched (sched o) = fetched (sched st)
               /\ (marks_ok st -> marks_ok o)).
  { subst o. destruct (negb (baselineRendered (vars st)) && i);
      [|cbn [state_of]; tauto].
    destruct (first_view_effect st) as [Hf Hm]. split; [exact Hf|auto]. }
  destruct H1 as [Hf Hm].
  destruct o as [st1|st1]; cbn [and_then state_of] in *; [|now split].
  set (st2 := set_armed _ st1).
  change (armed (vars st2)) with (i && Qle_bool (3 # 10) ratio).
  destruct (i && Qle_bool (3 # 10) ratio).
  - destruct (scroll_effect h steps st2) as [Sf Sm].
    split; [rewrite Sf; exact Hf|]. intros H. apply Sm, Hm, H.
  - cbn [state_of]. split; [exact Hf|]. intros H. apply Hm, H.
Qed.

Lemma step_effect e st :
  (fetched (sched (step st e)) = fetched (sched st)
   \/ fetched (sched (step st e)) = fetched (sched st) ++ [manualfix_csv])
  /\ (marks_ok st -> marks_ok (step st e)).
Proof.
  destruct e as [h steps|i ratio h steps|i]; simpl.
  - destruct (scroll_effect h steps st). auto.
  - destruct (intersection_effect i ratio h steps st). auto.
  - apply fire_effect.
Qed.

(** Throughout a page session the marks of the scatter stand for
    aggregates of [genreData], and the one fear-label file that is asked
    for is the manually corrected one. *)
Lemma session_invariant events : forall st,
  marks_ok st -> only_manualfix st ->
  marks_ok (run st events) /\ only_manualfix (run st events).
Proof.
  induction events as [|e events IH]; intros st Hm Hf; [now split|].
  apply IH.
  - now apply step_effect.
  - destruct (step_effect e st) as [[E|E] _]; unfold only_manualfix in *;
      rewrite E; [exact Hf|].
    apply Forall_app. split; [exact Hf|]. now repeat constructor.
Qed.

Lemma cold_invariant html : marks_ok (cold html) /\ only_manualfix (cold html).
Proof. split; [split; apply incl_nil_l|constructor]. Qed.


(** C7.  For every set of movie rows, a genre with fewer than five rows
    in [exploded] is not in [genreData] and not among the ten labelled
    aggregates; [drawScatter] draws neither a bubble nor a label for it;
    and at no point of a page session is there a bubble or a label for
    it on the chart. *)
Theorem rare_genre_excluded (g : string) :
  membership g < 5 ->
  ~ In g (map genre genreData)
  /\ ~ In g (map genre top10)
  /\ (forall st, ~ In g (bubble_genres (drawScatter st))
                 /\ ~ In g (label_genres (drawScatter st)))
  /\ (forall html events,
        ~ In g (bubble_genres (run (cold html) events))
        /\ ~ In g (label_genres (run (cold html) events))).
Proof.
  intros Hlt.
  assert (H1 : ~ In g (map genre genreData)).
  { intros H. apply in_map_iff in H. destruct H as (d & <- & Hd).
    apply genreData_In in Hd. lia. }
  assert (H2 : ~ In g (map genre top10)).
  { intros H. apply H1. apply in_map_iff in H. destruct H as (d & <- & Hd).
    apply in_map. now apply top10_In. }
  assert (H3 : forall st, marks_ok st ->
                 ~ In g (bubble_genres st) /\ ~ In g (label_genres st)).
  { intros st [Hb Hl]. unfold bubble_genres, label_genres.
    split; intros H; apply in_map_iff in H; destruct H as (x & <- & Hx).
    - apply H1, in_map, Hb. now apply in_map.
    - apply H2, in_map, Hl. now apply in_map. }
  split; [exact H1|]. split; [exact H2|]. split.
  - intros st. apply H3. unfold marks_ok.
    rewrite drawScatter_bubbles, drawScatter_labels.
    autorewrite with marks. split; apply incl_refl.
  - intros html events. apply H3.
    destruct (cold_invariant html) as [Hm Hf].
    now apply session_invariant.
Qed.

(** C10.  The two bar renderers share [fearRows].  From a cold start,
    whatever renderers are called one after the other, the only file that
    is fetched is the file of the first one, its rows stay in the cache,
    and the bars of the last call are drawn from them, also when the last
    renderer is not the first; and in a page session, where the router
    only ever calls [drawFearBars], no other file than the manually
    corrected one is asked for. *)
Theorem fear_rows_shared_cache (html : Page) (first : bool)
    (later : list bool) :
  fetched (sched (render_all (cold html) (first :: later)))
    = [renderer_url first]
  /\ fearRows (vars (render_all (cold html) (first :: later)))
    = Some (csv (renderer_url first))
  /\ bars (svg (render_all (cold html) (first :: later)))
    = bars_of (last later first) (csv (renderer_url first))
  /\ (forall events, only_manualfix (run (cold html) events)).
Proof.
  destruct (render_first first html) as [Hc Hb].
  destruct (render_all_cached _ _ later first (cold html) Hc Hb)
    as [(H1 & _ & H3) H4].
  split; [exact H3|]. split; [exact H1|]. split; [exact H4|].
  intros events. destruct (cold_invariant html) as [Hm Hf].
  now apply session_invariant.
Qed.

(** Two requests for the bars before the first download has ended ask
    for the same file twice. *)
Remark overlapping_requests_fetch_twice (html : Page) :
  fetched (sched (fire 1 (go "bars_body" (fire 0 (go "bars" (cold html))))))
  = [manualfix_csv; manualfix_csv].
Proof. destruct html as [ti su nh [mb|] tt]; compute_run; reflexivity. Qed.

(* ================================================================== *)
(** ** The active card *)
(* ================================================================== *)

Lemma Qlt_bool_true (a b : Q) : Qlt_bool a b = true <-> (a < b)%Q.
Proof.
  unfold Qlt_bool. rewrite negb_true_iff. split.
  - intros H. apply Qnot_le_lt. intros Hle.
    apply Qle_bool_iff in Hle. congruence.
  - intros H. destruct (Qle_bool b a) eqn:E; [|reflexivity].
    apply Qle_bool_iff in E. exfalso. now apply (Qlt_not_le a b).
Qed.

Lemma Qlt_bool_false (a b : Q) : Qlt_bool a b = false <-> (b <= a)%Q.
Proof.
  unfold Qlt_bool. rewrite negb_false_iff. apply Qle_bool_iff.
Qed.

Lemma nth_error_snoc {A : Type} (l : list A) (x y : A) (j : nat) :
  nth_error (l ++ [x]) j = Some y ->
  (j < List.length l /\ nth_error l j = Some y)
  \/ (j = List.length l /\ y = x).
Proof.
  intros H. destruct (Nat.lt_ge_cases j (List.length l)) as [Hlt|Hge].
  - left. split; [exact Hlt|]. now rewrite nth_error_app1 in H.
  - right. rewrite nth_error_app2 in H by exact Hge.
    destruct (j - List.length l) as [|k] eqn:E; simpl in H.
    + injection H as <-. split; [lia|reflexivity].
    + destruct k; discriminate.
Qed.

(** One more card keeps what the loop knows. *)
Lemma visit_scanned h seen acc el :
  scanned h seen acc ->
  scanned h (seen ++ [el]) (visit h acc (List.length seen) el).
Proof.
  intros Inv. unfold visit.
  destruct (in_viewport h (rect el)) eqn:V.
  - destruct acc as [[[i b] bd]|]; simpl in Inv.
    + destruct Inv as (-> & Hn & Hv & Hmin).
      assert (Hi : i < List.length seen)
        by (apply nth_error_Some; congruence).
      destruct (Qlt_bool (dist h (rect el)) (dist h (rect b))) eqn:L; simpl.
      * apply Qlt_bool_true in L. split; [reflexivity|].
        split; [|split; [exact V|]].
        { now rewrite nth_error_app2, Nat.sub_diag by lia. }
        intros j el' Hj Hv'. apply nth_error_snoc in Hj.
        destruct Hj as [[Hlt Hj]|[-> ->]].
        -- destruct (Hmin j el' Hj Hv') as [Hle _].
           assert (dist h (rect el) < dist h (rect el'))%Q
             by (eapply Qlt_le_trans; eassumption).
           split; [now apply Qlt_le_weak|auto].
        -- split; [apply Qle_refl|lia].
      * apply Qlt_bool_false in L. split; [reflexivity|].
        split; [|split; [exact Hv|]].
        { rewrite nth_error_app1 by exact Hi. exact Hn. }
        intros j el' Hj Hv'. apply nth_error_snoc in Hj.
        destruct Hj as [[Hlt Hj]|[-> ->]].
        -- now apply Hmin.
        -- split; [exact L|lia].
    + split; [reflexivity|]. split; [|split; [exact V|]].
      { now rewrite nth_error_app2, Nat.sub_diag by lia. }
      intros j el' Hj Hv'. apply nth_error_snoc in Hj.
      destruct Hj as [[Hlt Hj]|[-> ->]].
      * apply nth_error_In in Hj. rewrite (Inv el' Hj) in Hv'. discriminate.
      * split; [apply Qle_refl|lia].
  - destruct acc as [[[i b] bd]|]; simpl in *.
    + destruct Inv as (-> & Hn & Hv & Hmin).
      assert (Hi : i < List.length seen)
        by (apply nth_error_Some; congruence).
      split; [reflexivity|]. split; [|split; [exact Hv|]].
      { rewrite nth_error_app1 by exact Hi. exact Hn. }
      intros j el' Hj Hv'. apply nth_error_snoc in Hj.
      destruct Hj as [[Hlt Hj]|[-> ->]]; [now apply Hmin|congruence].
    + intros el' Hin. apply in_app_iff in Hin.
      destruct Hin as [Hin|[<-|[]]]; [now apply Inv|exact V].
Qed.

Lemma scan_scanned h steps : forall seen acc,
  scanned h seen acc ->
  scanned h (seen ++ steps) (scan h (List.length seen) steps acc).
Proof.
  induction steps as [|el steps IH]; intros seen acc Inv; simpl.
  - now rewrite app_nil_r.
  - replace (seen ++ el :: steps) with ((seen ++ [el]) ++ steps)
      by now rewrite <- app_assoc.
    replace (S (List.length seen)) with (List.length (seen ++ [el]))
      by (rewrite length_app; simpl; lia).
    apply IH. now apply visit_scanned.
Qed.

Lemma best_scanned h steps : scanned h steps (best h steps).
Proof. apply (scan_scanned h steps [] None). intros el []. Qed.

Lemma activate_active el i st :
  active (vars (go (scene_of el)
                  (applyStepFX (applyStepSubtitle el (applyStepTitle el
                     (set_active (Some i) st))))))
  = Some i.
Proof.
  rewrite go_active. break_state st.
  unfold applyStepFX, applyStepSubtitle, applyStepTitle.
  destruct (falsy (data_title el)), (falsy (data_subtitle el)), m;
    reflexivity.
Qed.

Lemma same_card_true a i : same_card a i = true -> a = Some i.
Proof.
  destruct a as [j|]; simpl; [|discriminate].
  intros H. apply Nat.eqb_eq in H. now subst.
Qed.

(** C5, as the code has it.  When the engine is armed and some card is
    in the viewport, [setActiveByCenter] leaves as the active card the
    one that is in the viewport with its centre nearest to the middle of
    the viewport, and of several at the same distance the first in
    document order, the distance being the one the code computes, with
    the centre, the middle and their difference each rounded to a double;
    cards wholly above or below the viewport are not considered, and
    when every card is, the handler returns and changes nothing. *)
Theorem active_card_is_nearest (innerHeight : Q) (steps : list Card)
    (st : State) :
  armed (vars st) = true ->
  ((exists el, In el steps /\ in_viewport innerHeight (rect el) = true) ->
   exists i el,
     active (vars (setActiveByCenter innerHeight steps st)) = Some i
     /\ nearest_card innerHeight steps i el)
  /\ ((forall el, In el steps -> in_viewport innerHeight (rect el) = false) ->
      setActiveByCenter innerHeight steps st = returned st).
Proof.
  intros Ha.
  pose proof (best_scanned innerHeight steps) as Hs.
  unfold setActiveByCenter. rewrite Ha. simpl negb. cbv iota.
  destruct (best innerHeight steps) as [[[i el] d]|]; simpl in Hs.
  - destruct Hs as [_ Hn]. split.
    + intros _. exists i, el. split; [|exact Hn].
      destruct (same_card (active (vars st)) i) eqn:E.
      * now apply same_card_true.
      * apply activate_active.
    + intros Hout. destruct Hn as (Hi & Hv & _).
      apply nth_error_In in Hi. rewrite (Hout el Hi) in Hv. discriminate Hv.
  - split; [|reflexivity].
    intros (el0 & Hin & Hv). rewrite (Hs el0 Hin) in Hv. discriminate.
Qed.

(* ================================================================== *)
(** ** The aggregation layer, further *)
(* ================================================================== *)

(** Each group of [d3.group] holds the values with its key, in the order
    of the input. *)
Lemma d3_groups_content {A : Type} (values : list A) (key : A -> string) k :
  lookup k (d3_groups values key)
  = match filter (fun x => String.eqb (key x) k) values with
    | [] => None
    | v => Some v
    end.
Proof.
  clear toNumber movies csv.
  induction values as [|x values IH] using rev_ind; [reflexivity|].
  rewrite d3_groups_snoc, lookup_group_add, filter_app. simpl.
  destruct (String.eqb (key x) k) eqn:E.
  - apply String.eqb_eq in E. subst k. rewrite IH.
    destruct (filter (fun y => String.eqb (key y) (key x)) values);
      reflexivity.
  - rewrite app_nil_r. exact IH.
Qed.

Lemma NoDup_map_filter {A B : Type} (f : A -> B) (p : A -> bool) l :
  NoDup (map f l) -> NoDup (map f (filter p l)).
Proof.
  clear toNumber movies csv.
  induction l as [|x l IH]; simpl; intros H; [constructor|].
  inversion H as [|? ? Hn Hd]; subst.
  destruct (p x); simpl; [|now apply IH].
  constructor; [|now apply IH].
  intros Hin. apply Hn. apply in_map_iff in Hin.
  destruct Hin as (y & E & Hy). apply filter_In in Hy.
  rewrite <- E. apply in_map. tauto.
Qed.

Lemma genreData_distinct : NoDup (map genre genreData).
Proof.
  pose proof (d3_groups_ok exploded row_genre) as [ND _ _ _ _].
  unfold genreData. apply NoDup_map_filter.
  unfold rolled, d3_rollups. rewrite !map_map. simpl. exact ND.
Qed.

(** X1: what an aggregate is.  The genres of [genreData] are distinct, and
    the aggregate of a genre counts the exploded rows of that genre, of
    which there are at least five, averages their ratings and sums their
    views. *)
Theorem genreData_aggregates :
  NoDup (map genre genreData)
  /\ Forall (fun d =>
               5 <= genre_count d
               /\ genre_count d = List.length (rows_of (genre d))
               /\ avg_imdb d = d3_mean (map rating (rows_of (genre d)))
               /\ total_views d = d3_sum (map views (rows_of (genre d))))
            genreData.
Proof.
  pose proof (d3_groups_ok exploded row_genre) as [ND _ _ _ _].
  split.
  - apply genreData_distinct.
  - apply Forall_forall. intros d Hd. unfold genreData in Hd.
    apply filter_In in Hd. destruct Hd as [Hd Hc].
    apply Nat.leb_le in Hc. split; [exact Hc|].
    unfold rolled, d3_rollups in Hd. rewrite map_map in Hd.
    apply in_map_iff in Hd. destruct Hd as ([k v] & <- & Hkv). simpl in *.
    apply In_lookup in Hkv; [|exact ND].
    rewrite d3_groups_content in Hkv. fold (rows_of k) in Hkv.
    destruct (rows_of k) eqn:E; [discriminate|].
    injection Hkv as <-. repeat split; reflexivity.
Qed.

Lemma append_empty_r (s : string) : (s ++ "")%string = s.
Proof.
  clear toNumber movies csv.
  induction s as [|c s IH]; simpl; [reflexivity|]. now rewrite IH.
Qed.

Lemma string_of_snoc (l : list ascii) c rest :
  (string_of_list_ascii (l ++ [c]) ++ rest
   = string_of_list_ascii l ++ String c rest)%string.
Proof.
  clear toNumber movies csv.
  induction l as [|a l IH]; simpl; [reflexivity|]. now rewrite IH.
Qed.

Lemma split_comma_space_nonempty s : forall cur,
  split_comma_space cur s <> [].
Proof.
  clear toNumber movies csv.
  induction s as [|c s IH]; intros cur; simpl; [discriminate|].
  destruct s as [|c2 s2]; [apply IH|].
  destruct (Ascii.eqb c "," && Ascii.eqb c2 " ")%bool;
    [discriminate|apply IH].
Qed.

Lemma concat_cons (sep x : string) (xs : list string) :
  xs <> [] -> String.concat sep (x :: xs)
              = (x ++ sep ++ String.concat sep xs)%string.
Proof. clear toNumber movies csv. destruct xs; [tauto|reflexivity]. Qed.

Lemma split_comma_space_step c c2 s2 cur :
  split_comma_space cur (String c (String c2 s2))
  = if (Ascii.eqb c "," && Ascii.eqb c2 " ")%bool
    then string_of_list_ascii (rev cur) :: split_comma_space [] s2
    else split_comma_space (c :: cur) (String c2 s2).
Proof. reflexivity. Qed.

(** Joining the pieces of [split_comma_space] with ", " gives the string
    back. *)
Lemma split_comma_space_join n : forall s cur,
  String.length s <= n ->
  String.concat ", " (split_comma_space cur s)
  = (string_of_list_ascii (rev cur) ++ s)%string.
Proof.
  clear toNumber movies csv.
  induction n as [|n IH]; intros s cur Hn.
  - destruct s; [|simpl in Hn; lia]. simpl. now rewrite append_empty_r.
  - destruct s as [|c [|c2 s2]].
    + simpl. now rewrite append_empty_r.
    + simpl. rewrite <- string_of_snoc. now rewrite append_empty_r.
    + simpl in Hn. rewrite split_comma_space_step.
      destruct (Ascii.eqb c "," && Ascii.eqb c2 " ")%bool eqn:E.
      * apply andb_true_iff in E. destruct E as [E1 E2].
        apply Ascii.eqb_eq in E1, E2. subst c c2.
        rewrite concat_cons by apply split_comma_space_nonempty.
        rewrite (IH s2 []) by lia. reflexivity.
      * rewrite (IH (String c2 s2) (c :: cur)) by (simpl; lia).
        simpl rev. now rewrite string_of_snoc.
Qed.

Lemma last_comma_snoc l c : last_comma (l ++ [c]) = Ascii.eqb c ",".
Proof.
  clear toNumber movies csv.
  induction l as [|x l IH]; [reflexivity|].
  simpl. destruct (l ++ [c]) eqn:E; [now destruct l|exact IH].
Qed.

Lemma has_separator_snoc l c :
  has_separator (l ++ [c])
  = has_separator l || (last_comma l && Ascii.eqb c " ").
Proof.
  clear toNumber movies csv.
  induction l as [|x l IH]; [reflexivity|].
  destruct l as [|y l].
  - simpl. now rewrite orb_false_r.
  - change (has_separator ((x :: y :: l) ++ [c]))
      with ((Ascii.eqb x "," && Ascii.eqb y " ")
            || has_separator ((y :: l) ++ [c])).
    rewrite IH.
    change (has_separator (x :: y :: l))
      with ((Ascii.eqb x "," && Ascii.eqb y " ") || has_separator (y :: l)).
    change (last_comma (x :: y :: l)) with (last_comma (y :: l)).
    now rewrite orb_assoc.
Qed.

(** No piece of [split_comma_space] holds a separator. *)
Lemma split_comma_space_pieces n : forall s cur,
  String.length s <= n ->
  has_separator (rev cur) = false ->
  (last_comma (rev cur) = true -> forall rest, s <> String " " rest) ->
  Forall no_separator (split_comma_space cur s).
Proof.
  clear toNumber movies csv.
  assert (Hpush : forall c cur,
            has_separator (rev cur) = false ->
            (last_comma (rev cur) = true -> c <> " "%char) ->
            has_separator (rev (c :: cur)) = false).
  { intros c cur H1 H2. simpl rev. rewrite has_separator_snoc, H1. simpl.
    destruct (last_comma (rev cur)); [|reflexivity].
    simpl. apply Ascii.eqb_neq. now apply H2. }
  assert (Hone : forall cur, has_separator (rev cur) = false ->
                   no_separator (string_of_list_ascii (rev cur))).
  { intros cur H. unfold no_separator.
    now rewrite list_ascii_of_string_of_list_ascii. }
  induction n as [|n IH]; intros s cur Hn Hs Hc.
  - destruct s; [|simpl in Hn; lia]. simpl. constructor; [now apply Hone|constructor].
  - destruct s as [|c [|c2 s2]].
    + simpl. constructor; [now apply Hone|constructor].
    + simpl. constructor; [|constructor]. apply (Hone (c :: cur)).
      apply Hpush; [exact Hs|]. intros L E. subst c. now apply (Hc L "").
    + simpl in Hn. rewrite split_comma_space_step.
      destruct (Ascii.eqb c "," && Ascii.eqb c2 " ")%bool eqn:E.
      * constructor; [now apply Hone|].
        apply IH; [lia|reflexivity|discriminate].
      * apply IH; [simpl; lia| |].
        -- apply Hpush; [exact Hs|]. intros L E'. subst c.
           now apply (Hc L (String c2 s2)).
        -- simpl rev. rewrite last_comma_snoc. intros L rest [= -> _].
           rewrite L in E. discriminate E.
Qed.

(** X2: what a movie contributes.  A movie with a missing or empty genre,
    views or rating field contributes no row; any other movie contributes
    at least one row, one for each piece of its genre field between
    ", " separators: the pieces hold no separator, and joined by ", "
    they are the field again; and all its rows carry the same views and
    rating. *)
Theorem explode_rows (m : MovieRow) :
  (falsy (OMDb_Genre m) || falsy (Views m) || falsy (OMDb_imdbRating m)
   = true /\ explode m = [])
  \/ (falsy (OMDb_Genre m) || falsy (Views m) || falsy (OMDb_imdbRating m)
      = false
      /\ exists pieces,
           pieces <> []
           /\ Forall no_separator pieces
           /\ String.concat ", " pieces = or_empty (OMDb_Genre m)
           /\ map row_genre (explode m) = map trim pieces
           /\ Forall (fun x =>
                        views x
                        = toNumber (remove_commas (or_empty (Views m)))
                        /\ rating x = toNumber (or_empty (OMDb_imdbRating m)))
                     (explode m)).
Proof.
  unfold explode.
  destruct (falsy (OMDb_Genre m) || falsy (Views m)
            || falsy (OMDb_imdbRating m)) eqn:E.
  - left. split; reflexivity.
  - right. split; [reflexivity|].
    exists (split_comma_space [] (or_empty (OMDb_Genre m))).
    split; [apply split_comma_space_nonempty|]. split; [|split; [|split]].
    + apply (split_comma_space_pieces _ _ _ (Nat.le_refl _));
        [reflexivity|discriminate].
    + now rewrite (split_comma_space_join _ _ _ (Nat.le_refl _)).
    + now rewrite map_map.
    + apply Forall_forall. intros x Hx. apply in_map_iff in Hx.
      destruct Hx as (g & <- & _). split; reflexivity.
Qed.

(** The sort of [top10]: by views, the larger first. *)
Lemma js_insert_by_views x l :
  StronglySorted (fun a b => (total_views b <= total_views a)%Q) l ->
  StronglySorted (fun a b => (total_views b <= total_views a)%Q)
    (js_insert (fun a b => Qlt_bool (total_views a) (total_views b)) x l).
Proof.
  clear toNumber movies csv.
  induction 1 as [|y l Hs IH Hy]; simpl.
  - repeat constructor.
  - destruct (Qlt_bool (total_views x) (total_views y)) eqn:E.
    + apply Qlt_bool_true in E. constructor; [exact IH|].
      eapply Permutation_Forall; [symmetry; apply js_insert_perm|].
      constructor; [now apply Qlt_le_weak|exact Hy].
    + apply Qlt_bool_false in E. constructor; [now constructor|].
      constructor; [exact E|].
      rewrite Forall_forall in *. intros z Hz.
      eapply Qle_trans; [apply (Hy z Hz)|exact E].
Qed.

Lemma js_sort_by_views l :
  StronglySorted (fun a b => (total_views b <= total_views a)%Q)
    (js_sort (fun a b => Qlt_bool (total_views a) (total_views b)) l).
Proof.
  clear toNumber movies csv.
  induction l as [|x l IH]; simpl; [constructor|].
  now apply js_insert_by_views.
Qed.

Lemma StronglySorted_app_split {A : Type} (R : A -> A -> Prop) l1 l2 :
  StronglySorted R (l1 ++ l2) ->
  StronglySorted R l1 /\ (forall a b, In a l1 -> In b l2 -> R a b).
Proof.
  clear toNumber movies csv.
  induction l1 as [|x l1 IH]; simpl; intros H.
  - split; [constructor|]. intros a b [].
  - inversion H as [|? ? Hs Hx]; subst. destruct (IH Hs) as [H1 H2].
    rewrite Forall_forall in Hx. split.
    + constructor; [exact H1|]. apply Forall_forall. intros y Hy.
      apply Hx, in_or_app. now left.
    + intros a b [<-|Ha] Hb; [|now apply H2].
      apply Hx, in_or_app. now right.
Qed.

Lemma NoDup_firstn {A : Type} n (l : list A) : NoDup l -> NoDup (firstn n l).
Proof.
  clear toNumber movies csv.
  intros H. rewrite <- (firstn_skipn n l) in H.
  now apply NoDup_app_remove_r in H.
Qed.

(** X3: the labelled aggregates.  [top10] holds at most ten aggregates of
    [genreData], all of them when there are no more than ten, no genre
    twice, in descending order of total views; and every aggregate is
    either labelled or has no more views than each labelled one. *)
Theorem top10_most_viewed :
  List.length top10 = Nat.min 10 (List.length genreData)
  /\ incl top10 genreData
  /\ NoDup (map genre top10)
  /\ StronglySorted (fun a b => (total_views b <= total_views a)%Q) top10
  /\ Forall (fun b =>
               In b top10
               \/ Forall (fun a => (total_views b <= total_views a)%Q) top10)
            genreData.
Proof.
  set (gt := fun a b : GenreDatum =>
               Qlt_bool (total_views a) (total_views b)).
  pose proof (js_sort_perm gt genreData) as Hp.
  pose proof (js_sort_by_views genreData) as Hs. fold gt in Hs.
  assert (Ht : top10 = firstn 10 (js_sort gt genreData)) by reflexivity.
  rewrite <- (firstn_skipn 10 (js_sort gt genreData)) in Hs.
  apply StronglySorted_app_split in Hs. destruct Hs as [Hs1 Hs2].
  split; [|split; [|split; [|split]]].
  - rewrite Ht, length_firstn. now rewrite (Permutation_length Hp).
  - intros d Hd. now apply top10_In.
  - rewrite Ht, <- firstn_map. apply NoDup_firstn.
    eapply Permutation_NoDup;
      [apply Permutation_map, Permutation_sym, Hp|].
    apply genreData_distinct.
  - rewrite Ht. exact Hs1.
  - apply Forall_forall. intros b Hb.
    apply (Permutation_in _ (Permutation_sym Hp)) in Hb.
    rewrite <- (firstn_skipn 10 (js_sort gt genreData)) in Hb.
    apply in_app_or in Hb. destruct Hb as [Hb|Hb]; [left; now rewrite Ht|].
    right. apply Forall_forall. intros a Ha. rewrite Ht in Ha.
    now apply Hs2.
Qed.

(* ================================================================== *)
(** ** Colours, legend and tooltips *)
(* ================================================================== *)

Lemma legend_class_cases (n : nat) :
  legend_class n
  = let k := N.of_nat n in
    if N.leb 2001 k then Some "color-cat-1"
    else if N.leb 1001 k && N.leb k 2000 then Some "color-cat-2"
    else if N.leb 501 k && N.leb k 1000 then Some "color-cat-3"
    else if N.leb 201 k && N.leb k 500 then Some "color-cat-4"
    else if N.leb 51 k && N.leb k 200 then Some "color-cat-5"
    else if N.leb 5 k && N.leb k 50 then Some "color-cat-6"
    else None.
Proof.
  clear toNumber movies csv.
  unfold legend_class, legend_entries. cbn [find fst].
  change (label_range "2001+") with (Some (2001%N, @None N)).
  change (label_range "1001 - 2000") with (Some (1001%N, Some 2000%N)).
  change (label_range "501 - 1000") with (Some (501%N, Some 1000%N)).
  change (label_range "201 - 500") with (Some (201%N, Some 500%N)).
  change (label_range "51 - 200") with (Some (51%N, Some 200%N)).
  change (label_range "5 - 50") with (Some (5%N, Some 50%N)).
  unfold in_range. cbv zeta.
  repeat match goal with
         | |- context [if ?c then _ else _] => destruct c
         end; reflexivity.
Qed.

Lemma colorScale_cases (n : nat) :
  colorScale n
  = let k := N.of_nat n in
    if N.ltb k 50 then "color-cat-6"
    else if N.ltb k 200 then "color-cat-5"
    else if N.ltb k 500 then "color-cat-4"
    else if N.ltb k 1000 then "color-cat-3"
    else if N.ltb k 2000 then "color-cat-2"
    else "color-cat-1".
Proof.
  clear toNumber movies csv.
  unfold colorScale, bisect_right, color_thresholds, color_classes.
  cbn [filter]. cbv zeta. generalize (N.of_nat n) as k. intros k.
  repeat match goal with
         | |- context [N.leb ?a k] => destruct (N.leb_spec a k)
         | |- context [N.ltb k ?a] => destruct (N.ltb_spec k a)
         end; try lia; reflexivity.
Qed.

(** X4: colours against the legend.  A bubble for [n] titles, [n] at
    least 5, has the colour that the legend shows for [n + 1] titles: it
    has the colour of its own legend entry unless [n] is one of the
    thresholds 50, 200, 500, 1000, 2000, where it has the colour of the
    next entry up. *)
Theorem colour_against_legend (n : nat) :
  5 <= n ->
  legend_class (S n) = Some (colorScale n)
  /\ (legend_class n = Some (colorScale n)
      <-> ~ In (N.of_nat n) color_thresholds).
Proof.
  clear toNumber movies csv.
  intros Hn. rewrite !legend_class_cases, colorScale_cases.
  unfold color_thresholds. cbv zeta.
  assert (H5 : (5 <= N.of_nat n)%N) by lia.
  replace (N.of_nat (S n)) with (N.of_nat n + 1)%N by lia.
  generalize dependent (N.of_nat n). intros k H5.
  assert (C : (k < 50 \/ k = 50 \/ 50 < k < 200 \/ k = 200
               \/ 200 < k < 500 \/ k = 500 \/ 500 < k < 1000 \/ k = 1000
               \/ 1000 < k < 2000 \/ k = 2000 \/ 2000 < k)%N) by lia.
  repeat match type of C with _ \/ _ => destruct C as [C|C] end;
    repeat match goal with
           | |- context [N.leb ?a ?b] =>
               first [ rewrite (proj2 (N.leb_le a b)) by lia
                     | rewrite (proj2 (N.leb_gt a b)) by lia ]
           | |- context [N.ltb ?a ?b] =>
               first [ rewrite (proj2 (N.ltb_lt a b)) by lia
                     | rewrite (proj2 (N.ltb_ge a b)) by lia ]
           end;
    cbn [andb];
    (split; [reflexivity|]);
    (split; [intros E; first [discriminate E | simpl; lia]
            |intros E; first [reflexivity | exfalso; apply E; simpl; lia]]).
Qed.

(* ================================================================== *)
(** ** Tooltips, radii and the methodology button *)
(* ================================================================== *)

Lemma fearCounts_canonical fearRows e :
  In e (fearCounts fearRows) -> In (fear e) FEAR_CATEGORY_NAMES.
Proof.
  clear toNumber movies csv.
  intros He. apply (in_map fear) in He.
  apply (Permutation_in _ (fearCounts_labels fearRows)) in He.
  destruct (d3_groups_ok (filtered fearRows) fearKey) as [_ KS _ _ _].
  apply KS, filtered_keys in He. tauto.
Qed.

(** X5: the tooltip of a bar.  Whatever the rows, the tooltip of every
    bar of [drawFearBars] has a description, except the bar of "Body
    Horror / Envelope Violation": the table of descriptions has that
    category under its display name "Body Horror", which the tooltip does
    not look up. *)
Theorem body_horror_bar_has_no_description (fearRows : list FearRow) :
  Forall (fun c =>
            (bar_description c = ""
             <-> fear c = "Body Horror / Envelope Violation")
            /\ description (getDisplayName (fear c)) <> "")
         (fearCounts fearRows).
Proof.
  clear toNumber movies csv.
  apply Forall_forall. intros c Hc. apply fearCounts_canonical in Hc.
  unfold bar_description. simpl in Hc.
  repeat (destruct Hc as [<-|Hc];
          [split; [split; intros E; first [discriminate E | reflexivity]
                  |intros E; discriminate E]|]).
  destruct Hc.
Qed.

(** X6: the radii of the bubbles.  Every aggregate of [genreData] has a
    radius, above 5 and at most 50; an aggregate with no fewer titles
    than another has no smaller radius, and one with the largest count
    has the radius 50. *)
Theorem radius_in_range (a b : GenreDatum) :
  In a genreData -> In b genreData -> genre_count a <= genre_count b ->
  exists (m : nat) (ra rb : R),
    d3_max (map genre_count genreData) = Some m
    /\ r (genre_count a) = Some ra /\ r (genre_count b) = Some rb
    /\ (5 < ra)%R /\ (ra <= rb)%R /\ (rb <= 50)%R
    /\ (genre_count b = m -> rb = 50%R).
Proof.
  intros Ha Hb Hab.
  destruct (d3_max_ge (map genre_count genreData) (genre_count b)
              (in_map _ _ _ Hb)) as (m & Hm & Hle).
  apply genreData_In in Ha. destruct Ha as [Ha _].
  assert (Hpos : (0 < INR m)%R) by (apply lt_0_INR; lia).
  assert (Hsm : (0 < sqrt (INR m))%R) by now apply sqrt_lt_R0.
  assert (Hsa : (0 < sqrt (INR (genre_count a)))%R)
    by (apply sqrt_lt_R0, lt_0_INR; lia).
  assert (Hab' : (sqrt (INR (genre_count a)) <= sqrt (INR (genre_count b)))%R)
    by (apply sqrt_le_1_alt, le_INR, Hab).
  assert (Hbm : (sqrt (INR (genre_count b)) <= sqrt (INR m))%R)
    by (apply sqrt_le_1_alt, le_INR, Hle).
  assert (Hi : (0 < / sqrt (INR m))%R) by now apply Rinv_0_lt_compat.
  exists m. unfold r. rewrite Hm. do 2 eexists.
  split; [reflexivity|]. split; [reflexivity|]. split; [reflexivity|].
  rewrite !scaleSqrt_radius by exact Hpos. unfold Rdiv.
  assert (H1 : (0 < sqrt (INR (genre_count a)) * / sqrt (INR m))%R)
    by now apply Rmult_lt_0_compat.
  assert (H2 : (sqrt (INR (genre_count a)) * / sqrt (INR m)
                <= sqrt (INR (genre_count b)) * / sqrt (INR m))%R)
    by (apply Rmult_le_compat_r; [lra|exact Hab']).
  assert (H3 : (sqrt (INR (genre_count b)) * / sqrt (INR m) <= 1)%R).
  { replace 1%R with (sqrt (INR m) * / sqrt (INR m))%R by (field; lra).
    apply Rmult_le_compat_r; [lra|exact Hbm]. }
  split; [lra|]. split; [lra|]. split; [lra|].
  intros ->. rewrite Rinv_r by lra. lra.
Qed.

Lemma run_task_button t st :
  methodologyBtn (page (run_task t st)) = methodologyBtn (page st).
Proof.
  clear toNumber movies.
  break_state st.
  destruct t as [[name|]|url [|]|name]; simpl run_task;
    unfold focusBarsBySupergroup;
    try destruct (is_none_name (Some name));
    destruct fr, m; reflexivity.
Qed.

(** X7: the methodology button.  Each of the five bars scenes shows the
    button and each of the other six scenes hides it, whatever the state;
    a page without the button stays without it, and the work that a scene
    leaves for later never touches it. *)
Theorem methodology_button_by_scene :
  Forall (fun scene => forall st,
            methodologyBtn (page (go scene st)) = btn_after display_block st)
         bars_scenes
  /\ Forall (fun scene => forall st,
               methodologyBtn (page (go scene st)) = btn_after display_none st)
            (scatter_scenes ++ ["horror-zoom"])
  /\ (forall i st,
        methodologyBtn (page (fire i st)) = methodologyBtn (page st)).
Proof.
  split; [|split].
  - apply Forall_forall. intros scene H st. break_state st.
    each_scene H ltac:(destruct m, mb; evaluate; reflexivity).
  - apply Forall_forall. intros scene H st. break_state st.
    each_scene H
      ltac:(destruct m, qa, hf, mb; evaluate; find_horror; reflexivity).
  - intros i st. unfold fire.
    destruct (nth_error (pending (sched st)) i) as [t|]; [|reflexivity].
    now rewrite run_task_button.
Qed.

(* ================================================================== *)
(** ** The scroll handler *)
(* ================================================================== *)

Lemma go_armed scene st : armed (vars (go scene st)) = armed (vars st).
Proof.
  clear csv.
  destruct (in_dec string_dec scene recognized_scenes) as [H|H].
  - break_state st.
    each_scene H
      ltac:(destruct m, qa, hf, mb; evaluate; find_horror; reflexivity).
  - now rewrite (go_unrecognized scene st H).
Qed.

Lemma card_vars el i st :
  let st' := applyStepFX (applyStepSubtitle el (applyStepTitle el
               (set_active (Some i) st))) in
  armed (vars st') = armed (vars st) /\ active (vars st') = Some i.
Proof.
  clear toNumber movies csv.
  break_state st. unfold applyStepFX, applyStepSubtitle, applyStepTitle.
  destruct (falsy (data_title el)), (falsy (data_subtitle el)), m;
    split; reflexivity.
Qed.

(** X8: a scroll that changes nothing.  Handling the same scroll position
    a second time changes nothing at all, also when the router threw the
    first time: the handler returns, the card that became active the
    first time is found active, and neither the titles nor the router are
    run again. *)
Theorem scroll_twice_is_scroll_once (innerHeight : Q) (steps : list Card)
    (st : State) :
  setActiveByCenter innerHeight steps (setActiveByCenter innerHeight steps st)
  = returned (setActiveByCenter innerHeight steps st).
Proof.
  clear csv.
  destruct (negb (armed (vars st))) eqn:A.
  { assert (E : setActiveByCenter innerHeight steps st = returned st)
      by (unfold setActiveByCenter; now rewrite A).
    rewrite E. cbn [state_of]. exact E. }
  destruct (best innerHeight steps) as [[[i el] d]|] eqn:B.
  2: { assert (E : setActiveByCenter innerHeight steps st = returned st)
         by (unfold setActiveByCenter; now rewrite A, B).
       rewrite E. cbn [state_of]. exact E. }
  destruct (same_card (active (vars st)) i) eqn:S.
  { assert (E : setActiveByCenter innerHeight steps st = returned st)
      by (unfold setActiveByCenter; now rewrite A, B, S).
    rewrite E. cbn [state_of]. exact E. }
  destruct (card_vars el i st) as [Ca Cs].
  assert (E : setActiveByCenter innerHeight steps st
              = go (scene_of el)
                  (applyStepFX (applyStepSubtitle el (applyStepTitle el
                     (set_active (Some i) st)))))
    by (unfold setActiveByCenter; now rewrite A, B, S).
  rewrite E.
  set (st' := state_of (go (scene_of el) _)).
  assert (A' : armed (vars st') = armed (vars st))
    by (subst st'; rewrite go_armed; exact Ca).
  assert (S' : active (vars st') = Some i)
    by (subst st'; rewrite go_active; exact Cs).
  unfold setActiveByCenter. rewrite A', A, B, S'.
  unfold same_card. now rewrite Nat.eqb_refl.
Qed.

(** X9: scrolling before the chart is in view.  From a cold start, scroll
    and resize events alone change nothing, however many and whatever the
    cards: the handler waits for the observer to arm it. *)
Theorem scrolling_before_arming_is_noop (html : Page)
    (views : list (Q * list Card)) :
  run (cold html) (scrolls views) = cold html.
Proof.
  induction views as [|v views IH]; [reflexivity|].
  unfold scrolls in *. simpl. exact IH.
Qed.

(* ================================================================== *)
(** ** The bars scenes *)
(* ================================================================== *)

Lemma dim_bars_datum f l : forall i,
  map bar_datum (mapi_from i (dim_bar f) l) = map bar_datum l.
Proof.
  clear toNumber movies csv.
  induction l as [|b l IH]; intros i; simpl; [reflexivity|].
  now rewrite IH.
Qed.

Lemma dim_bars_by_datum (g g' : BarDatum -> bool) l : forall i,
  (forall d, g d = g' d) ->
  Forall (fun b => bar_dimmed b = g' (bar_datum b)
                   /\ (bar_dimmed b = true <-> bar_pointer b = Some pointer_none))
         (mapi_from i (dim_bar (fun _ d => g d)) l).
Proof.
  clear toNumber movies csv.
  intros i Hg. revert i.
  induction l as [|b l IH]; intros i; simpl; constructor.
  - unfold dim_bar, pointer_of. cbn [bar_dimmed bar_pointer bar_datum].
    rewrite Hg. split; [reflexivity|].
    destruct (g' (bar_datum b)); split; intros E;
      first [reflexivity | discriminate E].
  - apply IH.
Qed.

Lemma fresh_bars_undimmed {A : Type} (g' : BarDatum -> bool)
    (f : A -> BarDatum) (l : list A) :
  (forall d, g' d = false) ->
  Forall (fun b => bar_dimmed b = g' (bar_datum b)
                   /\ (bar_dimmed b = true <-> bar_pointer b = Some pointer_none))
         (map (fun c => new_bar (f c)) l).
Proof.
  clear toNumber movies csv.
  intros Hg. apply Forall_forall. intros b Hb.
  apply in_map_iff in Hb. destruct Hb as (c & <- & _). simpl.
  rewrite Hg. split; [reflexivity|]. split; discriminate.
Qed.

Ltac compute_bars :=
  lazy -[genreData top10 fearCounts groupedCounts meanRating meanViews
         shouldDim notHorror toLowerCase map filter mapi_from dim_bar
         bar_group option_string_eqb bar_datum bar_dimmed bar_pointer
         bar_dims new_bar].

Lemma fires_two_pending order st t1 t2 :
  pending (sched st) = [t1; t2] ->
  pending (sched (fires order st)) = [] ->
  exists i order',
    (i = 0 \/ i = 1)
    /\ fires order st = fires order' (fire i st)
    /\ pending (sched (fires order' (fire i st))) = [].
Proof.
  intros E. induction order as [|i order IH]; intros H.
  - simpl in H. rewrite E in H. discriminate.
  - change (fires (i :: order) st) with (fires order (fire i st)) in *.
    destruct i as [|[|i]].
    + exists 0, order. auto.
    + exists 1, order. auto.
    + assert (F : fire (S (S i)) st = st).
      { apply fire_nothing. rewrite E. now destruct i. }
      rewrite F in *. now apply IH.
Qed.

(** Follow the pending work of the state [X] to its end, whatever the
    order [order] that ends it. *)
Ltac chase order X H :=
  let P := fresh "P" in
  let p := eval lazy -[genreData top10 fearCounts groupedCounts meanRating
                       meanViews shouldDim notHorror toLowerCase map filter
                       mapi_from dim_bar bar_group option_string_eqb
                       bar_datum bar_dimmed bar_pointer bar_dims new_bar]
           in (pending (sched X)) in
  assert (P : pending (sched X) = p) by (compute_bars; reflexivity);
  lazymatch p with
  | [] => rewrite (fires_idle order X P); clear P H
  | [?t] =>
      let o := fresh "order" in
      let E := fresh "E" in
      let H' := fresh "H" in
      destruct (fires_only_task order X t P H) as (o & E & H');
      rewrite E; clear E H P; chase o (fire 0 X) H'
  | [?t1; ?t2] =>
      let i := fresh "i" in
      let o := fresh "order" in
      let E := fresh "E" in
      let H' := fresh "H" in
      destruct (fires_two_pending order X t1 t2 P H)
        as (i & o & [-> | ->] & E & H');
      rewrite E; clear E H P;
      [chase o (fire 0 X) H' | chase o (fire 1 X) H']
  end.

Ltac bars_dims name :=
  first [ apply (dim_bars_by_datum _ (bar_dims name)); intros d; reflexivity
        | apply (fresh_bars_undimmed (bar_dims name)); intros d; reflexivity ].

Ltac bars_goal name :=
  compute_bars;
  split; [reflexivity|]; split;
  [ rewrite ?dim_bars_datum, ?map_map; reflexivity
  | first [ exists name; split; [left; reflexivity|bars_dims name]
          | exists None; split;
            [right; repeat split; reflexivity
            |bars_dims (@None string)] ] ].

(** X10: what a bars scene shows.  With no work pending, the work a bars
    scene leaves can be run to its end, and in whatever order it has been,
    the bars are drawn.  Coming from another chart the bars are the counts
    of the cached rows, or else of the rows of the corrected file; on the
    bars they stay the bars that are there.  A bar is dimmed exactly when
    the focus is on a supergroup and the bar's category is not mapped to
    it, and the dimmed bars, and only they, ignore the pointer.  The
    focus is the one the scene asks for; only when the scene comes from
    another chart with no rows cached can the bars end with no focus
    instead, the timer of the focus having run before the rows arrived. *)
Theorem bars_scene_view (scene : string) (name : option string) (st : State) :
  In (scene, name) bars_requests ->
  pending (sched st) = [] ->
  (exists order, pending (sched (fires order (go scene st))) = [])
  /\ forall order,
       let st' := fires order (go scene st) in
       pending (sched st') = [] ->
       mode (vars st') = mode_bars
       /\ map bar_datum (bars (svg st'))
          = (if is_bars (mode (vars st)) then map bar_datum (bars (svg st))
             else map fear_bar (fearCounts (rows_after st)))
       /\ exists focus,
            (focus = name
             \/ (focus = None /\ is_bars (mode (vars st)) = false
                 /\ fearRows (vars st) = None))
            /\ Forall (fun b => bar_dimmed b = bar_dims focus (bar_datum b)
                                /\ (bar_dimmed b = true
                                    <-> bar_pointer b = Some pointer_none))
                      (bars (svg st')).
Proof.
  intros H Hp. split; [apply fires_completes|].
  intros order st' Hq. subst st'.
  break_state st. simpl in Hp. subst pe. simpl in H.
  repeat (destruct H as [[= <- <-]|H];
          [destruct m, fr, mb;
           match goal with
           | |- context [fires order ?X] => chase order X Hq
           end;
           match goal with
           | |- context [@eq (option string) _ ?n] => bars_goal n
           end|]).
  destruct H.
Qed.

Lemma nth_error_mapi_from {A B : Type} (f : nat -> A -> B) l : forall k i,
  nth_error (mapi_from k f l) i = option_map (f (k + i)) (nth_error l i).
Proof.
  clear toNumber movies csv.
  induction l as [|x l IH]; intros k [|i]; simpl; try reflexivity.
  - now rewrite Nat.add_0_r.
  - rewrite IH. now rewrite Nat.add_succ_r.
Qed.

(** X11: the timer against the download.  A supergroup scene that comes
    from another chart with no rows cached leaves, once the crossfade has
    ended, the download of the rows and the timer of the focus pending
    together.  When the rows arrive first, the bars are drawn and then
    dimmed by supergroup; when the timer runs first it finds no bars to
    dim, and the bars that are drawn afterwards stay undimmed. *)
Theorem supergroup_focus_needs_the_rows (scene name : string) (st : State) :
  In (scene, Some name) bars_requests ->
  is_bars (mode (vars st)) = false ->
  fearRows (vars st) = None ->
  pending (sched st) = [] ->
  let faded := fire 0 (go scene st) in
  pending (sched faded)
  = [task_csv_loaded manualfix_csv false; task_timeout name]
  /\ map bar_datum (bars (svg (fire 0 (fire 0 faded))))
     = map fear_bar (fearCounts (csv manualfix_csv))
  /\ Forall (fun b => bar_dimmed b = bar_dims (Some name) (bar_datum b))
            (bars (svg (fire 0 (fire 0 faded))))
  /\ map bar_datum (bars (svg (fire 0 (fire 1 faded))))
     = map fear_bar (fearCounts (csv manualfix_csv))
  /\ Forall (fun b => bar_dimmed b = false)
            (bars (svg (fire 0 (fire 1 faded)))).
Proof.
  intros H Hm Hf Hp. break_state st. simpl in Hm, Hf, Hp. subst fr pe.
  simpl in H.
  destruct H as [[=]|H].
  repeat (destruct H as [[= <- <-]|H];
          [destruct m, mb; try discriminate Hm; compute_bars;
           (split; [reflexivity|]);
           (split; [rewrite ?dim_bars_datum, ?map_map; reflexivity|]);
           (split;
            [match goal with
             | |- context [bar_dims ?n] =>
                 eapply Forall_impl;
                 [|apply (dim_bars_by_datum _ (bar_dims n));
                   intros d; reflexivity]
             end;
             intros b [E _]; exact E|]);
           (split; [rewrite ?dim_bars_datum, ?map_map; reflexivity|]);
           apply Forall_forall; intros b Hb; apply in_map_iff in Hb;
           destruct Hb as (c & <- & _); reflexivity|]).
  destruct H.
Qed.

Lemma go_on_bars (scene : string) (name : option string) (st : State) :
  In (scene, name) bars_requests ->
  mode (vars st) = mode_bars ->
  bars (svg (go scene st))
  = mapi_from 0 (dim_bar (fun _ d => bar_dims name d)) (bars (svg st)).
Proof.
  clear csv.
  intros H Hm. break_state st. simpl in Hm. subst m. simpl in H.
  repeat (destruct H as [[= <- <-]|H];
          [destruct mb; compute_bars; reflexivity|]).
  destruct H.
Qed.

(** X12: one scene for each bar.  On the bars, a bar of a canonical
    category keeps its place and its datum in every bars scene; the scene
    "bars" shows it undimmed, and of the four supergroup scenes exactly
    the one of the supergroup of its category does: there is such a scene,
    and the other three dim the bar. *)
Theorem bar_highlighted_by_its_supergroup (st : State) (i : nat) (b : Bar)
    (c : FearCount) :
  mode (vars st) = mode_bars ->
  nth_error (bars (svg st)) i = Some b ->
  bar_datum b = fear_bar c ->
  In (fear c) FEAR_CATEGORY_NAMES ->
  exists scene name,
    In (scene, Some name) bars_requests
    /\ FEAR_GROUP_MAP_get (fear c) = Some name
    /\ forall scene' name',
         In (scene', name') bars_requests ->
         exists b',
           nth_error (bars (svg (go scene' st))) i = Some b'
           /\ bar_datum b' = bar_datum b
           /\ bar_dimmed b'
              = match name' with
                | Some n => negb (String.eqb name n)
                | None => false
                end.
Proof.
  clear csv.
  intros Hm Hi Hd Hc.
  destruct (FEAR_GROUP_MAP_total _ Hc) as (name & Hg & Hs).
  assert (Hscene : exists scene, In (scene, Some name) bars_requests).
  { simpl in Hs.
    repeat (destruct Hs as [<-|Hs]; [eexists; simpl; eauto 6|]).
    destruct Hs. }
  destruct Hscene as (scene & Hscene).
  exists scene, name. split; [exact Hscene|]. split; [exact Hg|].
  intros scene' name' H'.
  rewrite (go_on_bars scene' name' st H' Hm), nth_error_mapi_from, Hi.
  simpl option_map. eexists. split; [reflexivity|]. split; [reflexivity|].
  cbn [dim_bar bar_dimmed]. rewrite Hd.
  destruct name' as [n|]; [|reflexivity].
  unfold bar_dims, bar_group, bar_fear. now rewrite Hg.
Qed.

(* ================================================================== *)
(** ** The scatter scenes and the zoom *)
(* ================================================================== *)

Ltac evaluate_marks :=
  lazy -[genreData top10 fearCounts groupedCounts meanRating meanViews
         shouldDim notHorror toLowerCase
         map filter find existsb forallb update_all update_first mapi_from
         List.app rev firstn List.length Nat.sub new_calls
         is_quadrant is_axis_label is_class bar_group option_string_eqb
         Nat.leb incl dim_bubble dim_label restore_bubble restore_label
         hide_bubble hide_label zoom_bubble new_bubble new_label
         b_datum l_datum bubble_shown label_shown bubble_dimmed_by
         label_dimmed_by zoomed_or_hidden label_hidden guides_visible
         scatter_data].

Lemma shown_new_bubbles l : Forall bubble_shown (map new_bubble l).
Proof.
  clear toNumber movies csv.
  apply Forall_forall. intros b Hb. apply in_map_iff in Hb.
  destruct Hb as (d & <- & _). repeat split; discriminate.
Qed.

Lemma shown_restore_bubbles l : Forall bubble_shown (map restore_bubble l).
Proof.
  clear toNumber movies csv.
  apply Forall_forall. intros b Hb. apply in_map_iff in Hb.
  destruct Hb as (d & <- & _). repeat split; discriminate.
Qed.

Lemma shown_dim_bubbles g l :
  Forall bubble_shown l -> Forall bubble_shown (map (dim_bubble g) l).
Proof.
  clear toNumber movies csv.
  intros H. apply Forall_forall. intros b Hb. apply in_map_iff in Hb.
  destruct Hb as (d & <- & Hd). rewrite Forall_forall in H. exact (H d Hd).
Qed.

Lemma dimmed_bubbles g dims l :
  (forall d, g d = dims d) ->
  Forall bubble_shown l ->
  Forall (fun b => bubble_shown b /\ bubble_dimmed_by dims b)
         (map (dim_bubble g) l).
Proof.
  clear toNumber movies csv.
  intros Hg H. apply Forall_forall. intros b Hb. apply in_map_iff in Hb.
  destruct Hb as (d & <- & Hd). rewrite Forall_forall in H.
  split; [exact (H d Hd)|].
  unfold bubble_dimmed_by, dim_bubble, pointer_of.
  cbn [b_dimmed b_pointer b_datum]. rewrite Hg. split; [reflexivity|].
  destruct (dims (b_datum d)); split; intros E;
    first [reflexivity | discriminate E].
Qed.

Lemma shown_new_labels l : Forall label_shown (map new_label l).
Proof.
  clear toNumber movies csv.
  apply Forall_forall. intros b Hb. apply in_map_iff in Hb.
  destruct Hb as (d & <- & _). split; discriminate.
Qed.

Lemma shown_restore_labels l : Forall label_shown (map restore_label l).
Proof.
  clear toNumber movies csv.
  apply Forall_forall. intros b Hb. apply in_map_iff in Hb.
  destruct Hb as (d & <- & _). split; discriminate.
Qed.

Lemma shown_dim_labels g l :
  Forall label_shown l -> Forall label_shown (map (dim_label g) l).
Proof.
  clear toNumber movies csv.
  intros H. apply Forall_forall. intros b Hb. apply in_map_iff in Hb.
  destruct Hb as (d & <- & Hd). rewrite Forall_forall in H. exact (H d Hd).
Qed.

Lemma dimmed_labels g dims l :
  (forall d, g d = dims d) ->
  Forall label_shown l ->
  Forall (fun b => label_shown b /\ label_dimmed_by dims b)
         (map (dim_label g) l).
Proof.
  clear toNumber movies csv.
  intros Hg H. apply Forall_forall. intros b Hb. apply in_map_iff in Hb.
  destruct Hb as (d & <- & Hd). rewrite Forall_forall in H.
  split; [exact (H d Hd)|].
  unfold label_dimmed_by, dim_label, pointer_of.
  cbn [l_dimmed l_pointer l_datum]. rewrite Hg. split; [reflexivity|].
  destruct (dims (l_datum d)); split; intros E;
    first [reflexivity | discriminate E].
Qed.

Ltac scatter_goal :=
  evaluate_marks;
  do 7 (split; [reflexivity|]);
  split; [unfold scatter_data; cbn [is_scatter mode vars bubbles svg];
          autorewrite with marks; reflexivity|];
  split;
  [ match goal with
    | |- Forall (fun b => _ /\ bubble_dimmed_by ?dims b) _ =>
        apply (dimmed_bubbles _ dims); [intros d; reflexivity|];
        repeat apply shown_dim_bubbles;
        first [apply shown_restore_bubbles | apply shown_new_bubbles]
    end
  | match goal with
    | |- Forall (fun l => _ /\ label_dimmed_by ?dims l) _ =>
        apply (dimmed_labels _ dims); [intros d; reflexivity|];
        repeat apply shown_dim_labels;
        first [apply shown_restore_labels | apply shown_new_labels]
    end ].

(** X13: what a scatter scene shows.  Where there is a mean rating to
    annotate the guides with, or the guides are on the scatter already,
    and whatever was on the chart before, dimmed, zoomed or bars, a
    scatter scene returns with the scatter drawn, the quadrant guides
    added, the fine note shown, the centre label of the zoom gone and the
    legend faded in; every bubble and label is on display at the frozen
    scales, and a mark is dimmed exactly when the scene asks for it: none
    in baseline and quadrants, by quadrant in high-views and
    critical-darlings, all but horror in horror.  The flag
    [isHorrorFocused] ends set by horror, cleared by baseline, quadrants
    and high-views, and as it was by critical-darlings. *)
Theorem scatter_scene_view (scene : string) (dims : GenreDatum -> bool)
    (st : State) :
  In (scene, dims) scatter_requests ->
  (meanRating = None ->
   is_scatter (mode (vars st)) = true /\ quadrantsAdded (vars st) = true) ->
  has_thrown (go scene st) = false
  /\ let st' := go scene st in
     mode (vars st') = mode_scatter
     /\ quadrantsAdded (vars st') = true
     /\ isHorrorFocused (vars st')
        = (if String.eqb scene "critical-darlings"
           then isHorrorFocused (vars st) else String.eqb scene "horror")
     /\ note_hidden (page st') = false
     /\ horrorCenterLabel (svg st') = false
     /\ gLegend_opacity (svg st') = Some 1%Q
     /\ map b_datum (bubbles (svg st')) = scatter_data st
     /\ Forall (fun b => bubble_shown b /\ bubble_dimmed_by dims b)
               (bubbles (svg st'))
     /\ Forall (fun l => label_shown l /\ label_dimmed_by dims l)
               (labels (svg st')).
Proof.
  clear csv.
  intros H. break_state st. simpl in H.
  repeat (destruct H as [[= <- <-]|H];
          [destruct m, qa, hf, mb; split_mean; intros Hq;
           try (destruct (Hq eq_refl) as [Hm Ha]; discriminate);
           scatter_goal|]).
  destruct H.
Qed.

(** X21: a scatter scene with no mean rating.  When no aggregate of
    [genreData] has a rating and the quadrant guides are still to be
    added, every scatter scene throws where the first annotation is
    written: the scatter is drawn and [quadrantsAdded] is set, seven of
    the eight guides are on the chart, and the focus of the scene is not
    applied, no mark is dimmed by it and [isHorrorFocused] is as it
    was. *)
Theorem scatter_scene_without_mean (scene : string)
    (dims : GenreDatum -> bool) (st : State) :
  In (scene, dims) scatter_requests ->
  meanRating = None ->
  is_scatter (mode (vars st)) = false \/ quadrantsAdded (vars st) = false ->
  has_thrown (go scene st) = true
  /\ let st' := go scene st in
     mode (vars st') = mode_scatter
     /\ quadrantsAdded (vars st') = true
     /\ isHorrorFocused (vars st') = isHorrorFocused (vars st)
     /\ map b_datum (bubbles (svg st')) = scatter_data st
     /\ (is_scatter (mode (vars st)) = false ->
         bubbles (svg st') = map new_bubble genreData
         /\ labels (svg st') = map new_label top10
         /\ map a_class (axes (svg st'))
            = [ x_axis; y_axis; x_label; y_label;
                quadrant_line; quadrant_line;
                quadrant_label; quadrant_label; quadrant_label;
                quadrant_label; quadrant_axis_label ])
     /\ (is_scatter (mode (vars st)) = true ->
         bubbles (svg st') = map restore_bubble (bubbles (svg st))
         /\ labels (svg st') = map restore_label (labels (svg st))).
Proof.
  clear csv.
  intros H. break_state st. simpl in H.
  repeat (destruct H as [[= <- <-]|H];
          [destruct m, qa, hf, mb;
           (split_mean; [intros Hq; discriminate Hq|]);
           intros _ Hc; simpl in Hc;
           try (destruct Hc as [Hc|Hc]; discriminate Hc);
           lazy -[genreData top10 meanRating meanViews shouldDim notHorror
                  toLowerCase map scatter_data update_all update_first
                  restore_bubble restore_label new_bubble new_label
                  b_datum l_datum];
           do 4 (split; [reflexivity|]);
           (split; [unfold scatter_data;
                    cbn [is_scatter mode vars bubbles svg];
                    autorewrite with marks; reflexivity|]);
           split; intros E;
           first [discriminate E | repeat split; reflexivity]|]).
  destruct H.
Qed.

Lemma go_zoom_on_scatter (st : State) :
  mode (vars st) = mode_scatter ->
  go "horror-zoom" st
  = returned (zoomToHorror (hideFineNote (hideMethodologyBtn st))).
Proof.
  clear csv.
  intros Hm. break_state st. simpl in Hm. subst m.
  destruct mb; reflexivity.
Qed.

Lemma rescale_axes_twice (s s' : Scales) (o o' : Q) l : forall fx fy,
  rescale_axes s' o' fx fy (rescale_axes s o fx fy l)
  = rescale_axes s' o' fx fy l.
Proof.
  clear toNumber movies csv.
  induction l as [|[c sc op] l IH]; intros fx fy;
    [destruct fx, fy; reflexivity|].
  destruct c, fx, fy; cbn; f_equal;
    first [ apply (IH true true) | apply (IH true false)
          | apply (IH false true) | apply (IH false false) ].
Qed.

Ltac evaluate_axes :=
  lazy -[genreData top10 fearCounts groupedCounts meanRating meanViews
         shouldDim notHorror toLowerCase
         map filter find existsb forallb update_all update_first mapi_from
         List.app rev firstn List.length Nat.sub new_calls
         is_quadrant is_axis_label is_class bar_group option_string_eqb
         Nat.leb incl dim_bubble dim_label restore_bubble restore_label
         hide_bubble hide_label zoom_bubble new_bubble new_label
         b_datum l_datum with_a_opacity with_a_scales].

Ltac undo_zoom :=
  evaluate_axes;
  (split; [reflexivity|]); (split; [reflexivity|]);
  (split; [|reflexivity]);
  f_equal;
  [ rewrite !map_update_all by (intros; reflexivity); reflexivity
  | rewrite (map_same restore_label hide_label) by (intros; reflexivity);
    reflexivity
  | apply (rescale_axes_twice zoom_scales base_scales 0 1 _ true true) ].

(** X14: the zoom is undone.  On the scatter with the quadrant guides
    added, a scatter scene after the zoom leaves the variables, the page,
    the chart and the pending work exactly as the same scene without the
    zoom before it: nothing of the zoom outlasts the next scatter
    scene. *)
Theorem zoom_is_undone (scene : string) (st : State) :
  In scene scatter_scenes ->
  mode (vars st) = mode_scatter ->
  quadrantsAdded (vars st) = true ->
  vars (go scene (go "horror-zoom" st)) = vars (go scene st)
  /\ page (go scene (go "horror-zoom" st)) = page (go scene st)
  /\ svg (go scene (go "horror-zoom" st)) = svg (go scene st)
  /\ pending (sched (go scene (go "horror-zoom" st)))
     = pending (sched (go scene st)).
Proof.
  clear csv.
  intros H Hm Hq. rewrite (go_zoom_on_scatter st Hm). cbn [state_of].
  unfold zoomToHorror.
  break_state st. simpl in Hm, Hq. subst m qa.
  cbn [log hideFineNote hideMethodologyBtn].
  match goal with
  | |- context [find ?f genreData] => destruct (find f genreData)
  end.
  - each_scene H ltac:(destruct hf, mb; undo_zoom).
  - each_scene H ltac:(destruct hf, mb; evaluate; repeat split; reflexivity).
Qed.

Lemma zoomed_bubbles l :
  Forall zoomed_or_hidden
    (update_all (fun b => negb (notHorror (b_datum b))) zoom_bubble
       (update_all (fun b => notHorror (b_datum b)) hide_bubble l)).
Proof.
  clear toNumber movies csv.
  unfold update_all. rewrite map_map. apply Forall_forall. intros b Hb.
  apply in_map_iff in Hb. destruct Hb as (x & <- & _).
  unfold zoomed_or_hidden.
  destruct (notHorror (b_datum x)) eqn:E; cbn; rewrite E; cbn; rewrite ?E;
    repeat split; reflexivity.
Qed.

Lemma hidden_labels l : Forall label_hidden (map hide_label l).
Proof.
  clear toNumber movies csv.
  apply Forall_forall. intros b Hb. apply in_map_iff in Hb.
  destruct Hb as (x & <- & _). split; reflexivity.
Qed.

Lemma faded_guides l :
  existsb is_quadrant (update_all is_quadrant (with_a_opacity (Some 0%Q)) l)
  && forallb (fun e => shown (a_opacity e))
       (filter is_quadrant
          (update_all is_quadrant (with_a_opacity (Some 0%Q)) l))
  = false.
Proof.
  clear toNumber movies csv.
  induction l as [|[c s o] l IH]; [reflexivity|].
  destruct c; cbn; first [exact IH | apply andb_false_r | reflexivity].
Qed.

Lemma guides_faded st l :
  axes (svg st) = update_all is_quadrant (with_a_opacity (Some 0%Q)) l ->
  guides_visible st = false.
Proof.
  clear toNumber movies csv.
  intros E. unfold guides_visible. now rewrite E, faded_guides.
Qed.

(** X15: what the zoom shows.  When [genreData] has a horror aggregate,
    and the scatter is on the chart or there is a mean rating to annotate
    the guides of a new one with, the zoom scene, whatever was on the
    chart before, returns with the scatter drawn, the fine note hidden,
    the centre label on the chart and the legend faded out; every bubble
    of another genre is taken off the display and every horror bubble is
    shown with the geometry of the zoom, every label is taken off the
    display, and the quadrant guides are not visible. *)
Theorem horror_zoom_view (d : GenreDatum) (st : State) :
  In d genreData ->
  notHorror d = false ->
  is_scatter (mode (vars st)) = true \/ meanRating <> None ->
  has_thrown (go "horror-zoom" st) = false
  /\ let st' := go "horror-zoom" st in
     mode (vars st') = mode_scatter
     /\ note_hidden (page st') = true
     /\ horrorCenterLabel (svg st') = true
     /\ gLegend_opacity (svg st') = Some 0%Q
     /\ guides_visible st' = false
     /\ map b_datum (bubbles (svg st')) = scatter_data st
     /\ Forall zoomed_or_hidden (bubbles (svg st'))
     /\ Forall label_hidden (labels (svg st')).
Proof.
  clear csv.
  intros Hd Hn. break_state st.
  destruct m, qa, mb; split_mean; intros Hq;
    try (destruct Hq as [Hq|Hq]; [discriminate Hq|exfalso; now apply Hq]);
    clear Hq;
    evaluate_marks;
    match goal with
    | |- context [find ?f genreData] =>
        destruct (find f genreData) eqn:F;
        [|exfalso; pose proof (find_none _ _ F d Hd) as C; cbv beta in C;
          rewrite Hn in C; discriminate C]
    end;
    evaluate_marks;
    (do 5 (split; [reflexivity|]));
    (split; [eapply guides_faded; reflexivity|]);
    (split; [unfold scatter_data; cbn [is_scatter mode vars bubbles svg];
             autorewrite with marks; reflexivity|]);
    (split; [apply zoomed_bubbles|apply hidden_labels]).
Qed.

(** X22: the zoom with no mean rating.  When no aggregate of [genreData]
    has a rating and the zoom scene is the first to ask for the scatter,
    the scatter is drawn but the scene throws before the zoom: the fine
    note stays shown, no bubble or label is touched, and there is no
    centre label. *)
Theorem horror_zoom_without_mean (st : State) :
  meanRating = None ->
  is_scatter (mode (vars st)) = false ->
  has_thrown (go "horror-zoom" st) = true
  /\ let st' := go "horror-zoom" st in
     mode (vars st') = mode_scatter
     /\ note_hidden (page st') = false
     /\ horrorCenterLabel (svg st') = horrorCenterLabel (svg st)
     /\ bubbles (svg st') = map new_bubble genreData
     /\ labels (svg st') = map new_label top10
     /\ new_calls st st'
        = [call_hideMethodologyBtn; call_drawScatter; call_showFineNote;
           call_addQuadrantsIfNeeded].
Proof.
  clear csv.
  break_state st.
  destruct m, qa, mb;
    (split_mean; [intros Hq; discriminate Hq|]);
    intros _ Hm; try discriminate Hm;
    (split; [reflexivity|]); evaluate;
    (do 5 (split; [reflexivity|])); read_new_calls; reflexivity.
Qed.

(* ================================================================== *)
(** ** The chart throughout a page session *)
(* ================================================================== *)

Lemma map_update_first {A B : Type} (g : A -> B) (p : A -> bool) (f : A -> A)
    (l : list A) :
  (forall x, g (f x) = g x) -> map g (update_first p f l) = map g l.
Proof.
  clear toNumber movies csv.
  intros H. induction l as [|x l IH]; simpl; [reflexivity|].
  destruct (p x); simpl; [now rewrite H|now rewrite IH].
Qed.

Lemma class_with_opacity p o l :
  map a_class (update_all p (with_a_opacity o) l) = map a_class l.
Proof. clear toNumber movies csv. now apply map_update_all. Qed.

Lemma class_with_scales p s l :
  map a_class (update_first p (with_a_scales s) l) = map a_class l.
Proof. clear toNumber movies csv. now apply map_update_first. Qed.

#[local] Hint Rewrite class_with_opacity class_with_scales dim_bars_datum
  : marks.

Ltac evaluate_chart :=
  lazy -[genreData top10 fearCounts groupedCounts meanRating meanViews
         shouldDim notHorror toLowerCase
         map filter find existsb forallb update_all update_first mapi_from
         List.app rev firstn List.length Nat.sub new_calls
         is_quadrant is_axis_label is_class bar_group option_string_eqb
         Nat.leb incl dim_bubble dim_label restore_bubble restore_label
         hide_bubble hide_label zoom_bubble new_bubble new_label
         b_datum l_datum with_a_opacity with_a_scales a_class bar_datum
         dim_bar task_ok manualfix_csv interrupt
         scatter_axes bars_axes legendCategories bars_title bars_subtitle].

Lemma Forall_interrupt (P : Task -> Prop) l :
  Forall P l -> Forall P (interrupt l).
Proof.
  clear toNumber movies csv.
  induction l as [|t l IH]; intros H; [exact H|].
  inversion H; subst. simpl.
  destruct (is_crossfade_end t); [auto|constructor; auto].
Qed.

Ltac all_of :=
  first [ assumption
        | apply Forall_nil
        | apply Forall_interrupt; all_of
        | apply Forall_cons;
          [first [reflexivity | exact I | split; reflexivity | discriminate]
          |all_of]
        | apply Forall_app; split; all_of ].

Ltac chart_fact :=
  first [ reflexivity | assumption | discriminate
        | left; reflexivity | right; reflexivity
        | autorewrite with marks; first [assumption | reflexivity]
        | all_of
        | rewrite map_map; reflexivity ].

Ltac keep_chart :=
  unfold scatter_axes; split_mean; evaluate_chart;
  try (match goal with
       | |- context [find ?f genreData] => destruct (find f genreData)
       end; evaluate_chart);
  let H := fresh "H" in
  intros H;
  repeat match goal with
         | H : _ /\ _ |- _ => destruct H
         | H : _ \/ _ |- _ => destruct H
         | H : Some _ = None |- _ => discriminate H
         | H : None = Some _ |- _ => discriminate H
         | H : Some _ = Some _ |- _ => injection H as H
         end;
  try discriminate; try congruence;
  subst;
  repeat split; chart_fact.

Lemma go_keeps scene st :
  baselineRendered (vars st) = true ->
  session_ok st -> session_ok (go scene st).
Proof.
  destruct (in_dec string_dec scene recognized_scenes) as [H|H].
  2: { now rewrite (go_unrecognized scene st H). }
  intros Hb. break_state st. simpl in Hb. subst br.
  unfold session_ok, chart_ok, work_ok, engine_ok.
  each_scene H ltac:(destruct m, qa, hf, mb; keep_chart).
Qed.

Lemma run_task_keeps t st :
  baselineRendered (vars st) = true ->
  task_ok t ->
  session_ok st -> session_ok (run_task t st).
Proof.
  intros Hb Ht. break_state st. simpl in Hb. subst br.
  unfold session_ok, chart_ok, work_ok, engine_ok.
  destruct t as [[name|]|url grouped|name].
  - simpl run_task. destruct fr, m; keep_chart.
  - simpl run_task. destruct fr, m; keep_chart.
  - destruct Ht as [-> ->]. simpl run_task. destruct fr, m; keep_chart.
  - simpl run_task. unfold focusBarsBySupergroup.
    destruct (is_none_name (Some name)); destruct fr, m; keep_chart.
Qed.

Lemma Forall_remove_nth {A : Type} (P : A -> Prop) l : forall i,
  Forall P l -> Forall P (remove_nth i l).
Proof.
  clear toNumber movies csv.
  induction l as [|x l IH]; intros i H; [destruct i; exact H|].
  inversion H; subst. destruct i; simpl; [assumption|].
  constructor; [assumption|now apply IH].
Qed.

Lemma fire_keeps i st : session_ok st -> session_ok (fire i st).
Proof.
  intros H. unfold fire.
  destruct (nth_error (pending (sched st)) i) as [t|] eqn:E; [|exact H].
  destruct H as (Hc & (Hf & Hu & Hp & Hl) & He).
  assert (Ht : task_ok t).
  { rewrite Forall_forall in Hp. apply Hp. eapply nth_error_In, E. }
  assert (Hb : baselineRendered (vars st) = true).
  { unfold engine_ok in He. destruct (baselineRendered (vars st));
      [reflexivity|].
    destruct He as (_ & _ & _ & He). rewrite He in E. destruct i; discriminate E. }
  apply run_task_keeps; [exact Hb|exact Ht|].
  pose proof (Forall_remove_nth task_ok _ i Hp) as Hp'.
  break_state st. simpl in *. subst br.
  unfold session_ok, chart_ok, work_ok, engine_ok. simpl.
  split; [exact Hc|]. split; [|exact He].
  split; [exact Hf|]. split; [exact Hu|]. split; [exact Hp'|exact Hl].
Qed.

Lemma card_keeps el i st :
  baselineRendered (vars st) = true ->
  session_ok st ->
  session_ok (applyStepFX (applyStepSubtitle el (applyStepTitle el
                (set_active (Some i) st)))).
Proof.
  intros Hb. break_state st. simpl in Hb. subst br.
  unfold session_ok, chart_ok, work_ok, engine_ok.
  unfold applyStepFX, applyStepSubtitle, applyStepTitle.
  destruct (falsy (data_title el)), (falsy (data_subtitle el)), m;
    keep_chart.
Qed.

Lemma card_rendered el i st :
  baselineRendered (vars (applyStepFX (applyStepSubtitle el (applyStepTitle el
                            (set_active (Some i) st)))))
  = baselineRendered (vars st).
Proof.
  clear toNumber movies csv.
  break_state st. unfold applyStepFX, applyStepSubtitle, applyStepTitle.
  destruct (falsy (data_title el)), (falsy (data_subtitle el)), m;
    reflexivity.
Qed.

Lemma armed_rendered st :
  session_ok st -> armed (vars st) = true -> baselineRendered (vars st) = true.
Proof.
  intros (_ & _ & He) Ha. unfold engine_ok in He.
  destruct (baselineRendered (vars st)); [reflexivity|].
  destruct He as (_ & He & _). congruence.
Qed.

Lemma scroll_keeps h steps st :
  session_ok st -> session_ok (setActiveByCenter h steps st).
Proof.
  intros H. unfold setActiveByCenter.
  destruct (armed (vars st)) eqn:A; cbn [negb state_of]; [|exact H].
  destruct (best h steps) as [[[i el] d]|]; [|exact H].
  destruct (same_card (active (vars st)) i); [exact H|].
  pose proof (armed_rendered st H A) as Hb.
  apply go_keeps; [now rewrite card_rendered|now apply card_keeps].
Qed.

Lemma first_view_keeps st :
  session_ok st ->
  session_ok (addQuadrantsIfNeeded (drawScatter
                (set_title "The Hit Matrix" (set_baselineRendered true st)))).
Proof.
  break_state st.
  unfold session_ok, chart_ok, work_ok, engine_ok.
  destruct m, br; keep_chart.
Qed.

Lemma arm_keeps b st :
  session_ok st ->
  (b = true -> baselineRendered (vars st) = true) ->
  session_ok (set_armed b st).
Proof.
  break_state st. unfold session_ok, chart_ok, work_ok, engine_ok. simpl.
  intros (Hc & Hw & He) Hb. split; [exact Hc|]. split; [exact Hw|].
  destruct br; [exact He|].
  destruct b; [specialize (Hb eq_refl); discriminate Hb|].
  destruct He as (H1 & _ & H3 & H4). repeat split; assumption.
Qed.

Lemma intersection_keeps i ratio h steps st :
  session_ok st -> session_ok (onIntersection i ratio h steps st).
Proof.
  intros H. unfold onIntersection.
  set (o := if negb (baselineRendered (vars st)) && i then _
            else returned st).
  assert (H1 : session_ok o
               /\ (i = true -> baselineRendered (vars o) = true)).
  { subst o. destruct (baselineRendered (vars st)) eqn:B;
      cbn [negb andb state_of].
    - split; [exact H|intros _; exact B].
    - destruct i.
      + split; [now apply first_view_keeps|intros _].
        clear. break_state st. evaluate; reflexivity.
      + split; [exact H|discriminate]. }
  destruct H1 as [H1 B1].
  destruct o as [st1|st1]; cbn [and_then state_of] in *; [|exact H1].
  set (st2 := set_armed _ st1).
  assert (H2 : session_ok st2).
  { subst st2. apply arm_keeps; [exact H1|].
    intros E. apply B1. now destruct i. }
  change (armed (vars st2)) with (i && Qle_bool (3 # 10) ratio).
  destruct (i && Qle_bool (3 # 10) ratio); [|exact H2].
  now apply scroll_keeps.
Qed.

(** X23: the first view with no mean rating.  When no aggregate of
    [genreData] has a rating, the observer callback that first finds the
    chart container in view draws the scatter and throws where the
    first annotation of the guides is written: [baselineRendered] and
    [quadrantsAdded] are set, but the engine is not armed by it, whatever
    the intersection ratio, no card becomes active and the router is not
    called. *)
Theorem first_view_without_mean (ratio innerHeight : Q) (steps : list Card)
    (st : State) :
  meanRating = None ->
  baselineRendered (vars st) = false ->
  let o := onIntersection true ratio innerHeight steps st in
  has_thrown o = true
  /\ baselineRendered (vars o) = true
  /\ mode (vars o) = mode_scatter
  /\ quadrantsAdded (vars o) = true
  /\ armed (vars o) = armed (vars st)
  /\ active (vars o) = active (vars st)
  /\ title (page o) = "The Hit Matrix"
  /\ new_calls st o
     = [call_drawScatter; call_showFineNote; call_addQuadrantsIfNeeded].
Proof.
  clear csv.
  break_state st.
  (split_mean; [intros Hq; discriminate Hq|]).
  intros _ Hb. simpl in Hb. subst br.
  evaluate. do 7 (split; [reflexivity|]). read_new_calls. reflexivity.
Qed.

Lemma step_keeps e st : session_ok st -> session_ok (step st e).
Proof.
  intros H. destruct e as [h steps|i ratio h steps|i]; simpl.
  - now apply scroll_keeps.
  - now apply intersection_keeps.
  - now apply fire_keeps.
Qed.

Lemma cold_session_ok html : session_ok (cold html).
Proof.
  unfold session_ok, chart_ok, work_ok, engine_ok. simpl.
  repeat split; auto.
Qed.

(** X16: the chart throughout a page session.  From a cold start,
    whatever the page, the cards and the events, in whatever order the
    pending work runs, and also when a handler throws for want of a mean
    rating: the chart agrees with [mode], the scatter with its quadrant
    guides, of which the second annotation is missing when there is no
    mean rating; the only
    fear-label file that is asked for, cached or awaited is the corrected
    one, and [drawFearBarsGrouped] is never called; and until the chart
    container is first in view nothing is drawn, armed, active or
    pending, while from then on there is always a chart. *)
Theorem session_chart_invariant (html : Page) (events : list Event) :
  chart_ok (run (cold html) events)
  /\ work_ok (run (cold html) events)
  /\ engine_ok (run (cold html) events).
Proof.
  generalize (cold_session_ok html). generalize (cold html) as st.
  induction events as [|e events IH]; intros st H; [exact H|].
  apply IH. now apply step_keeps.
Qed.

(* ================================================================== *)
(** ** Requests that overtake the crossfade *)
(* ================================================================== *)

Lemma go_bound scene st :
  existsb bars_bound (pending (sched st)) = true ->
  existsb bars_bound (pending (sched (go scene st))) = true.
Proof.
  clear csv.
  destruct (in_dec string_dec scene recognized_scenes) as [H|H].
  - break_state st.
    each_scene H
      ltac:(destruct m, qa, hf, mb; evaluate; find_horror;
            intros Hp;
            first [ exact Hp
                  | rewrite existsb_app; simpl; apply orb_true_r ]).
  - now rewrite (go_unrecognized scene st H).
Qed.

Lemma go_all_bound scenes : forall st,
  existsb bars_bound (pending (sched st)) = true ->
  existsb bars_bound (pending (sched (go_all st scenes))) = true.
Proof.
  clear csv.
  induction scenes as [|scene scenes IH]; intros st H; [exact H|].
  apply IH. now apply go_bound.
Qed.

Lemma go_bars_pending b st :
  In b bars_scenes ->
  is_bars (mode (vars st)) = false ->
  existsb bars_bound (pending (sched (go b st))) = true.
Proof.
  clear csv.
  intros H Hm. break_state st. simpl in Hm.
  each_scene H
    ltac:(destruct m, mb; try discriminate Hm; evaluate;
          rewrite existsb_app; simpl; apply orb_true_r).
Qed.

(** X17: a bars request is not cancelled.  Once a bars scene is requested
    from another chart, whatever scenes are requested in between, before
    the crossfade has ended, the pending work can be run to its end, and
    in whatever order it has been, the bars are drawn: a scatter scene
    that overtakes the crossfade is drawn over, and a bars scene that
    interrupts it starts a crossfade of its own. *)
Theorem bars_request_is_not_cancelled (b : string) (scenes : list string)
    (st : State) :
  In b bars_scenes ->
  is_bars (mode (vars st)) = false ->
  (forall order,
     let st' := fires order (go_all (go b st) scenes) in
     pending (sched st') = [] -> mode (vars st') = mode_bars)
  /\ exists order,
       pending (sched (fires order (go_all (go b st) scenes))) = [].
Proof.
  intros H Hm. split; [|apply fires_completes].
  intros order st' Hp.
  pose proof (go_all_bound scenes _ (go_bars_pending b st H Hm)) as Hb.
  destruct (fires_keeps order (go_all (go b st) scenes)) as [Hh _].
  apply idle_is_bars; [|exact Hp].
  apply Hh. unfold heading_to_bars. now rewrite Hb, orb_true_r.
Qed.

(* ================================================================== *)
(** ** The keyword panels *)
(* ================================================================== *)

(** What the consolidation does to a keyword: a variant becomes its
    canonical keyword, anything else stays. *)
Lemma mapKeyword_cases (k : string) :
  (exists canonical variants,
     In (canonical, variants) Text.keywordMapping /\ In k variants
     /\ Text.mapKeyword k = canonical)
  \/ (Text.mapKeyword k = k
      /\ forall canonical variants,
           In (canonical, variants) Text.keywordMapping -> ~ In k variants).
Proof.
  clear toNumber movies csv.
  unfold Text.mapKeyword.
  change Text.keywordLookup with
    [ ("survival", "survival"); ("survival horror", "survival");
      ("haunted", "haunted"); ("haunted house", "haunted");
      ("haunting", "haunted"); ("supernatural", "supernatural");
      ("supernatural horror", "supernatural");
      ("possession", "possession"); ("demonic possession", "possession") ].
  cbn [map_get].
  repeat match goal with
         | |- context [String.eqb ?a k] =>
             destruct (String.eqb_spec a k) as [<-|?];
             [left; do 2 eexists; split; [|split; [|reflexivity]];
              [cbn; eauto 6|cbn; eauto 6]|]
         end.
  right. split; [reflexivity|].
  intros canonical variants H. cbn in H.
  repeat (destruct H as [[= <- <-]|H]; [cbn; intuition congruence|]).
  destruct H.
Qed.

(** X18: the keywords that are counted.  Whatever [normalize] does and
    whatever the rows, every counted pair has a category that is not
    empty and a keyword that is not empty, not "n/a" or "na", not on the
    exclusion list, and no variant of a consolidated keyword other than
    the canonical one. *)
Theorem counted_keywords_are_clean (normalize : string -> string)
    (data : list Text.Row) :
  Forall (fun p =>
            Text.category p <> ""
            /\ Text.kept (Text.keyword p) = true
            /\ Text.excludeKeywords_has (Text.keyword p) = false
            /\ forall canonical variants,
                 In (canonical, variants) Text.keywordMapping ->
                 In (Text.keyword p) variants ->
                 Text.keyword p = canonical)
         (Text.catKwPairs normalize data).
Proof.
  clear toNumber movies csv.
  apply Forall_forall. intros p Hp.
  unfold Text.catKwPairs in Hp. apply in_flat_map in Hp.
  destruct Hp as (d & _ & Hp). unfold Text.pairs_of in Hp.
  destruct (falsy (option_map trim (Text.Fear_Category d))) eqn:Hc;
    [destruct Hp|].
  destruct (falsy (Text.TMDb_Keywords d)); [destruct Hp|].
  simpl in Hp. apply in_map_iff in Hp. destruct Hp as (k & <- & Hk).
  apply filter_In in Hk. destruct Hk as [Hk Hx].
  apply filter_In in Hk. destruct Hk as [_ Hk].
  apply negb_true_iff in Hx. cbn [Text.category Text.keyword].
  split.
  { destruct (option_map trim (Text.Fear_Category d)) as [c|];
      [|discriminate Hc].
    simpl in *. intros E. rewrite E in Hc. discriminate Hc. }
  destruct (mapKeyword_cases k) as [(c & vs & Hin & Hv & ->)|[-> Hno]].
  - cbn in Hin.
    repeat (destruct Hin as [[= <- <-]|Hin];
            [split; [reflexivity|]; split; [reflexivity|];
             intros c' vs' H' Hv'; cbn in H';
             repeat (destruct H' as [[= <- <-]|H'];
                     [first [reflexivity
                            |cbn in Hv'; intuition discriminate]|]);
             destruct H'|]).
    destruct Hin.
  - split; [exact Hk|]. split; [exact Hx|].
    intros c vs Hin Hv. destruct (Hno c vs Hin Hv).
Qed.

Lemma filter_none {A : Type} (f : A -> bool) (l : list A) :
  (forall x, In x l -> f x = false) -> filter f l = [].
Proof.
  clear toNumber movies csv.
  induction l as [|x l IH]; intros H; [reflexivity|]. simpl.
  rewrite (H x (or_introl eq_refl)). apply IH. intros y Hy. apply H. now right.
Qed.

(** In a list in descending order of size, the elements of at least a
    given size are the leading ones. *)
Lemma filter_threshold_prefix {A : Type} (size : A -> nat)
    (R : A -> A -> Prop) (t : nat) (l : list A) :
  (forall a b, R a b -> size b <= size a) ->
  StronglySorted R l ->
  filter (fun x => t <=? size x) l
  = firstn (List.length (filter (fun x => t <=? size x) l)) l.
Proof.
  clear toNumber movies csv.
  intros HR. induction 1 as [|x l Hs IH Hx]; [reflexivity|]. simpl.
  destruct (Nat.leb_spec t (size x)) as [Ht|Ht].
  - simpl. now rewrite <- IH.
  - rewrite filter_none; [reflexivity|].
    intros y Hy. rewrite Forall_forall in Hx. specialize (HR _ _ (Hx y Hy)).
    apply Nat.leb_gt. lia.
Qed.

Lemma occurrences_pos k l : In k l -> 1 <= occurrences k l.
Proof.
  clear toNumber movies csv.
  intros H. destruct (occurrences k l) eqn:E; [|lia].
  apply occurrences_0 in E. contradiction.
Qed.

(** X19: the overall keywords.  The top ten are at most ten keywords, all
    of them when there are no more; no keyword is there twice, each is
    there with the number of pairs that carry it, and they are in
    descending order of that number, equal numbers in the order in which
    the keywords are first met; every other keyword has no more pairs
    than each of the ten.  What the page shows of them, those with three
    pairs or more, are the leading ones of the ten. *)
Theorem overall_keywords (normalize : string -> string)
    (data : list Text.Row) :
  let keys := map Text.keyword (Text.catKwPairs normalize data) in
  let top := Text.top10Overall normalize data in
  let shown := Text.shown_overall normalize data in
  List.length top
  = Nat.min 10 (List.length (Text.allKeywordCounts normalize data))
  /\ NoDup (map fst top)
  /\ Forall (fun kc => snd kc = occurrences (fst kc) keys /\ 1 <= snd kc) top
  /\ StronglySorted
       (desc_then snd
          (fun a b => first_index (fst a) keys < first_index (fst b) keys))
       top
  /\ (forall k, In k keys ->
                In k (map fst top)
                \/ Forall (fun kc => occurrences k keys <= snd kc) top)
  /\ shown = firstn (List.length shown) top
  /\ Forall (fun kc => 3 <= snd kc) shown.
Proof.
  clear toNumber movies csv.
  intros keys top shown. subst keys.
  set (pairs := Text.catKwPairs normalize data) in *.
  pose proof (d3_groups_ok pairs Text.keyword) as [ND KS SZ OR _].
  set (keys := map Text.keyword pairs) in *.
  set (g := d3_groups pairs Text.keyword) in *.
  set (all := Text.allKeywordCounts normalize data).
  assert (Hall : all = map (fun kv => (fst kv, List.length (snd kv))) g)
    by reflexivity.
  assert (Hfst : map fst all = map fst g).
  { rewrite Hall, map_map. reflexivity. }
  set (before := fun a b : string * nat =>
                   first_index (fst a) keys < first_index (fst b) keys).
  set (gt := fun a b : string * nat => descending_gt (snd a) (snd b)).
  assert (Hb : StronglySorted before all).
  { apply (StronglySorted_map fst
             (fun a b => first_index a keys < first_index b keys)).
    rewrite Hfst. exact OR. }
  pose proof (js_sort_desc snd before all Hb) as Hs. fold gt in Hs.
  pose proof (js_sort_perm gt all) as Hp.
  assert (Ht : top = firstn 10 (js_sort gt all)) by reflexivity.
  assert (Hin : forall kc, In kc (js_sort gt all) ->
                           snd kc = occurrences (fst kc) keys
                           /\ In (fst kc) keys).
  { intros kc Hkc. apply (Permutation_in _ Hp) in Hkc.
    rewrite Hall in Hkc. apply in_map_iff in Hkc.
    destruct Hkc as ([k v] & <- & Hkv). simpl. split.
    - apply (SZ k v Hkv).
    - apply KS. change k with (fst (k, v)). now apply in_map. }
  pose proof Hs as Hs'.
  rewrite <- (firstn_skipn 10 (js_sort gt all)) in Hs'.
  apply StronglySorted_app_split in Hs'. destruct Hs' as [Hs1 Hs2].
  assert (Hweak : forall a b : string * nat,
                    desc_then snd before a b -> snd b <= snd a).
  { intros a b [H|[H _]]; lia. }
  split; [|split; [|split; [|split; [|split; [|split]]]]].
  - rewrite Ht, length_firstn. now rewrite (Permutation_length Hp).
  - rewrite Ht, <- firstn_map. apply NoDup_firstn.
    eapply Permutation_NoDup;
      [apply Permutation_map, Permutation_sym, Hp|].
    now rewrite Hfst.
  - apply Forall_forall. intros kc Hkc. rewrite Ht in Hkc.
    apply slice0_In in Hkc. destruct (Hin kc Hkc) as [E Hk].
    split; [exact E|]. rewrite E. now apply occurrences_pos.
  - rewrite Ht. exact Hs1.
  - intros k Hk. apply KS in Hk. apply in_map_iff in Hk.
    destruct Hk as ([k' v] & E & Hkv). simpl in E. subst k'.
    assert (Hkc : In (k, List.length v) (js_sort gt all)).
    { apply (Permutation_in _ (Permutation_sym Hp)). rewrite Hall.
      apply in_map_iff. exists (k, v). split; [reflexivity|exact Hkv]. }
    rewrite <- (firstn_skipn 10 (js_sort gt all)) in Hkc.
    apply in_app_or in Hkc. destruct Hkc as [Hkc|Hkc].
    + left. rewrite Ht. change k with (fst (k, List.length v)).
      now apply in_map.
    + right. apply Forall_forall. intros a Ha. rewrite Ht in Ha.
      rewrite <- (SZ k v Hkv).
      apply (Hweak a (k, List.length v)). now apply Hs2.
  - unfold shown, Text.shown_overall. fold top.
    apply (filter_threshold_prefix snd (desc_then snd before)); [exact Hweak|].
    rewrite Ht. exact Hs1.
  - apply Forall_forall. intros kc Hkc. unfold shown, Text.shown_overall in Hkc.
    apply filter_In in Hkc. destruct Hkc as [_ Hkc]. now apply Nat.leb_le.
Qed.

(** X20: the supergroups of the keyword panels.  Each of the three
    supergroups of the keyword analysis holds exactly the categories that
    the bar chart maps to the supergroup of that name; the fourth
    supergroup of the bar chart, "Cosmic & Moral Reckonings", is the
    only one with no keyword panel: it is not among the supergroups of
    the keyword analysis, and the two categories that the bar chart maps
    to it are in none of them. *)
Theorem keyword_supergroups_agree_with_bars :
  Forall (fun entry =>
            forall c : string,
              existsb (String.eqb c) (snd entry)
              = option_string_eqb (FEAR_GROUP_MAP_get c) (Some (fst entry)))
         Text.supergroups
  /\ incl (map fst Text.supergroups) supergroups
  /\ (forall name, In name supergroups ->
       ~ In name (map fst Text.supergroups) ->
       name = "Cosmic & Moral Reckonings")
  /\ ~ In "Cosmic & Moral Reckonings" (map fst Text.supergroups)
  /\ In "Cosmic & Moral Reckonings" supergroups
  /\ (forall c, In c [ "Ecological / Natural Menace";
                       "Transgression & Moral Punishment" ] ->
       FEAR_GROUP_MAP_get c = Some "Cosmic & Moral Reckonings"
       /\ Forall (fun entry => ~ In c (snd entry)) Text.supergroups).
Proof.
  clear toNumber movies csv.
  split; [|split; [|split; [|split; [|split]]]].
  - unfold Text.supergroups.
    repeat (apply Forall_cons; [|]); [..|apply Forall_nil];
      intros c; unfold FEAR_GROUP_MAP_get, FEAR_GROUP_MAP;
      cbn [snd fst existsb map_get];
      repeat match goal with
             | |- context [String.eqb c ?a] =>
                 rewrite (String.eqb_sym c a)
             end;
      repeat match goal with
             | |- context [String.eqb ?a c] =>
                 destruct (String.eqb_spec a c) as [<-|?]; [reflexivity|]
             end;
      reflexivity.
  - intros x Hx. cbn in Hx. unfold supergroups.
    repeat (destruct Hx as [<-|Hx]; [cbn; tauto|]). destruct Hx.
  - intros name H Hn. unfold supergroups in H. cbn in H, Hn.
    repeat (destruct H as [<-|H]; [first [reflexivity|exfalso; tauto]|]).
    destruct H.
  - cbn. intuition discriminate.
  - unfold supergroups. cbn. tauto.
  - intros c Hc. cbn in Hc.
    repeat (destruct Hc as [<-|Hc];
            [split; [reflexivity|];
             repeat (apply Forall_cons;
                     [cbn; intuition discriminate|]);
             apply Forall_nil|]).
    destruct Hc.
Qed.

End Program.

(* ================================================================== *)
(** ** The statements at concrete inputs *)
(* ================================================================== *)

Example trim_ascii :
  trim "  Grief & Familial Trauma " = "Grief & Familial Trauma".
Proof. reflexivity. Qed.

(** A no-break space (U+00A0) in front and a line separator (U+2028)
    behind are trimmed as well. *)
Example trim_unicode :
  trim (String (ascii_of_nat 194) (String (ascii_of_nat 160)
          ("Contagion & Mutation"
           ++ String (ascii_of_nat 226) (String (ascii_of_nat 128)
                (String (ascii_of_nat 168) EmptyString)))))
  = "Contagion & Mutation".
Proof. reflexivity. Qed.

Example split_genres :
  split_comma_space [] "Horror, Thriller, Mystery"
  = ["Horror"; "Thriller"; "Mystery"].
Proof. reflexivity. Qed.

Example explode_views :
  explode number (movie "Horror, Thriller" "1,000" "7.5")
  = [ {| row_genre := "Horror"; views := Some (1000 # 1)%Q;
         rating := Some (15 # 2)%Q |};
      {| row_genre := "Thriller"; views := Some (1000 # 1)%Q;
         rating := Some (15 # 2)%Q |} ].
Proof. vm_compute. reflexivity. Qed.

(** The numeral "6.1" denotes the double nearest to 6.1, which is below
    it. *)
Example number_6_1 :
  number "6.1" = Some (3433994715870003 # 562949953421312)%Q
  /\ (3433994715870003 # 562949953421312 < 61 # 10)%Q.
Proof. split; [vm_compute; reflexivity|reflexivity]. Qed.

(** The mean of three averages of 6.1 is rounded below them: the
    critical-darlings focus leaves "Horror", whose views are below the
    mean, undimmed, though its rating is not above the mean of the
    ratings taken as real numbers. *)
Example critical_darlings_rounded_mean :
  map (fun d => (genre d, avg_imdb d, total_views d))
      (genreData number three_at_6_1)
  = [ ("Horror", number "6.1", 5000%Q); ("Drama", number "6.1", 10000%Q);
      ("Comedy", number "6.1", 15000%Q) ]
  /\ meanRating number three_at_6_1
     = Some (6867989431740005 # 1125899906842624)%Q
  /\ (6867989431740005 # 1125899906842624
      < 3433994715870003 # 562949953421312)%Q
  /\ meanViews number three_at_6_1 = Some 10000%Q
  /\ map (shouldDim number three_at_6_1 "critical-darlings")
         (genreData number three_at_6_1)
     = [false; true; true].
Proof. repeat split; vm_compute; reflexivity. Qed.

(** The scenario of the spec: six "Horror" rows, one of them also
    "Thriller", give one aggregate, for Horror. *)
Example scenario_genreData :
  map (fun d => (genre d, genre_count d)) (genreData number scenario_movies)
  = [("Horror", 6)].
Proof. vm_compute. reflexivity. Qed.

(** C7 at the scenario of the spec: "Thriller" has one row. *)
Lemma rare_genre_excluded_witness :
  membership number scenario_movies "Thriller" < 5
  /\ ~ In "Thriller" (map genre (genreData number scenario_movies))
  /\ ~ In "Thriller" (map genre (top10 number scenario_movies)).
Proof.
  assert (H : membership number scenario_movies "Thriller" < 5)
    by (vm_compute; lia).
  split; [exact H|].
  pose proof (rare_genre_excluded number scenario_movies sample_csv
                "Thriller" H) as (H1 & H2 & _).
  split; [exact H1|exact H2].
Defined.

(** C9 at "bars_grouped", a scene that the comment above [go] lists and
    [go] has no branch for. *)
Lemma unrecognized_scene_is_noop_witness :
  ~ In "bars_grouped" recognized_scenes
  /\ go number scenario_movies "bars_grouped" (cold sample_page)
     = returned (cold sample_page).
Proof.
  assert (H : ~ In "bars_grouped" recognized_scenes)
    by (simpl; intuition discriminate).
  split; [exact H|].
  exact (proj1 (unrecognized_scene_is_noop number scenario_movies
                  "bars_grouped" (cold sample_page) H)).
Defined.

(** The scenario of the spec: of cards centred at 100, 400 and 900 in a
    viewport of height 800, the card at 400 is the active one. *)
Example scenario_active_card :
  active (vars (setActiveByCenter number scenario_movies 800 three_cards
                  (set_armed true (cold sample_page))))
  = Some 1.
Proof. vm_compute. reflexivity. Qed.

(** C5 at that scenario. *)
Lemma active_card_is_nearest_witness :
  armed (vars (set_armed true (cold sample_page))) = true
  /\ (exists el, In el three_cards /\ in_viewport 800 (rect el) = true)
  /\ exists i el,
       active (vars (setActiveByCenter number scenario_movies 800 three_cards
                       (set_armed true (cold sample_page))))
       = Some i
       /\ nearest_card 800 three_cards i el.
Proof.
  assert (H1 : armed (vars (set_armed true (cold sample_page))) = true)
    by reflexivity.
  assert (H2 : exists el, In el three_cards
                          /\ in_viewport 800 (rect el) = true).
  { exists (card_at 400). split; [simpl; tauto|reflexivity]. }
  split; [exact H1|]. split; [exact H2|].
  exact (proj1 (active_card_is_nearest number scenario_movies 800 three_cards
                  (set_armed true (cold sample_page)) H1) H2).
Defined.

(** C1 as the spec has it fails at the bars scene: from a cold start the
    router and the work it leaves behind call five functions, and
    [restoreFromHorrorZoom] is none of them. *)
Lemma bars_scene_never_restores :
  new_calls (cold sample_page)
    (fires sample_csv [0; 0]
       (go number scenario_movies "bars" (cold sample_page)))
  = [ call_showMethodologyBtn; call_crossfadeOut; call_drawFearBars;
      call_hideFineNote; call_crossfadeIn ]
  /\ pending (sched (fires sample_csv [0; 0]
                       (go number scenario_movies "bars" (cold sample_page))))
     = []
  /\ ~ In call_restoreFromHorrorZoom
        (new_calls (cold sample_page)
           (fires sample_csv [0; 0]
              (go number scenario_movies "bars" (cold sample_page)))).
Proof.
  assert (E : new_calls (cold sample_page)
                (fires sample_csv [0; 0]
                   (go number scenario_movies "bars" (cold sample_page)))
              = [ call_showMethodologyBtn; call_crossfadeOut;
                  call_drawFearBars; call_hideFineNote; call_crossfadeIn ])
    by (vm_compute; reflexivity).
  split; [exact E|]. split; [vm_compute; reflexivity|].
  rewrite E. simpl. intuition discriminate.
Qed.

(** C3 as the spec has it fails after baseline, horror, bars: the bars
    are drawn, no work is pending and both overlay flags are still
    set. *)
Lemma bars_after_horror_keeps_flags :
  all_settled number scenario_movies sample_csv (cold sample_page)
    baseline_horror_bars
  /\ mode (vars (run_settled number scenario_movies sample_csv
                   (cold sample_page) baseline_horror_bars))
     = mode_bars
  /\ quadrantsAdded
       (vars (run_settled number scenario_movies sample_csv
                (cold sample_page) baseline_horror_bars))
     = true
  /\ isHorrorFocused
       (vars (run_settled number scenario_movies sample_csv
                (cold sample_page) baseline_horror_bars))
     = true.
Proof. repeat split; vm_compute; reflexivity. Qed.

(** C2 at the scenario of the spec, the bars being drawn when the
    crossfade and then the download have ended. *)
Lemma router_convergence_witness :
  map fst [("baseline", []); ("horror", []); ("bars", [0; 0]);
           ("baseline", @nil nat)]
  = ["baseline"; "horror"; "bars"; "baseline"]
  /\ map fst [("baseline", @nil nat)] = ["baseline"]
  /\ all_settled number scenario_movies sample_csv (cold sample_page)
       [("baseline", []); ("horror", []); ("bars", [0; 0]); ("baseline", [])]
  /\ observe (run_settled number scenario_movies sample_csv (cold sample_page)
                [("baseline", []); ("horror", []); ("bars", [0; 0]);
                 ("baseline", [])])
     = observe (run_settled number scenario_movies sample_csv
                  (cold sample_page) [("baseline", [])]).
Proof.
  assert (H4 : map fst [("baseline", []); ("horror", []); ("bars", [0; 0]);
                        ("baseline", @nil nat)]
               = ["baseline"; "horror"; "bars"; "baseline"])
    by reflexivity.
  assert (H1 : map fst [("baseline", @nil nat)] = ["baseline"])
    by reflexivity.
  assert (Hs : all_settled number scenario_movies sample_csv
                 (cold sample_page)
                 [("baseline", []); ("horror", []); ("bars", [0; 0]);
                  ("baseline", [])])
    by (vm_compute; repeat split; reflexivity).
  split; [exact H4|]. split; [exact H1|]. split; [exact Hs|].
  exact (proj1 (router_convergence number scenario_movies sample_csv
                  sample_page _ _ H4 H1 Hs)).
Defined.

Lemma twenty_and_five_counts :
  In (datum_at (genreData number twenty_and_five) 0)
     (genreData number twenty_and_five)
  /\ In (datum_at (genreData number twenty_and_five) 1)
        (genreData number twenty_and_five)
  /\ genre_count (datum_at (genreData number twenty_and_five) 0) = 20
  /\ genre_count (datum_at (genreData number twenty_and_five) 1) = 5
  /\ d3_max (map genre_count (genreData number twenty_and_five)) = Some 20.
Proof.
  repeat split; try (vm_compute; reflexivity).
  - vm_compute. left. reflexivity.
  - vm_compute. right. left. reflexivity.
Qed.

(** C4 at twenty titles of one genre against five of another, in the
    arithmetic of the code: the two bubbles are on the scatter, the count
    of the first is four times the count of the second, and they are
    drawn with the radii 50 and 27.5, whose ratio is 20/11 and not 2.
    The comment on the scale promises areas in proportion to the counts,
    which the range from 5 to 50 does not give. *)
Lemma radius_ratio_is_not_two :
  In (new_bubble (datum_at (genreData number twenty_and_five) 0))
     (bubbles (svg (drawScatter number twenty_and_five (cold sample_page))))
  /\ In (new_bubble (datum_at (genreData number twenty_and_five) 1))
        (bubbles (svg (drawScatter number twenty_and_five (cold sample_page))))
  /\ genre_count (b_datum (new_bubble (datum_at (genreData number twenty_and_five) 0)))
     = 4 * genre_count (b_datum (new_bubble (datum_at (genreData number twenty_and_five) 1)))
  /\ radius_double number twenty_and_five
       (new_bubble (datum_at (genreData number twenty_and_five) 0))
     = Some 50%Q
  /\ radius_double number twenty_and_five
       (new_bubble (datum_at (genreData number twenty_and_five) 1))
     = Some (55 # 2)%Q
  /\ ~ (50 / (55 # 2) == 2)%Q
  /\ (50 / (55 # 2) == 20 # 11)%Q.
Proof.
  destruct twenty_and_five_counts as (HA & HB & cA & cB & Hmax).
  split; [apply in_map; exact HA|]. split; [apply in_map; exact HB|].
  split; [vm_compute; reflexivity|].
  split; [vm_compute; reflexivity|].
  split; [vm_compute; reflexivity|].
  split; [intros E; vm_compute in E; discriminate E|].
  vm_compute. reflexivity.
Qed.

(** C5 as the spec has it fails at two cards whose centres are equally
    far from the middle of the viewport: both are in the viewport, the
    distances tie as real numbers, and the second card becomes the active
    one, because the centre of the second is rounded when it is
    computed and its distance comes out the smaller. *)
Lemma tied_cards_activate_the_second :
  armed (vars (set_armed true (cold sample_page))) = true
  /\ in_viewport 800 (rect tied_first) = true
  /\ in_viewport 800 (rect tied_second) = true
  /\ (exact_dist 800 (rect tied_first) == exact_dist 800 (rect tied_second))%Q
  /\ (dist 800 (rect tied_second) < dist 800 (rect tied_first))%Q
  /\ active (vars (setActiveByCenter number scenario_movies 800 tied_cards
                     (set_armed true (cold sample_page))))
     = Some 1.
Proof. repeat split; vm_compute; reflexivity. Qed.

(** X4 at fifty titles, the upper end of the lowest legend entry. *)
Lemma colour_against_legend_witness :
  5 <= 50
  /\ legend_class 51 = Some (colorScale 50)
  /\ legend_class 50 <> Some (colorScale 50).
Proof.
  assert (H : 5 <= 50) by lia.
  split; [exact H|].
  split; [exact (proj1 (colour_against_legend 50 H))|].
  intros E. apply (proj2 (colour_against_legend 50 H)) in E.
  apply E. simpl. tauto.
Defined.

(** X6 at twenty titles against five. *)
Lemma radius_in_range_witness :
  In (datum_at (genreData number twenty_and_five) 1)
     (genreData number twenty_and_five)
  /\ In (datum_at (genreData number twenty_and_five) 0)
        (genreData number twenty_and_five)
  /\ genre_count (datum_at (genreData number twenty_and_five) 1)
     <= genre_count (datum_at (genreData number twenty_and_five) 0)
  /\ exists (m : nat) (ra rb : R),
       d3_max (map genre_count (genreData number twenty_and_five)) = Some m
       /\ r number twenty_and_five
            (genre_count (datum_at (genreData number twenty_and_five) 1))
          = Some ra
       /\ r number twenty_and_five
            (genre_count (datum_at (genreData number twenty_and_five) 0))
          = Some rb
       /\ (5 < ra)%R /\ (ra <= rb)%R /\ (rb <= 50)%R
       /\ (genre_count (datum_at (genreData number twenty_and_five) 0) = m
           -> rb = 50%R).
Proof.
  assert (Ha : In (datum_at (genreData number twenty_and_five) 1)
                  (genreData number twenty_and_five))
    by (vm_compute; right; left; reflexivity).
  assert (Hb : In (datum_at (genreData number twenty_and_five) 0)
                  (genreData number twenty_and_five))
    by (vm_compute; left; reflexivity).
  assert (Hc : genre_count (datum_at (genreData number twenty_and_five) 1)
               <= genre_count (datum_at (genreData number twenty_and_five) 0))
    by (vm_compute; lia).
  split; [exact Ha|]. split; [exact Hb|]. split; [exact Hc|].
  exact (radius_in_range number twenty_and_five _ _ Ha Hb Hc).
Defined.

(** X10 at the scene "bars_body" from a cold start, the rows arriving
    before the timer runs. *)
Lemma bars_scene_view_witness :
  In ("bars_body", Some "The Body as Battleground") bars_requests
  /\ pending (sched (cold sample_page)) = []
  /\ pending (sched (fires sample_csv [0; 0; 0]
                       (go number scenario_movies "bars_body"
                          (cold sample_page))))
     = []
  /\ mode (vars (fires sample_csv [0; 0; 0]
                   (go number scenario_movies "bars_body" (cold sample_page))))
     = mode_bars.
Proof.
  assert (H : In ("bars_body", Some "The Body as Battleground") bars_requests)
    by (simpl; tauto).
  assert (Hp : pending (sched (cold sample_page)) = []) by reflexivity.
  assert (Hq : pending (sched (fires sample_csv [0; 0; 0]
                                 (go number scenario_movies "bars_body"
                                    (cold sample_page))))
               = [])
    by (vm_compute; reflexivity).
  split; [exact H|]. split; [exact Hp|]. split; [exact Hq|].
  exact (proj1 (proj2 (bars_scene_view number scenario_movies sample_csv
                         "bars_body" (Some "The Body as Battleground")
                         (cold sample_page) H Hp)
                 [0; 0; 0] Hq)).
Defined.

(** X11 at the scene "bars_body" from a cold start: with the timer first,
    the bar of "Grief & Familial Trauma" stays undimmed. *)
Lemma supergroup_focus_needs_the_rows_witness :
  In ("bars_body", Some "The Body as Battleground") bars_requests
  /\ is_bars (mode (vars (cold sample_page))) = false
  /\ fearRows (vars (cold sample_page)) = None
  /\ pending (sched (cold sample_page)) = []
  /\ Forall (fun b => bar_dimmed b = false)
       (bars (svg (fire sample_csv 0 (fire sample_csv 1 (fire sample_csv 0
          (go number scenario_movies "bars_body" (cold sample_page)))))))
  /\ map (bar_dims (Some "The Body as Battleground"))
       (map bar_datum
          (bars (svg (fire sample_csv 0 (fire sample_csv 1 (fire sample_csv 0
             (go number scenario_movies "bars_body" (cold sample_page))))))))
     = [false; true].
Proof.
  assert (H : In ("bars_body", Some "The Body as Battleground") bars_requests)
    by (simpl; tauto).
  assert (Hm : is_bars (mode (vars (cold sample_page))) = false)
    by reflexivity.
  assert (Hf : fearRows (vars (cold sample_page)) = None) by reflexivity.
  assert (Hp : pending (sched (cold sample_page)) = []) by reflexivity.
  split; [exact H|]. split; [exact Hm|]. split; [exact Hf|].
  split; [exact Hp|].
  split; [|vm_compute; reflexivity].
  exact (proj2 (proj2 (proj2 (proj2
           (supergroup_focus_needs_the_rows number scenario_movies sample_csv
              "bars_body" "The Body as Battleground" (cold sample_page)
              H Hm Hf Hp))))).
Defined.

(** X12 at the first bar of the corrected sample file. *)
Lemma bar_highlighted_by_its_supergroup_witness :
  mode (vars (bars_drawn number scenario_movies sample_csv sample_page))
  = mode_bars
  /\ nth_error
       (bars (svg (bars_drawn number scenario_movies sample_csv sample_page)))
       0
     = Some (new_bar (fear_bar contagion_count))
  /\ bar_datum (new_bar (fear_bar contagion_count)) = fear_bar contagion_count
  /\ In (fear contagion_count) FEAR_CATEGORY_NAMES
  /\ exists scene name,
       In (scene, Some name) bars_requests
       /\ FEAR_GROUP_MAP_get (fear contagion_count) = Some name.
Proof.
  assert (Hm : mode (vars (bars_drawn number scenario_movies sample_csv
                             sample_page)) = mode_bars)
    by (vm_compute; reflexivity).
  assert (Hi : nth_error
                 (bars (svg (bars_drawn number scenario_movies sample_csv
                               sample_page))) 0
               = Some (new_bar (fear_bar contagion_count)))
    by (vm_compute; reflexivity).
  assert (Hd : bar_datum (new_bar (fear_bar contagion_count))
               = fear_bar contagion_count)
    by reflexivity.
  assert (Hc : In (fear contagion_count) FEAR_CATEGORY_NAMES)
    by (simpl; tauto).
  split; [exact Hm|]. split; [exact Hi|]. split; [exact Hd|].
  split; [exact Hc|].
  destruct (bar_highlighted_by_its_supergroup number scenario_movies
              _ 0 _ _ Hm Hi Hd Hc) as (scene & name & H1 & H2 & _).
  exists scene, name. split; [exact H1|exact H2].
Defined.

(** X13 at the scene "horror" from a cold start. *)
Lemma scatter_scene_view_witness :
  In ("horror", notHorror) (scatter_requests number scenario_movies)
  /\ meanRating number scenario_movies <> None
  /\ has_thrown (go number scenario_movies "horror" (cold sample_page))
     = false
  /\ mode (vars (go number scenario_movies "horror" (cold sample_page)))
     = mode_scatter
  /\ isHorrorFocused
       (vars (go number scenario_movies "horror" (cold sample_page)))
     = true.
Proof.
  assert (H : In ("horror", notHorror)
                 (scatter_requests number scenario_movies))
    by (simpl; tauto).
  assert (Hq : meanRating number scenario_movies <> None)
    by (vm_compute; discriminate).
  split; [exact H|]. split; [exact Hq|].
  pose proof (scatter_scene_view number scenario_movies "horror" notHorror
                (cold sample_page) H
                (fun E => False_ind _ (Hq E))) as (H0 & H1 & _ & H3 & _).
  split; [exact H0|]. split; [exact H1|exact H3].
Defined.

(** X21 at five titles that are not rated, the scene "horror" from a cold
    start. *)
Lemma scatter_scene_without_mean_witness :
  In ("horror", notHorror) (scatter_requests number five_unrated)
  /\ meanRating number five_unrated = None
  /\ (is_scatter (mode (vars (cold sample_page))) = false
      \/ quadrantsAdded (vars (cold sample_page)) = false)
  /\ has_thrown (go number five_unrated "horror" (cold sample_page)) = true
  /\ isHorrorFocused (vars (go number five_unrated "horror"
                              (cold sample_page)))
     = false.
Proof.
  assert (H : In ("horror", notHorror) (scatter_requests number five_unrated))
    by (simpl; tauto).
  assert (Hq : meanRating number five_unrated = None)
    by (vm_compute; reflexivity).
  assert (Hc : is_scatter (mode (vars (cold sample_page))) = false
               \/ quadrantsAdded (vars (cold sample_page)) = false)
    by (left; reflexivity).
  split; [exact H|]. split; [exact Hq|]. split; [exact Hc|].
  pose proof (scatter_scene_without_mean number five_unrated "horror"
                notHorror (cold sample_page) H Hq Hc)
    as (H0 & _ & _ & H3 & _).
  split; [exact H0|exact H3].
Defined.

(** X14 at the scene "quadrants" on the baseline chart. *)
Lemma zoom_is_undone_witness :
  In "quadrants" scatter_scenes
  /\ mode (vars (baseline_drawn number scenario_movies sample_page))
     = mode_scatter
  /\ quadrantsAdded (vars (baseline_drawn number scenario_movies sample_page))
     = true
  /\ svg (go number scenario_movies "quadrants"
            (go number scenario_movies "horror-zoom"
               (baseline_drawn number scenario_movies sample_page)))
     = svg (go number scenario_movies "quadrants"
              (baseline_drawn number scenario_movies sample_page)).
Proof.
  assert (H : In "quadrants" scatter_scenes) by (simpl; tauto).
  assert (Hm : mode (vars (baseline_drawn number scenario_movies sample_page))
               = mode_scatter)
    by reflexivity.
  assert (Hq : quadrantsAdded
                 (vars (baseline_drawn number scenario_movies sample_page))
               = true)
    by reflexivity.
  split; [exact H|]. split; [exact Hm|]. split; [exact Hq|].
  exact (proj1 (proj2 (proj2
           (zoom_is_undone number scenario_movies "quadrants"
              (baseline_drawn number scenario_movies sample_page)
              H Hm Hq)))).
Defined.

(** X15 at the scenario of six horror titles. *)
Lemma horror_zoom_view_witness :
  In (datum_at (genreData number scenario_movies) 0)
     (genreData number scenario_movies)
  /\ notHorror (datum_at (genreData number scenario_movies) 0) = false
  /\ (is_scatter (mode (vars (cold sample_page))) = true
      \/ meanRating number scenario_movies <> None)
  /\ has_thrown (go number scenario_movies "horror-zoom" (cold sample_page))
     = false
  /\ horrorCenterLabel
       (svg (go number scenario_movies "horror-zoom" (cold sample_page)))
     = true.
Proof.
  assert (Hd : In (datum_at (genreData number scenario_movies) 0)
                  (genreData number scenario_movies))
    by (vm_compute; left; reflexivity).
  assert (Hn : notHorror (datum_at (genreData number scenario_movies) 0)
               = false)
    by (vm_compute; reflexivity).
  assert (Hq : is_scatter (mode (vars (cold sample_page))) = true
               \/ meanRating number scenario_movies <> None)
    by (right; vm_compute; discriminate).
  split; [exact Hd|]. split; [exact Hn|]. split; [exact Hq|].
  pose proof (horror_zoom_view number scenario_movies _ (cold sample_page)
                Hd Hn Hq) as (H0 & _ & _ & H3 & _).
  split; [exact H0|exact H3].
Defined.

(** X22 at five titles that are not rated, from a cold start. *)
Lemma horror_zoom_without_mean_witness :
  meanRating number five_unrated = None
  /\ is_scatter (mode (vars (cold sample_page))) = false
  /\ has_thrown (go number five_unrated "horror-zoom" (cold sample_page))
     = true
  /\ horrorCenterLabel
       (svg (go number five_unrated "horror-zoom" (cold sample_page)))
     = false.
Proof.
  assert (Hq : meanRating number five_unrated = None)
    by (vm_compute; reflexivity).
  assert (Hm : is_scatter (mode (vars (cold sample_page))) = false)
    by reflexivity.
  split; [exact Hq|]. split; [exact Hm|].
  pose proof (horror_zoom_without_mean number five_unrated
                (cold sample_page) Hq Hm) as (H0 & _ & _ & H3 & _).
  split; [exact H0|exact H3].
Defined.

(** X17 at the scenes baseline and horror requested after "bars" on the
    baseline chart. *)
Lemma bars_request_is_not_cancelled_witness :
  In "bars" bars_scenes
  /\ is_bars (mode (vars (baseline_drawn number scenario_movies sample_page)))
     = false
  /\ pending (sched (fires sample_csv [0; 0]
                       (go_all number scenario_movies
                          (go number scenario_movies "bars"
                             (baseline_drawn number scenario_movies
                                sample_page))
                          ["baseline"; "horror"])))
     = []
  /\ mode (vars (fires sample_csv [0; 0]
                   (go_all number scenario_movies
                      (go number scenario_movies "bars"
                         (baseline_drawn number scenario_movies sample_page))
                      ["baseline"; "horror"])))
     = mode_bars.
Proof.
  assert (H : In "bars" bars_scenes) by (simpl; tauto).
  assert (Hm : is_bars (mode (vars (baseline_drawn number scenario_movies
                                      sample_page))) = false)
    by reflexivity.
  assert (Hp : pending (sched (fires sample_csv [0; 0]
                                 (go_all number scenario_movies
                                    (go number scenario_movies "bars"
                                       (baseline_drawn number scenario_movies
                                          sample_page))
                                    ["baseline"; "horror"])))
               = [])
    by (vm_compute; reflexivity).
  split; [exact H|]. split; [exact Hm|]. split; [exact Hp|].
  exact (proj1 (bars_request_is_not_cancelled number scenario_movies
                  sample_csv "bars" ["baseline"; "horror"]
                  (baseline_drawn number scenario_movies sample_page)
                  H Hm)
           [0; 0] Hp).
Defined.

(** X23 at five titles that are not rated, from a cold start with the
    chart container fully in view. *)
Lemma first_view_without_mean_witness :
  meanRating number five_unrated = None
  /\ baselineRendered (vars (cold sample_page)) = false
  /\ has_thrown (onIntersection number five_unrated true 1 800 three_cards
                   (cold sample_page))
     = true
  /\ armed (vars (onIntersection number five_unrated true 1 800 three_cards
                    (cold sample_page)))
     = false.
Proof.
  assert (Hq : meanRating number five_unrated = None)
    by (vm_compute; reflexivity).
  assert (Hb : baselineRendered (vars (cold sample_page)) = false)
    by reflexivity.
  split; [exact Hq|]. split; [exact Hb|].
  pose proof (first_view_without_mean number five_unrated 1 800 three_cards
                (cold sample_page) Hq Hb) as (H0 & _ & _ & _ & H4 & _).
  split; [exact H0|exact H4].
Defined.
